(** * GoldPriceFetcher: a shallow embedding of the scraper and its sink

    The development follows [gold_price_scraper.py] and
    [firebase_config.py].  Python values are modelled as follows.

    - [str] is [string]: a sequence of code points below 256.
    - [float] is the kernel's binary64 [float]; [int] is [Z].
    - [list] is [list]; a [dict] is an association list in insertion
      order (iteration order is observable in the code); a [set] is a
      [gset].
    - an exception is a value of [Exception]; code that may raise returns
      a [result], and code that also drives the browser, the clock or the
      document store runs in the monad [M] over [World].
    - [logger] calls only append to the log stream and never raise; they
      are left out, but the arguments they evaluate are kept where the
      evaluation itself can raise.

    What the program cannot control is an oracle: the pages the browser
    shows, the clock, the answers of the document store and the builtins
    [float] and [str].  The [import] statements inside the methods are
    taken to succeed, and only exceptions below [Exception] are
    considered (no [KeyboardInterrupt]). *)

From Stdlib Require Import ZArith Ascii String Floats.
From Stdlib Require Uint63.
From stdpp Require Import base decidable option list strings gmap pretty.

Set Default Proof Using "Type".
Local Open Scope Z_scope.

(** ** Python strings *)

Module Str.

Fixpoint map (f : ascii → ascii) (s : string) : string :=
  match s with
  | EmptyString => EmptyString
  | String c s' => String (f c) (map f s')
  end.

Fixpoint forallb (p : ascii → bool) (s : string) : bool :=
  match s with
  | EmptyString => true
  | String c s' => p c && forallb p s'
  end.

Definition code (c : ascii) : N := N_of_ascii c.

Definition between (lo hi : N) (c : ascii) : bool :=
  ((lo <=? code c) && (code c <=? hi))%N.

(** [c.lower()] on one code point: A-Z and the Latin-1 capitals. *)
Definition lower_char (c : ascii) : ascii :=
  if between 65 90 c || (between 192 222 c && negb (code c =? 215)%N)
  then ascii_of_N (code c + 32)
  else c.

(** [s.lower()] *)
Definition lower : string → string := map lower_char.

(** [s.replace(old, new)] for one-character [old] and [new]. *)
Definition replace_char (old new c : ascii) : ascii :=
  if Ascii.eqb c old then new else c.

Definition replace (old new : ascii) : string → string :=
  map (replace_char old new).

(** [c in chars] *)
Fixpoint mem (c : ascii) (chars : string) : bool :=
  match chars with
  | EmptyString => false
  | String d chars' => Ascii.eqb c d || mem c chars'
  end.

Fixpoint lstrip_by (p : ascii → bool) (s : string) : string :=
  match s with
  | EmptyString => EmptyString
  | String c s' => if p c then lstrip_by p s' else s
  end.

Fixpoint rstrip_by (p : ascii → bool) (s : string) : string :=
  match s with
  | EmptyString => EmptyString
  | String c s' =>
      match rstrip_by p s' with
      | EmptyString => if p c then EmptyString else String c EmptyString
      | r => String c r
      end
  end.

(** [s.strip(chars)] *)
Definition strip_chars (chars : string) (s : string) : string :=
  lstrip_by (λ c, mem c chars) (rstrip_by (λ c, mem c chars) s).

(** [c.isspace()] *)
Definition is_space (c : ascii) : bool :=
  between 9 13 c || between 28 32 c || (code c =? 133)%N || (code c =? 160)%N.

(** [s.strip()] *)
Definition strip (s : string) : string :=
  lstrip_by is_space (rstrip_by is_space s).

(** [s.split(sep)] for a one-character separator. *)
Fixpoint split (sep : ascii) (s : string) : list string :=
  match s with
  | EmptyString => [EmptyString]
  | String c s' =>
      if Ascii.eqb c sep then EmptyString :: split sep s'
      else match split sep s' with
           | [] => [String c EmptyString]
           | p :: ps => String c p :: ps
           end
  end.

Fixpoint replicate (n : nat) (c : ascii) : string :=
  match n with
  | O => EmptyString
  | S n' => String c (replicate n' c)
  end.

(** [s.zfill(width)]: pad with zeros on the left, after a leading sign. *)
Definition zfill (width : nat) (s : string) : string :=
  let fill := replicate (width - String.length s) "0" in
  match s with
  | String c s' =>
      if Ascii.eqb c "+" || Ascii.eqb c "-" then String c (fill +:+ s')
      else fill +:+ s
  | EmptyString => fill
  end.

(** [\d] on code points below 256 *)
Definition is_digit (c : ascii) : bool := between 48 57 c.

(** [bool(s)] *)
Definition truthy (s : string) : bool :=
  match s with EmptyString => false | _ => true end.

End Str.

(** ** Exceptions and results *)

Inductive Exception :=
  | NameError (name : string)
  | ValueError (msg : string)
  | TypeError
  | AttributeError
  | KeyError (key : string)
  | TimeoutException
  | NoSuchElementException
  | WebDriverException
  | GoogleAPICallError.

Inductive result (A : Type) :=
  | Ok (a : A)
  | Raise (e : Exception).
Arguments Ok {A} a.
Arguments Raise {A} e.

Definition rbind {A B} (r : result A) (k : A → result B) : result B :=
  match r with
  | Ok a => k a
  | Raise e => Raise e
  end.

(** [try: body / except Exception: handler] for code without state. *)
Definition rcatch {A} (body : result A) (handler : Exception → A) : A :=
  match body with
  | Ok a => a
  | Raise e => handler e
  end.

(** ** Values stored in dictionaries *)

Definition dict (V : Type) := list (string * V).

Inductive PyVal :=
  | PStr (s : string)
  | PFloat (x : float)
  | PNone
  | PInfo (d : dict string)
  | PServerTimestamp.

(** [d[k] = v]: an existing key keeps its place, a new one goes last. *)
Fixpoint dict_set {V} (k : string) (v : V) (d : dict V) : dict V :=
  match d with
  | [] => [(k, v)]
  | (k', v') :: d' =>
      if String.eqb k' k then (k, v) :: d' else (k', v') :: dict_set k v d'
  end.

(** [d[k]], raising [KeyError] *)
Fixpoint dict_get {V} (k : string) (d : dict V) : result V :=
  match d with
  | [] => Raise (KeyError k)
  | (k', v) :: d' => if String.eqb k' k then Ok v else dict_get k d'
  end.

(** ** GoldPriceData *)

Record GoldPriceData := {
  jeweller : string;
  city : string;
  carat : string;
  price : float;
  date : string;
  source_url : option string;
  additional_info : dict string;
  timestamp : string
}.

Definition opt_str (o : option string) : PyVal :=
  match o with Some s => PStr s | None => PNone end.

Definition to_dict (self : GoldPriceData) : dict PyVal :=
  [ ("jeweller", PStr (jeweller self));
    ("city", PStr (city self));
    ("carat", PStr (carat self));
    ("price", PFloat (price self));
    ("date", PStr (date self));
    ("source_url", opt_str (source_url self));
    ("timestamp", PStr (timestamp self));
    ("additional_info", PInfo (additional_info self)) ].

Definition get_document_id (self : GoldPriceData) : string :=
  Str.replace " " "_"
    (Str.lower
       (jeweller self +:+ "_" +:+ city self +:+ "_" +:+ carat self
          +:+ "_" +:+ date self)).

(** ** Name resolution

    A name that is not local to a function is looked up among the names
    bound at module level of [gold_price_scraper.py] (its [import]
    statements, [logger] and its classes) and then among the builtins.
    The statement [import re] stands inside
    [TanishqScraper.scrape_city_prices], so it binds [re] as a local of
    that method only. *)

Definition module_globals : list string :=
  [ "json"; "time"; "argparse"; "datetime"; "timedelta"; "ABC";
    "abstractmethod"; "List"; "Dict"; "Any"; "Optional"; "logging";
    "logger"; "GoldPriceData"; "BaseJewellerScraper"; "TanishqScraper";
    "KalyanJewellersScraper"; "JoyalukkasJewellersScraper";
    "GoldPriceManager" ].

Definition scrape_city_prices_locals : list string :=
  [ "self"; "city"; "days"; "webdriver"; "Options"; "By"; "WebDriverWait";
    "EC"; "TimeoutException"; "NoSuchElementException"; "time"; "re" ].

(** No builtin is called [re]; the builtins the code uses ([len], [float],
    [zip], ...) are modelled where they are called. *)
Definition load_global (globals : list string) (name : string) : result unit :=
  if bool_decide (name ∈ globals) then Ok tt else Raise (NameError name).

(** ** TanishqScraper._parse_date *)

(** [re.match(r'\d{2}<sep>\d{2}<sep>\d{4}', s)]: the pattern is anchored
    at the start of [s] only. *)
Definition re_match_date (sep : ascii) (s : string) : bool :=
  match s with
  | String d1 (String d2 (String s1 (String m1 (String m2 (String s2
      (String y1 (String y2 (String y3 (String y4 _))))))))) =>
      Str.is_digit d1 && Str.is_digit d2 && Ascii.eqb s1 sep
      && Str.is_digit m1 && Str.is_digit m2 && Ascii.eqb s2 sep
      && Str.is_digit y1 && Str.is_digit y2 && Str.is_digit y3
      && Str.is_digit y4
  | _ => false
  end.

(** [day, month, year = parts] followed by the f-string. *)
Definition unpack_and_format (parts : list string) : result string :=
  match parts with
  | [day; month; year] =>
      Ok (year +:+ "-" +:+ Str.zfill 2 month +:+ "-" +:+ Str.zfill 2 day)
  | _ =>
      if bool_decide (3 < length parts)%nat
      then Raise (ValueError "too many values to unpack (expected 3)")
      else Raise (ValueError ("not enough values to unpack (expected 3, got "
                              +:+ pretty (length parts) +:+ ")"))
  end.

(** The body of the [try] block, with the module's global names as a
    parameter. *)
Definition parse_date_try (globals : list string) (date_text : string)
  : result string :=
  rbind (load_global globals "re") (λ _,
  if re_match_date "-" date_text
  then unpack_and_format (Str.split "-" date_text)
  else
  rbind (load_global globals "re") (λ _,
  if re_match_date "/" date_text
  then unpack_and_format (Str.split "/" date_text)
  else Ok date_text)).

Definition parse_date_in (globals : list string) (date_text : string)
  : string :=
  rcatch (parse_date_try globals date_text) (λ _, date_text).

Definition _parse_date : string → string := parse_date_in module_globals.

(** ** The pairing loop of [_extract_from_hidden_inputs] *)

(** [{'price': price, 'date': formatted_date}] *)
Record PricePoint := { point_price : float; point_date : string }.

(** [for i, (date_str, price) in enumerate(zip(dates_list, prices_list))],
    with the loop index [i] and the list [carat_data] built so far. *)
Fixpoint pairing_loop (days : Z) (i : Z) (pairs : list (string * float))
    (carat_data : list PricePoint) : list PricePoint :=
  match pairs with
  | [] => carat_data
  | (date_str, price) :: rest =>
      if days <=? i then carat_data
      else
        let formatted_date := _parse_date date_str in
        pairing_loop days (i + 1) rest
          (if Str.truthy formatted_date
           then carat_data ++
                  [ {| point_price := price; point_date := formatted_date |} ]
           else carat_data)
  end.

(** The loop followed by [carat_data.reverse()]. *)
Definition combine_dates_prices (days : Z) (dates_list : list string)
    (prices_list : list float) : list PricePoint :=
  reverse (pairing_loop days 0 (zip dates_list prices_list) []).

(** ** The world outside the interpreter

    A browser session is described by what the page will answer; the
    scraper cannot influence it.  [Raise] stands for the exception the
    Selenium call throws. *)

Record Popup := {
  is_displayed : result bool;
  click : result unit
}.

Record Element := {
  get_attribute : string → result (option string)
}.

Record Page := {
  chrome : result unit;                         (* webdriver.Chrome(options=...) *)
  get : string → result unit;                   (* driver.get(url) *)
  find_elements : string → result (list Popup); (* by CSS selector *)
  wait_until : string → result unit;            (* presence of a CSS selector *)
  find_element : string → result Element        (* by id *)
}.

(** [batch.set(doc_ref, data, merge=...)] *)
Record Write := {
  write_collection : string;
  write_document : string;
  write_data : dict PyVal;
  write_merge : bool
}.

Inductive Event :=
  | Sleep (seconds : Z)
  | ChromeStart (session : nat)
  | DriverGet (session : nat) (url : string)
  | PopupClick (session : nat) (selector : string)
  | DriverQuit (session : nat).

Record World := {
  launches : nat;                  (* browser sessions started so far *)
  clock_reads : nat;               (* calls of datetime.now() so far *)
  commit_calls : nat;              (* calls of batch.commit() so far *)
  committed : list (list Write);   (* the batches the store accepted *)
  trace : list Event
}.

Definition M (A : Type) : Type := World → World * result A.

#[global] Instance M_ret : MRet M := λ A a w, (w, Ok a).

#[global] Instance M_bind : MBind M := λ A B k m w,
  match m w with
  | (w', Ok a) => k a w'
  | (w', Raise e) => (w', Raise e)
  end.

Definition raise {A} (e : Exception) : M A := λ w, (w, Raise e).

Definition lift {A} (r : result A) : M A := λ w, (w, r).

(** [try: body / except Exception as e: handler] *)
Definition try_except {A} (body : M A) (handler : Exception → M A) : M A :=
  λ w, match body w with
       | (w', Ok a) => (w', Ok a)
       | (w', Raise e) => handler e w'
       end.

(** Run [body] and hand back how it ended. *)
Definition attempt {A} (body : M A) : M (result A) :=
  λ w, let '(w', r) := body w in (w', Ok r).

Definition emit (ev : Event) : M unit := λ w,
  ({| launches := launches w; clock_reads := clock_reads w;
      commit_calls := commit_calls w; committed := committed w;
      trace := trace w ++ [ev] |}, Ok tt).

(** [time.sleep(seconds)] *)
Definition sleep (seconds : Z) : M unit := emit (Sleep seconds).

(** [for x in xs: body], the loop's variables threaded as [acc]. *)
Fixpoint for_each {A S} (xs : list A) (body : A → S → M S) (acc : S) : M S :=
  match xs with
  | [] => mret acc
  | x :: xs' => acc' ← body x acc; for_each xs' body acc'
  end.

(** [[f(x) for x in xs]] for an [f] that may raise. *)
Fixpoint rmap {A B} (f : A → result B) (xs : list A) : result (list B) :=
  match xs with
  | [] => Ok []
  | x :: xs' => rbind (f x) (λ y, rbind (rmap f xs') (λ ys, Ok (y :: ys)))
  end.

(** The key of a dictionary: [k in d]. *)
Definition dict_lookup {V} (k : string) (d : dict V) : option V :=
  match dict_get k d with Ok v => Some v | Raise _ => None end.

(** ** The classes *)

Record BaseJewellerScraper := {
  jeweller_name : string;
  supported_cities : list string;
  carats : list string;
  scrape_city_prices : string → Z → M (list GoldPriceData);
  get_source_url : option string → string
}.

(** [BaseJewellerScraper.__init__], with the two abstract methods of the
    subclass. *)
Definition BaseJewellerScraper_init (name : string) (cities : list string)
    (scrape : string → Z → M (list GoldPriceData))
    (url : option string → string) : BaseJewellerScraper :=
  {| jeweller_name := name; supported_cities := cities;
     carats := ["18K"; "22K"; "24K"];
     scrape_city_prices := scrape; get_source_url := url |}.

(** [BaseJewellerScraper.validate_data] *)
Definition valid_item (self : BaseJewellerScraper) (item : GoldPriceData)
  : bool :=
  (1000 <? price item)%float && (price item <? 20000)%float
  && bool_decide (carat item ∈ carats self)
  && bool_decide (city item ∈ supported_cities self).

Fixpoint validate_loop (self : BaseJewellerScraper)
    (data valid_data : list GoldPriceData) : list GoldPriceData :=
  match data with
  | [] => valid_data
  | item :: rest =>
      validate_loop self rest
        (if valid_item self item then valid_data ++ [item] else valid_data)
  end.

Definition validate_data (self : BaseJewellerScraper)
    (data : list GoldPriceData) : list GoldPriceData :=
  validate_loop self data [].

(** [BaseJewellerScraper.scrape_all_cities] *)
Definition scrape_all_cities (self : BaseJewellerScraper) (days : Z)
  : M (list GoldPriceData) :=
  for_each (supported_cities self)
    (λ city all_data,
       try_except
         (city_data ← scrape_city_prices self city days;
          sleep 2;;
          mret (all_data ++ city_data))
         (λ _, mret all_data))
    [].

Inductive FirestoreClient := firestore_client.

Record FirebaseManager := {
  db : option FirestoreClient;
  service_account_path : option string
}.

Record GoldPriceManager := {
  scrapers : dict BaseJewellerScraper;
  firebase_manager : option FirebaseManager
}.

(** [ScrapeSummary]: the dictionary [create_summary_data] returns. *)
Record Summary := {
  summary : string;
  total_entries : Z;
  jewellers : list string;
  cities : list string;
  date_range_from : option string;
  date_range_to : option string;
  latest_rates : dict (dict PyVal);
  scrape_timestamp : string;
  data_structure : dict string
}.

Section Program.

(** What the [k]-th browser session shows, what the [k]-th reading of the
    clock returns, whether the [k]-th [batch.commit()] succeeds, and the
    builtins [float(s)] ([None] for [ValueError]) and [str(v)]. *)
Variable web : nat → Page.
Variable clock : nat → string.
Variable commit_ok : nat → bool.
Variable py_float : string → option float.
Variable py_str : PyVal → string.

(** [datetime.now().isoformat()] *)
Definition now : M string := λ w,
  ({| launches := launches w; clock_reads := S (clock_reads w);
      commit_calls := commit_calls w; committed := committed w;
      trace := trace w |}, Ok (clock (clock_reads w))).

(** [GoldPriceData.__init__] *)
Definition GoldPriceData_init (jeweller city carat : string) (price : float)
    (date : string) (source_url : option string)
    (additional_info : option (dict string)) : M GoldPriceData :=
  timestamp ← now;
  mret {| jeweller := jeweller; city := city; carat := carat;
          price := price; date := date; source_url := source_url;
          additional_info := default [] additional_info;
          timestamp := timestamp |}.

(** *** Selenium *)

Definition webdriver_Chrome : M nat := λ w,
  let session := launches w in
  ({| launches := S session; clock_reads := clock_reads w;
      commit_calls := commit_calls w; committed := committed w;
      trace := trace w ++ [ChromeStart session] |},
   match chrome (web session) with
   | Ok _ => Ok session
   | Raise e => Raise e
   end).

Definition driver_get (driver : nat) (url : string) : M unit :=
  emit (DriverGet driver url);; lift (get (web driver) url).

(** Chrome's [quit()] catches what goes wrong while it shuts the session
    down, so it always returns. *)
Definition driver_quit (driver : nat) : M unit := emit (DriverQuit driver).

Definition popup_click (driver : nat) (selector : string) (popup : Popup)
  : M unit :=
  emit (PopupClick driver selector);; lift (click popup).

(** *** TanishqScraper *)

Definition tanishq_cities : list string :=
  [ "Mumbai"; "Delhi"; "Bangalore"; "Chennai"; "Kolkata";
    "Hyderabad"; "Pune"; "Ahmedabad"; "Jaipur"; "Lucknow" ].

Definition tanishq_base_url : string :=
  "https://www.tanishq.co.in/gold-rate.html".

Definition tanishq_get_source_url (city : option string) : string :=
  tanishq_base_url +:+ "?lang=en_IN".

Definition popup_selectors : list string :=
  [ ".gdex-popup-overlay"; ".popup-close"; ".close";
    "[aria-label='Close']"; ".modal-close"; ".overlay-close" ].

(** [TanishqScraper._close_popups]: the bare [except] swallows whatever a
    selector raises and goes on with the next one. *)
Definition _close_popups (driver : nat) : M unit :=
  for_each popup_selectors
    (λ selector _,
       try_except
         (popup_elements ← lift (find_elements (web driver) selector);
          for_each popup_elements
            (λ popup _,
               displayed ← lift (is_displayed popup);
               if displayed : bool
               then popup_click driver selector popup;; sleep 1
               else mret tt)
            tt)
         (λ _, mret tt))
    tt.

Definition input_ids : dict string :=
  [ ("18K", "goldRate18KT"); ("22K", "goldRate22KT");
    ("24K", "goldRate24KT") ].

(** [float(s)] *)
Definition float_of_str (s : string) : result float :=
  match py_float s with
  | Some x => Ok x
  | None => Raise (ValueError ("could not convert string to float: " +:+ s))
  end.

(** The body of the inner [try] for one carat, up to the reversed list. *)
Definition extract_carat (driver : nat) (days : Z) (dates_list : list string)
    (input_id : string) : result (list PricePoint) :=
  rbind (find_element (web driver) input_id) (λ price_input,
  rbind (get_attribute price_input "value") (λ prices_value,
  rbind (match prices_value with
         | Some v => Ok (Str.strip_chars "[]" v)
         | None => Raise AttributeError
         end) (λ prices_str,
  rbind (rmap (λ price, float_of_str (Str.strip price))
           (Str.split "," prices_str)) (λ prices_list,
  Ok (combine_dates_prices days dates_list prices_list))))).

(** [dates_list], or the exception that ends the outer [try]. *)
Definition extract_dates (driver : nat) : result (list string) :=
  rbind (find_element (web driver) "goldRateDates") (λ dates_input,
  rbind (get_attribute dates_input "value") (λ dates_value,
  match dates_value with
  | None => Raise TypeError          (* len(dates_value) *)
  | Some v =>
      let dates_str := Str.strip_chars "[]" v in
      Ok (Str.strip <$> Str.split "," dates_str)
  end)).

(** [TanishqScraper._extract_from_hidden_inputs] *)
Definition _extract_from_hidden_inputs (driver : nat) (days : Z)
  : M (dict (list PricePoint)) :=
  try_except
    (dates_list ← lift (extract_dates driver);
     for_each input_ids
       (λ '(carat, input_id) all_data,
          try_except
            (carat_data ← lift (extract_carat driver days dates_list input_id);
             mret (dict_set carat carat_data all_data))
            (λ _, mret all_data))
       [])
    (λ _, mret []).

Definition tanishq_additional_info : dict string :=
  [ ("extraction_method", "optimized_hidden_inputs");
    ("currency", "INR"); ("unit", "per_gram") ].

(** The two nested loops that turn the per-carat lists into records. *)
Definition build_records (city url : string)
    (all_price_data : dict (list PricePoint)) : M (list GoldPriceData) :=
  for_each all_price_data
    (λ '(carat, prices) structured_data,
       for_each prices
         (λ price_item structured_data,
            gold_data ← GoldPriceData_init "Tanishq" city carat
                          (point_price price_item) (point_date price_item)
                          (Some url) (Some tanishq_additional_info);
            mret (structured_data ++ [gold_data]))
         structured_data)
    [].

(** [TanishqScraper.scrape_city_prices].  The handler's test
    ['driver' in locals()] fails exactly when [webdriver.Chrome] itself
    raised, the first statement of the [try]. *)
Definition tanishq_scrape_city_prices (city : string) (days : Z)
  : M (list GoldPriceData) :=
  launched ← attempt webdriver_Chrome;
  match launched with
  | Raise _ => mret []
  | Ok driver =>
      try_except
        (let url := tanishq_get_source_url (Some city) in
         driver_get driver url;;
         sleep 15;;
         _close_popups driver;;
         try_except (lift (wait_until (web driver) ".goldpurity-rate"))
           (λ e, match e with
                 | TimeoutException => mret tt
                 | _ => raise e
                 end);;
         all_price_data ← _extract_from_hidden_inputs driver days;
         structured_data ← build_records city url all_price_data;
         driver_quit driver;;
         mret structured_data)
        (λ _, driver_quit driver;; mret [])
  end.

Definition TanishqScraper : BaseJewellerScraper :=
  BaseJewellerScraper_init "Tanishq" tanishq_cities
    tanishq_scrape_city_prices tanishq_get_source_url.

(** *** The two placeholders *)

Definition kalyan_cities : list string :=
  [ "Mumbai"; "Delhi"; "Bangalore"; "Chennai"; "Kolkata";
    "Hyderabad"; "Pune"; "Kochi"; "Thrissur"; "Coimbatore" ].

Definition kalyan_scrape_city_prices (city : string) (days : Z)
  : M (list GoldPriceData) := mret [].

Definition KalyanJewellersScraper : BaseJewellerScraper :=
  BaseJewellerScraper_init "Kalyan Jewellers" kalyan_cities
    kalyan_scrape_city_prices
    (λ _, "https://www.kalyanjewellers.net" +:+ "/gold-rate").

Definition joyalukkas_cities : list string :=
  [ "Mumbai"; "Delhi"; "Bangalore"; "Chennai"; "Kolkata";
    "Hyderabad"; "Dubai"; "Kuwait"; "Qatar" ].

Definition joyalukkas_scrape_city_prices (city : string) (days : Z)
  : M (list GoldPriceData) := mret [].

Definition JoyalukkasJewellersScraper : BaseJewellerScraper :=
  BaseJewellerScraper_init "Joyalukkas" joyalukkas_cities
    joyalukkas_scrape_city_prices
    (λ _, "https://www.joyalukkas.com" +:+ "/gold-rate").

(** *** GoldPriceManager *)

(** [GoldPriceManager.__init__]; [firebase] is the manager that
    [initialize_firebase] accepted, if any. *)
Definition GoldPriceManager_init (firebase : option FirebaseManager)
  : GoldPriceManager :=
  {| scrapers := [ ("tanishq", TanishqScraper);
                   ("kalyan", KalyanJewellersScraper);
                   ("joyalukkas", JoyalukkasJewellersScraper) ];
     firebase_manager := firebase |}.

(** [bool(cities)] for [cities: List[str] = None] *)
Definition cities_given (cities : option (list string)) : option (list string) :=
  match cities with
  | Some (c :: cs) => Some (c :: cs)
  | _ => None
  end.

(** [GoldPriceManager.scrape_jeweller] *)
Definition scrape_jeweller (self : GoldPriceManager) (jeweller_name : string)
    (cities : option (list string)) (days : Z) : M (list GoldPriceData) :=
  match dict_lookup jeweller_name (scrapers self) with
  | None => raise (ValueError ("Unsupported jeweller: " +:+ jeweller_name))
  | Some scraper =>
      match cities_given cities with
      | Some cities =>
          for_each cities
            (λ city all_data,
               if bool_decide (city ∈ supported_cities scraper)
               then city_data ← scrape_city_prices scraper city days;
                    mret (all_data ++ city_data)
               else mret all_data)
            []
      | None => scrape_all_cities scraper days
      end
  end.

(** [GoldPriceManager.scrape_all_jewellers] *)
Definition scrape_all_jewellers (self : GoldPriceManager)
    (cities : option (list string)) (days : Z)
  : M (dict (list GoldPriceData)) :=
  for_each (scrapers self).*1
    (λ jeweller_name all_data,
       try_except
         (jeweller_data ← scrape_jeweller self jeweller_name cities days;
          sleep 5;;
          mret (dict_set jeweller_name jeweller_data all_data))
         (λ _, mret (dict_set jeweller_name [] all_data)))
    [].

(** *** The document store *)

(** [self.db.batch()] *)
Definition db_batch (db : option FirestoreClient) : M (list Write) :=
  match db with
  | Some _ => mret []
  | None => raise AttributeError
  end.

(** [batch.commit()] *)
Definition batch_commit (batch : list Write) : M unit := λ w,
  let k := commit_calls w in
  if commit_ok k
  then ({| launches := launches w; clock_reads := clock_reads w;
           commit_calls := S k; committed := committed w ++ [batch];
           trace := trace w |}, Ok tt)
  else ({| launches := launches w; clock_reads := clock_reads w;
           commit_calls := S k; committed := committed w;
           trace := trace w |}, Raise GoogleAPICallError).

(** The tail of both upload loops: count the write just added and commit
    when the batch is full.  The loop's variables are [batch] and
    [batch_count]. *)
Definition commit_when_full (db : option FirestoreClient)
    (batch : list Write) (batch_count : Z) : M (list Write * Z) :=
  if 500 <=? batch_count
  then batch_commit batch;;
       fresh ← db_batch db;
       mret (fresh, 0)
  else mret (batch, batch_count).

(** [GoldPriceManager.push_to_firebase] *)
Definition push_to_firebase (self : GoldPriceManager)
    (data : list GoldPriceData) (collection_name : string) : M bool :=
  match firebase_manager self with
  | None => mret false
  | Some fm =>
      try_except
        (batch ← db_batch (db fm);
         '(batch, batch_count) ←
           for_each data
             (λ item '(batch, batch_count),
                let doc_id := get_document_id item in
                let firebase_data :=
                  dict_set "firebase_timestamp" PServerTimestamp
                    (to_dict item) in
                let batch :=
                  batch ++ [ {| write_collection := collection_name;
                                write_document := doc_id;
                                write_data := firebase_data;
                                write_merge := true |} ] in
                commit_when_full (db fm) batch (batch_count + 1))
             (batch, 0);
         (if 0 <? batch_count then batch_commit batch else mret tt);;
         mret true)
        (λ _, mret false)
  end.

(** [f"{v}"] for a dictionary value *)
Definition format_value (v : PyVal) : string :=
  match v with
  | PStr s => s
  | _ => py_str v
  end.

(** [FirebaseManager.push_gold_rates] *)
Definition push_gold_rates (self : FirebaseManager)
    (gold_rates : list (dict PyVal)) (collection_name : string) : M bool :=
  match db self with
  | None => mret false
  | Some _ =>
      try_except
        (batch ← db_batch (db self);
         '(batch, batch_count, total_pushed) ←
           for_each gold_rates
             (λ rate '(batch, batch_count, total_pushed),
                date ← lift (dict_get "date" rate);
                carat ← lift (dict_get "carat" rate);
                let doc_id := format_value date +:+ "_" +:+ format_value carat in
                updated_at ← now;
                let rate_data :=
                  dict_set "updated_at" (PStr updated_at)
                    (dict_set "source" (PStr "tanishq_scraper")
                       (dict_set "timestamp" PServerTimestamp rate)) in
                let batch :=
                  batch ++ [ {| write_collection := collection_name;
                                write_document := doc_id;
                                write_data := rate_data;
                                write_merge := true |} ] in
                '(batch, batch_count) ←
                  commit_when_full (db self) batch (batch_count + 1);
                mret (batch, batch_count, total_pushed + 1))
             (batch, 0, 0);
         (if 0 <? batch_count then batch_commit batch else mret tt);;
         mret true)
        (λ _, mret false)
  end.

(** *** The summary *)

(** [max(s)] and [min(s)] over the elements in iteration order; strings
    compare by code point. *)
Definition str_max (xs : list string) : option string :=
  match xs with
  | [] => None
  | x :: xs' => Some (foldl (λ best y, if String.ltb best y then y else best) x xs')
  end.

Definition str_min (xs : list string) : option string :=
  match xs with
  | [] => None
  | x :: xs' => Some (foldl (λ best y, if String.ltb y best then y else best) x xs')
  end.

(** The first loop: the three sets. *)
Definition collect_sets (all_data : dict (list GoldPriceData))
  : gset string * gset string * gset string :=
  foldl
    (λ '(all_dates, all_cities, all_jewellers) '(jeweller, data_list),
       let all_jewellers := all_jewellers ∪ {[ jeweller ]} in
       foldl
         (λ '(all_dates, all_cities, all_jewellers) item,
            (all_dates ∪ {[ date item ]}, all_cities ∪ {[ city item ]},
             all_jewellers))
         (all_dates, all_cities, all_jewellers) data_list)
    (∅, ∅, ∅) all_data.

(** The second loop: the rates of the latest date. *)
Definition collect_latest (latest_date : string)
    (all_data : dict (list GoldPriceData)) : dict (dict PyVal) :=
  foldl
    (λ latest_rates '(_, data_list),
       foldl
         (λ latest_rates item,
            if String.eqb (date item) latest_date
            then let key := jeweller item +:+ "_" +:+ city item +:+ "_"
                              +:+ carat item in
                 dict_set key (to_dict item) latest_rates
            else latest_rates)
         latest_rates data_list)
    [] all_data.

(** [GoldPriceManager.create_summary_data] *)
Definition create_summary_data (all_data : dict (list GoldPriceData))
  : M Summary :=
  let total_entries :=
    foldr Z.add 0 ((λ kv, Z.of_nat (length kv.2)) <$> all_data) in
  let '(all_dates, all_cities, all_jewellers) := collect_sets all_data in
  let latest_date :=
    if bool_decide (all_dates = ∅) then None else str_max (elements all_dates) in
  let latest_rates :=
    match latest_date with
    | Some d => if Str.truthy d then collect_latest d all_data else []
    | None => []
    end in
  scrape_timestamp ← now;
  mret {| summary := "Gold prices from " +:+ pretty (size all_jewellers)
                       +:+ " jewellers across " +:+ pretty (size all_cities)
                       +:+ " cities";
          total_entries := total_entries;
          jewellers := elements all_jewellers;
          cities := elements all_cities;
          date_range_from :=
            if bool_decide (all_dates = ∅) then None
            else str_min (elements all_dates);
          date_range_to :=
            if bool_decide (all_dates = ∅) then None
            else str_max (elements all_dates);
          latest_rates := latest_rates;
          scrape_timestamp := scrape_timestamp;
          data_structure :=
            [ ("jeweller", "string"); ("city", "string");
              ("carat", "string (18K, 22K, 24K)");
              ("price", "float (INR per gram)");
              ("date", "string (YYYY-MM-DD)") ] |}.

End Program.

(** ** Firebase initialisation *)

(** What the Firebase Admin SDK answers during one call of
    [initialize_firebase]: whether an app is already registered
    ([firebase_admin._apps]), and how [credentials.Certificate],
    [initialize_app] (with a credential or without), [get_app] and
    [firestore.client] end. *)
Record FirebaseSDK := {
  apps : bool;
  Certificate : string → result unit;
  initialize_app : option string → result unit;
  get_app : result unit;
  client : result FirestoreClient
}.

(** [FirebaseManager.__init__]; the attribute [app] is written but never
    read and is left out. *)
Definition FirebaseManager_init (service_account_path : option string)
  : FirebaseManager :=
  {| db := None; service_account_path := service_account_path |}.

(** [bool(path)] for [Optional[str]] *)
Definition path_given (path : option string) : option string :=
  match path with
  | Some p => if Str.truthy p then Some p else None
  | None => None
  end.

(** The body of the outer [try] of [initialize_firebase]: the client to
    store in [self.db], [None] for the early [return False], or the
    exception that reaches the outer handler. *)
Definition initialize_firebase_try (sdk : FirebaseSDK) (self : FirebaseManager)
  : result (option FirestoreClient) :=
  rbind
    (if apps sdk then rbind (get_app sdk) (λ _, Ok true)
     else
       match path_given (service_account_path self) with
       | Some path =>
           rbind (Certificate sdk path) (λ _,
           rbind (initialize_app sdk (Some path)) (λ _, Ok true))
       | None =>
           match initialize_app sdk None with
           | Ok _ => Ok true
           | Raise _ => Ok false
           end
       end)
    (λ go_on : bool,
       if go_on then rbind (client sdk) (λ c, Ok (Some c)) else Ok None).

(** [FirebaseManager.initialize_firebase]: the manager after the call and
    the value returned. *)
Definition initialize_firebase (sdk : FirebaseSDK) (self : FirebaseManager)
  : FirebaseManager * bool :=
  match initialize_firebase_try sdk self with
  | Ok (Some c) =>
      ({| db := Some c; service_account_path := service_account_path self |},
       true)
  | Ok None => (self, false)
  | Raise _ => (self, false)
  end.

(** [GoldPriceManager.__init__] *)
Definition GoldPriceManager_new (web : nat → Page) (clock : nat → string)
    (py_float : string → option float) (sdk : FirebaseSDK)
    (firebase_service_account_path : option string) : GoldPriceManager :=
  GoldPriceManager_init web clock py_float
    (match path_given firebase_service_account_path with
     | Some path =>
         let '(manager, ok) :=
           initialize_firebase sdk (FirebaseManager_init (Some path)) in
         if ok then Some manager else None
     | None => None
     end).

(** ** The command line

    [main] of main_scraper.py, after [argparse]: [Args] is the namespace
    it returns.  What [main] prints and logs is left out.  Writing the
    output file is the oracle [write_file]: how [open] and [json.dump] end
    for a path and the data to dump. *)

Record Args := {
  args_firebase_key : option string;
  args_jewellers : list string;
  args_cities : option (list string);
  args_days : Z;
  args_collection : string;
  args_no_firebase : bool;
  args_output_file : option string
}.

(** [output_data], the dictionary [main] dumps. *)
Record OutputData := {
  output_data : list (dict PyVal);
  output_summary : Summary
}.

(** The values [argparse] accepts for [--jewellers]. *)
Definition jeweller_choices : list string := ["tanishq"; "kalyan"; "joyalukkas"].

(** The first part of [main]: [all_data], by the one call for a single
    jeweller or by the loop for several. *)
Definition scrape_requested (manager : GoldPriceManager) (args : Args)
  : M (dict (list GoldPriceData)) :=
  match args_jewellers args with
  | [jeweller] =>
      data ← scrape_jeweller manager jeweller (args_cities args)
                (args_days args);
      mret [(jeweller, data)]
  | jewellers =>
      for_each jewellers
        (λ jeweller all_data,
           data ← scrape_jeweller manager jeweller (args_cities args)
                     (args_days args);
           mret (dict_set jeweller data all_data))
        []
  end.

(** [main] *)
Definition main (web : nat → Page) (clock : nat → string)
    (commit_ok : nat → bool) (py_float : string → option float)
    (sdk : FirebaseSDK) (write_file : string → OutputData → result unit)
    (args : Args) : M unit :=
  let firebase_path :=
    if args_no_firebase args then None else args_firebase_key args in
  let manager := GoldPriceManager_new web clock py_float sdk firebase_path in
  all_data ← scrape_requested manager args;
  let flat_data := concat all_data.*2 in
  summary ← create_summary_data clock all_data;
  match path_given (args_output_file args) with
  | Some path =>
      lift (write_file path {| output_data := to_dict <$> flat_data;
                               output_summary := summary |})
  | None => mret tt
  end;;
  (if negb (args_no_firebase args)
      && bool_decide (is_Some (firebase_manager manager))
   then success ← push_to_firebase commit_ok manager flat_data
                    (args_collection args);
        mret tt
   else mret tt);;
  mret tt.

(** * Vocabulary of the statements *)

(** ** Document ids *)

(** The four fields a document id is derived from. *)
Definition key_fields (r : GoldPriceData) : string * string * string * string :=
  (jeweller r, city r, carat r, date r).

(** A record with the given key fields. *)
Definition record_of (jeweller city carat date : string) : GoldPriceData :=
  {| jeweller := jeweller; city := city; carat := carat; price := 0%float;
     date := date; source_url := None; additional_info := [];
     timestamp := "" |}.

(** [s] has neither an underscore nor a space. *)
Definition sep_free (s : string) : bool :=
  Str.forallb (λ c, negb (Ascii.eqb c "_") && negb (Ascii.eqb c " ")) s.

Definition fields_sep_free (r : GoldPriceData) : bool :=
  sep_free (jeweller r) && sep_free (city r) && sep_free (carat r)
  && sep_free (date r).

(** What [get_document_id] does to one code point. *)
Definition key_char (c : ascii) : ascii :=
  Str.replace_char " " "_" (Str.lower_char c).

(** ** Dates and pairing *)

(** The point the loop builds from one (date token, price) pair. *)
Definition point_of (pair : string * float) : PricePoint :=
  {| point_price := pair.2; point_date := _parse_date pair.1 |}.

(** The pair's date token is not the empty string. *)
Definition has_date (pair : string * float) : bool := Str.truthy pair.1.

(** [_parse_date] as it would run with [re] bound at module level. *)
Definition parse_date_with_re : string → string :=
  parse_date_in ("re" :: module_globals).

(** [s] has the form YYYY-MM-DD. *)
Definition iso_date (s : string) : bool :=
  match s with
  | String y1 (String y2 (String y3 (String y4 (String s1 (String m1
      (String m2 (String s2 (String d1 (String d2 EmptyString))))))))) =>
      Str.is_digit y1 && Str.is_digit y2 && Str.is_digit y3
      && Str.is_digit y4 && Ascii.eqb s1 "-"
      && Str.is_digit m1 && Str.is_digit m2 && Ascii.eqb s2 "-"
      && Str.is_digit d1 && Str.is_digit d2
  | _ => false
  end.

(** One branch of [_parse_date]: split, unpack, format, and the handler's
    answer when unpacking raises. *)
Definition reformat (sep : ascii) (date_text : string) : string :=
  rcatch (unpack_and_format (Str.split sep date_text)) (λ _, date_text).

(** ** Runs in the monad *)

(** [m] returns a value from every world: it never raises. *)
Definition returns {A} (m : M A) : Prop :=
  ∀ w, ∃ w' a, m w = (w', Ok a).

(** What is compared of a scraped record. *)
Definition record_key (r : GoldPriceData) : string * float * string :=
  (carat r, price r, date r).

(** The keys of the records one carat contributes: those of its points
    when its extraction succeeds, none when it raises. *)
Definition carat_keys (carat : string) (extracted : result (list PricePoint))
  : list (string * float * string) :=
  match extracted with
  | Ok points => (λ p, (carat, point_price p, point_date p)) <$> points
  | Raise _ => []
  end.

(** The keys of the records built from the per-carat lists. *)
Definition points_keys (all_price_data : dict (list PricePoint))
  : list (string * float * string) :=
  concat ((λ '(carat, points), carat_keys carat (Ok points)) <$> all_price_data).

(** A record scraped by the Tanishq adapter for city [c]. *)
Definition tanishq_record (c : string) (r : GoldPriceData) : Prop :=
  jeweller r = "Tanishq" ∧ city r = c
  ∧ source_url r = Some (tanishq_get_source_url (Some c)).

(** A world in which nothing has happened yet. *)
Definition initial_world : World :=
  {| launches := 0; clock_reads := 0; commit_calls := 0; committed := [];
     trace := [] |}.

(** ** Uploads *)

(** The write [push_to_firebase] queues for one record. *)
Definition record_write (collection_name : string) (item : GoldPriceData)
  : Write :=
  {| write_collection := collection_name;
     write_document := get_document_id item;
     write_data := dict_set "firebase_timestamp" PServerTimestamp (to_dict item);
     write_merge := true |}.

(** The world after the store accepted the batches [new], one
    [batch.commit()] each, and [reads] more readings of the clock. *)
Definition after_commits (w : World) (reads : nat) (new : list (list Write))
  : World :=
  {| launches := launches w; clock_reads := clock_reads w + reads;
     commit_calls := commit_calls w + length new;
     committed := committed w ++ new; trace := trace w |}.

(** The loop variables of the upload loops: the open batch and its
    count. *)
Definition open_batch (batch : list Write) : list Write * Z :=
  (batch, Z.of_nat (length batch)).

(** The batches a run commits: the full ones, then the rest if any. *)
Definition with_rest (full : list (list Write)) (rest : list Write)
  : list (list Write) :=
  full ++ (if bool_decide (rest = []) then [] else [rest]).

(** The committed batches [new] carry the writes [writes] in order, in
    ceil(n / 500) batches, none empty, none above 500, all but the last of
    exactly 500; for 501 writes these are a batch of 500 and a batch of 1. *)
Definition batches_of_500 (writes : list Write) (new : list (list Write))
  : Prop :=
  concat new = writes
  ∧ length new = ((length writes + 499) / 500)%nat
  ∧ Forall (λ c, (0 < length c ≤ 500)%nat) new
  ∧ (∀ i c, new !! i = Some c → (S i < length new)%nat → length c = 500%nat)
  ∧ (length writes = 501%nat → length <$> new = [500; 1]%nat).

(** [wr] is the write [push_gold_rates] queues for [rate]. *)
Definition rate_written (py_str : PyVal → string) (collection_name : string)
    (rate : dict PyVal) (wr : Write) : Prop :=
  ∃ date carat,
    dict_get "date" rate = Ok date ∧ dict_get "carat" rate = Ok carat
    ∧ write_collection wr = collection_name
    ∧ write_document wr
      = format_value py_str date +:+ "_" +:+ format_value py_str carat
    ∧ write_merge wr = true.

(** [rate] has the two keys the document id is built from. *)
Definition rate_keys (rate : dict PyVal) : Prop :=
  ∃ date carat,
    dict_get "date" rate = Ok date ∧ dict_get "carat" rate = Ok carat.

(** A store that accepts every commit. *)
Definition always_commit : nat → bool := λ _, true.

(** A manager whose Firebase client was initialised. *)
Definition manager_with_firebase (scrapers : dict BaseJewellerScraper)
  : GoldPriceManager :=
  {| scrapers := scrapers;
     firebase_manager :=
       Some {| db := Some firestore_client;
               service_account_path := Some "firebase_service_account.json" |} |}.

(** ** Sample worlds

    Concrete oracles on which the definitions are run in the examples. *)

(** A [float] that reads plain decimal integers, as the page's price
    arrays hold them, and rejects every other string. *)
Fixpoint digits_value (acc : Z) (s : string) : option Z :=
  match s with
  | EmptyString => Some acc
  | String c s' =>
      if Str.is_digit c
      then digits_value (10 * acc + Z.of_N (Str.code c) - 48) s'
      else None
  end.

Definition sample_float (s : string) : option float :=
  match s with
  | EmptyString => None
  | _ => (λ z, PrimFloat.of_uint63 (Uint63.of_Z z)) <$> digits_value 0 s
  end.

Definition sample_clock (k : nat) : string := "2025-07-24T09:00:00".

Definition hidden_input (value : string) : result Element :=
  Ok {| get_attribute := λ name,
          Ok (if String.eqb name "value" then Some value else None) |}.

(** A page with three dates, the 18K and 22K prices and no 24K field. *)
Definition sample_page : Page :=
  {| chrome := Ok ();
     get := λ _, Ok ();
     find_elements := λ _, Ok [];
     wait_until := λ _, Raise TimeoutException;
     find_element := λ id,
       if String.eqb id "goldRateDates"
       then hidden_input "[21-07-2025, 22-07-2025, 23-07-2025]"
       else if String.eqb id "goldRate18KT"
       then hidden_input "[5689, 5642, 5591]"
       else if String.eqb id "goldRate22KT"
       then hidden_input "[7585, 7523, 7454]"
       else Raise NoSuchElementException |}.

Definition sample_web (session : nat) : Page := sample_page.

(** A machine on which Chrome does not start. *)
Definition no_browser (session : nat) : Page :=
  {| chrome := Raise WebDriverException;
     get := λ _, Raise WebDriverException;
     find_elements := λ _, Raise WebDriverException;
     wait_until := λ _, Raise WebDriverException;
     find_element := λ _, Raise WebDriverException |}.

(** ** Further vocabulary *)



(** The tokens of a hidden field's array, written [t1, t2, ...]. *)
Fixpoint join_tokens (tokens : list string) : string :=
  match tokens with
  | [] => ""
  | [t] => t
  | t :: rest => t +:+ ", " +:+ join_tokens rest
  end.

Definition array_value (tokens : list string) : string :=
  "[" +:+ join_tokens tokens +:+ "]".

(** A character that is no comma, no bracket and no white space. *)
Definition plain_char (c : ascii) : bool :=
  negb (Ascii.eqb c ",") && negb (Str.mem c "[]") && negb (Str.is_space c).

(** What [array_value tokens] is split into. *)
Definition tokens_read (tokens : list string) : list string :=
  match tokens with
  | [] => [""]
  | _ => tokens
  end.

(** ** Effects of a run *)

(** The world [m] leaves is related to the one it found. *)
Definition keeps (R : World → World → Prop) {A} (m : M A) : Prop :=
  ∀ w, R w (m w).1.

(** When [m] returns a value, the value satisfies [Q]. *)
Definition yields {A} (Q : A → Prop) (m : M A) : Prop :=
  ∀ w w' a, m w = (w', Ok a) → Q a.

(** No browser was started and the store was not called. *)
Definition same_counts (w w' : World) : Prop :=
  launches w' = launches w ∧ commit_calls w' = commit_calls w
  ∧ committed w' = committed w.

(** An event of session [n] that neither starts nor quits a browser. *)
Definition session_event (n : nat) (ev : Event) : Prop :=
  match ev with
  | Sleep _ => True
  | DriverGet s _ | PopupClick s _ => s = n
  | ChromeStart _ | DriverQuit _ => False
  end.

(** [w'] is [w] after events of session [n] that neither start nor quit
    a browser, and after readings of the clock. *)
Definition quiet (n : nat) (w w' : World) : Prop :=
  same_counts w w'
  ∧ ∃ evs, trace w' = trace w ++ evs ∧ Forall (session_event n) evs.

(** [m] runs quietly in session [n] and, when it returns, has quit the
    session as its last act. *)
Definition closes (n : nat) {A} (m : M A) : Prop :=
  ∀ w, match m w with
       | (w', Ok _) =>
           ∃ w0, quiet n w w0 ∧ same_counts w0 w'
                 ∧ trace w' = trace w0 ++ [DriverQuit n]
       | (w', Raise _) => quiet n w w'
       end.

(** The records one run of the Tanishq adapter can return for city [c]
    and [days] days. *)
Definition tanishq_output (c : string) (days : Z)
    (records : list GoldPriceData) : Prop :=
  Forall (λ r, jeweller r = "Tanishq" ∧ city r = c
               ∧ source_url r = Some (tanishq_get_source_url (Some c))
               ∧ carat r ∈ ["18K"; "22K"; "24K"] ∧ date r ≠ "") records
  ∧ (length records ≤ 3 * Z.to_nat days)%nat.

(** The keys of the records the hidden fields of session [session] give
    when the date field reads as [dates_list]. *)
Definition scraped_keys (web : nat → Page) (py_float : string → option float)
    (session : nat) (days : Z) (dates_list : list string)
  : list (string * float * string) :=
  concat ((λ '(carat, input_id),
             carat_keys carat
               (extract_carat web py_float session days dates_list input_id))
            <$> input_ids).

(** The price clause of validation. *)
Definition price_in_range (r : GoldPriceData) : bool :=
  (1000 <? price r)%float && (price r <? 20000)%float.

(** The cities [scrape_jeweller] visits for [scraper]: the supported ones
    among those asked for, or all supported ones when none is asked for. *)
Definition visited_cities (scraper : BaseJewellerScraper)
    (cities : option (list string)) : list string :=
  match cities_given cities with
  | Some cs => filter (λ c, c ∈ supported_cities scraper) cs
  | None => supported_cities scraper
  end.

(** The world after the store refused one [batch.commit()]. *)
Definition after_refusal (w : World) : World :=
  {| launches := launches w; clock_reads := clock_reads w;
     commit_calls := S (commit_calls w); committed := committed w;
     trace := trace w |}.

(** A store that refuses every commit. *)
Definition never_commit : nat → bool := λ _, false.

(** From [w] to [w'] no browser was started, nothing was slept or
    fetched, and what the store held is still there, possibly followed by
    more batches. *)
Definition store_grows (w w' : World) : Prop :=
  launches w' = launches w ∧ trace w' = trace w
  ∧ committed w `prefix_of` committed w'
  ∧ (commit_calls w ≤ commit_calls w')%nat.

(** All records of a mapping, in the order the loops meet them. *)
Definition all_records (all_data : dict (list GoldPriceData))
  : list GoldPriceData :=
  concat all_data.*2.

(** The key of a record in [latest_rates]. *)
Definition rate_key (r : GoldPriceData) : string :=
  jeweller r +:+ "_" +:+ city r +:+ "_" +:+ carat r.

(** The SDK lets [initialize_firebase] through with the service account
    file [p]: the app is there or can be created from the file, and the
    Firestore client can be had. *)
Definition sdk_accepts (sdk : FirebaseSDK) (p : string) : Prop :=
  (if apps sdk then get_app sdk = Ok ()
   else Certificate sdk p = Ok () ∧ initialize_app sdk (Some p) = Ok ())
  ∧ client sdk = Ok firestore_client.

(** What [_close_popups] may do in session [n]: click an element of one
    of its selectors, or sleep one second. *)
Definition popup_event (n : nat) (ev : Event) : Prop :=
  ev = Sleep 1 ∨ ∃ selector, selector ∈ popup_selectors ∧ ev = PopupClick n selector.

(** [w'] is [w] followed by events that satisfy [P]; nothing else
    changed. *)
Definition appends (P : Event → Prop) (w w' : World) : Prop :=
  launches w' = launches w ∧ clock_reads w' = clock_reads w
  ∧ commit_calls w' = commit_calls w ∧ committed w' = committed w
  ∧ ∃ evs, trace w' = trace w ++ evs ∧ Forall P evs.

(** No element that session [n] finds under a popup selector is
    displayed. *)
Definition no_popup_displayed (web : nat → Page) (n : nat) : Prop :=
  ∀ selector popups,
    find_elements (web n) selector = Ok popups →
    Forall (λ popup, is_displayed popup ≠ Ok true) popups.

(** The world after the events [evs]. *)
Definition after_events (w : World) (evs : list Event) : World :=
  {| launches := launches w; clock_reads := clock_reads w;
     commit_calls := commit_calls w; committed := committed w;
     trace := trace w ++ evs |}.

(** The lists of the cities whose scrape returned. *)
Definition answered (answer : string → result (list GoldPriceData))
    (cities : list string) : list (list GoldPriceData) :=
  omap (λ c, match answer c with Ok l => Some l | Raise _ => None end) cities.

(** An adapter whose city [c] answers with [c] records and whose last
    city raises. *)
Definition flaky_scraper : BaseJewellerScraper :=
  BaseJewellerScraper_init "Flaky" ["Mumbai"; "Delhi"]
    (λ c _, if String.eqb c "Delhi" then raise TimeoutException
            else mret [record_of "Flaky" c "22K" "2025-07-21"])
    (λ _, "https://example.com").

(** The write [push_gold_rates] queues for [rate] when the clock is read
    for the [t]-th time. *)
Definition rate_write (clock : nat → string) (py_str : PyVal → string)
    (collection_name : string) (t : nat) (rate : dict PyVal) : Write :=
  {| write_collection := collection_name;
     write_document :=
       match dict_get "date" rate, dict_get "carat" rate with
       | Ok date, Ok carat =>
           format_value py_str date +:+ "_" +:+ format_value py_str carat
       | _, _ => ""
       end;
     write_data :=
       dict_set "updated_at" (PStr (clock t))
         (dict_set "source" (PStr "tanishq_scraper")
            (dict_set "timestamp" PServerTimestamp rate));
     write_merge := true |}.

(** The manager [main] builds for [args]. *)
Definition main_manager (web : nat → Page) (clock : nat → string)
    (py_float : string → option float) (sdk : FirebaseSDK) (args : Args)
  : GoldPriceManager :=
  GoldPriceManager_new web clock py_float sdk
    (if args_no_firebase args then None else args_firebase_key args).

(** How writing the output file of [args] ends for the dictionary [out];
    it is not written when no file is asked for. *)
Definition file_step (write_file : string → OutputData → result unit)
    (args : Args) (out : OutputData) : result unit :=
  match path_given (args_output_file args) with
  | Some path => write_file path out
  | None => Ok ()
  end.

(** [main] goes on to upload: [--no-firebase] is not set and the manager
    has its Firebase manager. *)
Definition upload_wanted (manager : GoldPriceManager) (args : Args) : bool :=
  negb (args_no_firebase args)
  && bool_decide (is_Some (firebase_manager manager)).

(** A page whose only price, 5, is far below the range of validation. *)
Definition cheap_page : Page :=
  {| chrome := Ok ();
     get := λ _, Ok ();
     find_elements := λ _, Ok [];
     wait_until := λ _, Ok ();
     find_element := λ id,
       if String.eqb id "goldRateDates" then hidden_input "[21-07-2025]"
       else if String.eqb id "goldRate22KT" then hidden_input "[5]"
       else Raise NoSuchElementException |}.

(** An SDK without a registered app that accepts every file. *)
Definition sample_sdk : FirebaseSDK :=
  {| apps := false; Certificate := λ _, Ok (); initialize_app := λ _, Ok ();
     get_app := Raise (ValueError "The default Firebase app does not exist.");
     client := Ok firestore_client |}.

(** [main_scraper.py --firebase-key key.json --cities Mumbai --days 1] *)
Definition sample_args : Args :=
  {| args_firebase_key := Some "key.json"; args_jewellers := ["tanishq"];
     args_cities := Some ["Mumbai"]; args_days := 1;
     args_collection := "gold_prices"; args_no_firebase := false;
     args_output_file := None |}.

(** * Properties *)

(** ** Strings *)

Lemma append_nil_l (s : string) : "" +:+ s = s.
Proof. reflexivity. Qed.

Lemma append_cons (c : ascii) (s t : string) :
  String c s +:+ t = String c (s +:+ t).
Proof. reflexivity. Qed.

Lemma map_append (f : ascii → ascii) (s t : string) :
  Str.map f (s +:+ t) = Str.map f s +:+ Str.map f t.
Proof.
  induction s as [|c s IH]; [done|].
  rewrite append_cons. simpl. by rewrite IH, append_cons.
Qed.

Lemma map_map (f g : ascii → ascii) (s : string) :
  Str.map f (Str.map g s) = Str.map (f ∘ g) s.
Proof. induction s as [|c s IH]; simpl; by rewrite ?IH. Qed.

Lemma map_ext_forallb (f g : ascii → ascii) (p : ascii → bool) (s : string) :
  (∀ c, p c = true → f c = g c) →
  Str.forallb p s = true → Str.map f s = Str.map g s.
Proof.
  intros Hfg. induction s as [|c s IH]; simpl; [done|].
  intros [Hc Hs]%andb_prop. by rewrite (Hfg c Hc), IH.
Qed.

Lemma forallb_map (f : ascii → ascii) (p q : ascii → bool) (s : string) :
  (∀ c, p c = true → q (f c) = true) →
  Str.forallb p s = true → Str.forallb q (Str.map f s) = true.
Proof.
  intros Hpq. induction s as [|c s IH]; simpl; [done|].
  intros [Hc Hs]%andb_prop. by rewrite (Hpq c Hc), IH.
Qed.

(** A string without [sep] is determined by what follows up to the first
    [sep]. *)
Lemma append_sep_inj (sep : ascii) (a a' r r' : string) :
  Str.forallb (λ c, negb (Ascii.eqb c sep)) a = true →
  Str.forallb (λ c, negb (Ascii.eqb c sep)) a' = true →
  a +:+ String sep r = a' +:+ String sep r' →
  a = a' ∧ r = r'.
Proof.
  revert a'. induction a as [|c a IH]; intros [|c' a']; simpl.
  - intros _ _. rewrite !append_nil_l. by intros [= ->].
  - intros _ [Hc' _]%andb_prop. rewrite append_nil_l, append_cons.
    intros [= <- _]. by rewrite Ascii.eqb_refl in Hc'.
  - intros [Hc _]%andb_prop _. rewrite append_nil_l, append_cons.
    intros [= -> _]. by rewrite Ascii.eqb_refl in Hc.
  - intros [_ Ha]%andb_prop [_ Ha']%andb_prop. rewrite !append_cons.
    intros [= -> Heq]. destruct (IH a' Ha Ha' Heq) as [-> ->]. done.
Qed.

(** ** Document ids (C4) *)

Lemma key_char_sep_free (c : ascii) :
  negb (Ascii.eqb c "_") && negb (Ascii.eqb c " ") = true →
  key_char c = Str.lower_char c ∧ negb (Ascii.eqb (key_char c) "_") = true.
Proof.
  destruct c as [[] [] [] [] [] [] [] []]; vm_compute; intros H;
    (discriminate H || (split; reflexivity)).
Qed.

Lemma get_document_id_unfold (r : GoldPriceData) :
  get_document_id r =
    Str.map key_char (jeweller r) +:+ String "_"
      (Str.map key_char (city r) +:+ String "_"
         (Str.map key_char (carat r) +:+ String "_"
            (Str.map key_char (date r)))).
Proof.
  unfold get_document_id, Str.replace, Str.lower.
  rewrite map_map, !map_append. reflexivity.
Qed.

Lemma key_sep_free (s : string) :
  sep_free s = true →
  Str.map key_char s = Str.lower s
  ∧ Str.forallb (λ c, negb (Ascii.eqb c "_")) (Str.map key_char s) = true.
Proof.
  intros Hs. split.
  - eapply map_ext_forallb; [|exact Hs]. intros c Hc.
    by destruct (key_char_sep_free c Hc).
  - eapply forallb_map; [|exact Hs]. intros c Hc.
    by destruct (key_char_sep_free c Hc).
Qed.

(** C4, amended: the document id is a function of the key fields alone;
    the fields Tanishq / Mumbai / 18K / 2025-07-21 give
    tanishq_mumbai_18k_2025-07-21; and on records whose key fields have
    neither underscore nor space, two records get the same id exactly
    when their key fields agree after lowercasing. *)
Theorem get_document_id_key :
  (∀ r1 r2, key_fields r1 = key_fields r2 →
            get_document_id r1 = get_document_id r2)
  ∧ (∀ r, key_fields r = ("Tanishq", "Mumbai", "18K", "2025-07-21") →
          get_document_id r = "tanishq_mumbai_18k_2025-07-21")
  ∧ (∀ r1 r2, fields_sep_free r1 = true → fields_sep_free r2 = true →
       (get_document_id r1 = get_document_id r2 ↔
          Str.lower (jeweller r1) = Str.lower (jeweller r2)
          ∧ Str.lower (city r1) = Str.lower (city r2)
          ∧ Str.lower (carat r1) = Str.lower (carat r2)
          ∧ Str.lower (date r1) = Str.lower (date r2))).
Proof.
  split; [|split].
  - intros r1 r2 [= Hj Hc Hk Hd]. unfold get_document_id. congruence.
  - intros r [= Hj Hc Hk Hd]. unfold get_document_id.
    rewrite Hj, Hc, Hk, Hd. reflexivity.
  - intros r1 r2 H1 H2. unfold fields_sep_free in *.
    apply andb_prop in H1 as [[[Hj1 Hc1]%andb_prop Hk1]%andb_prop Hd1].
    apply andb_prop in H2 as [[[Hj2 Hc2]%andb_prop Hk2]%andb_prop Hd2].
    rewrite !get_document_id_unfold.
    destruct (key_sep_free _ Hj1) as [Ej1 Fj1], (key_sep_free _ Hj2) as [Ej2 Fj2],
      (key_sep_free _ Hc1) as [Ec1 Fc1], (key_sep_free _ Hc2) as [Ec2 Fc2],
      (key_sep_free _ Hk1) as [Ek1 Fk1], (key_sep_free _ Hk2) as [Ek2 Fk2],
      (key_sep_free _ Hd1) as [Ed1 _], (key_sep_free _ Hd2) as [Ed2 _].
    split.
    + intros H.
      apply append_sep_inj in H as [Hj H]; [|done..].
      apply append_sep_inj in H as [Hc H]; [|done..].
      apply append_sep_inj in H as [Hk Hd]; [|done..].
      rewrite <- Ej1, <- Ej2, <- Ec1, <- Ec2, <- Ek1, <- Ek2, <- Ed1, <- Ed2.
      done.
    + rewrite Ej1, Ej2, Ec1, Ec2, Ek1, Ek2, Ed1, Ed2.
      by intros (-> & -> & -> & ->).
Qed.

Lemma get_document_id_key_witness :
  get_document_id (record_of "Tanishq" "Mumbai" "18K" "2025-07-21")
  = "tanishq_mumbai_18k_2025-07-21".
Proof. apply (proj1 (proj2 get_document_id_key)). reflexivity. Defined.

(** C4 as stated fails: different key tuples with one document id, by
    letter case, by a space against an underscore, and by where an
    underscore falls. *)
Lemma get_document_id_collision :
  (key_fields (record_of "Tanishq" "Mumbai" "18K" "2025-07-21")
     ≠ key_fields (record_of "tanishq" "mumbai" "18k" "2025-07-21")
   ∧ get_document_id (record_of "Tanishq" "Mumbai" "18K" "2025-07-21")
     = get_document_id (record_of "tanishq" "mumbai" "18k" "2025-07-21"))
  ∧ (key_fields (record_of "Kalyan Jewellers" "Kochi" "22K" "2025-07-21")
       ≠ key_fields (record_of "Kalyan_Jewellers" "Kochi" "22K" "2025-07-21")
     ∧ get_document_id (record_of "Kalyan Jewellers" "Kochi" "22K" "2025-07-21")
       = get_document_id
           (record_of "Kalyan_Jewellers" "Kochi" "22K" "2025-07-21"))
  ∧ (key_fields (record_of "Kalyan" "Jewellers_Kochi" "22K" "2025-07-21")
       ≠ key_fields (record_of "Kalyan_Jewellers" "Kochi" "22K" "2025-07-21")
     ∧ get_document_id (record_of "Kalyan" "Jewellers_Kochi" "22K" "2025-07-21")
       = get_document_id
           (record_of "Kalyan_Jewellers" "Kochi" "22K" "2025-07-21")).
Proof. repeat split; (discriminate || reflexivity). Qed.

(** ** Validation (C1) *)

Lemma validate_loop_filter (self : BaseJewellerScraper)
    (data valid_data : list GoldPriceData) :
  validate_loop self data valid_data
  = valid_data ++ List.filter (valid_item self) data.
Proof.
  revert valid_data. induction data as [|item rest IH]; intros acc; simpl.
  - by rewrite app_nil_r.
  - rewrite IH. destruct (valid_item self item); [|done].
    by rewrite <- app_assoc.
Qed.

Lemma validate_data_filter (self : BaseJewellerScraper)
    (data : list GoldPriceData) :
  validate_data self data = List.filter (valid_item self) data.
Proof. unfold validate_data. by rewrite validate_loop_filter. Qed.

(** C1: for every adapter built by the base constructor and every input
    list, the validated list is the input list with exactly the records
    removed that break a clause (price strictly between 1000 and 20000,
    carat among 18K / 22K / 24K, city among the adapter's cities); the
    kept records are the input's own, in order, and what is kept of a
    batch does not depend on the records before or after it. *)
Theorem validate_data_spec (name : string) (cities : list string)
    (scrape : string → Z → M (list GoldPriceData))
    (url : option string → string) (data : list GoldPriceData) :
  let self := BaseJewellerScraper_init name cities scrape url in
  validate_data self data
  = List.filter
      (λ item, (1000 <? price item)%float && (price item <? 20000)%float
               && bool_decide (carat item ∈ ["18K"; "22K"; "24K"])
               && bool_decide (city item ∈ cities))
      data
  ∧ (∀ item, item ∈ validate_data self data ↔
       item ∈ data
       ∧ (1000 <? price item)%float = true
       ∧ (price item <? 20000)%float = true
       ∧ carat item ∈ ["18K"; "22K"; "24K"]
       ∧ city item ∈ cities)
  ∧ (∀ before after,
       validate_data self (before ++ data ++ after)
       = validate_data self before ++ validate_data self data
           ++ validate_data self after).
Proof.
  intros self. split; [|split].
  - apply validate_data_filter.
  - intros item.
    rewrite validate_data_filter, list_elem_of_In, filter_In, <- list_elem_of_In.
    unfold valid_item; simpl. rewrite !andb_true_iff, !bool_decide_eq_true.
    tauto.
  - intros before after.
    by rewrite !validate_data_filter, !List.filter_app.
Qed.

(** ** Date normalisation (C3) *)

Lemma parse_date_id (date_text : string) : _parse_date date_text = date_text.
Proof. reflexivity. Qed.

(** C3, on the code: [re] is imported inside [scrape_city_prices] only, so
    the lookup of [re] in [_parse_date] raises [NameError], the handler
    returns the argument, and no date is ever rewritten; the two dates of
    the claim come back as they went in. *)
Theorem parse_date_returns_its_argument :
  "re" ∈ scrape_city_prices_locals
  ∧ ("re" ∉ module_globals)
  ∧ (∀ date_text,
       parse_date_try module_globals date_text = Raise (NameError "re"))
  ∧ (∀ date_text, _parse_date date_text = date_text)
  ∧ _parse_date "21-07-2025" = "21-07-2025"
  ∧ _parse_date "21/07/2025" = "21/07/2025"
  ∧ _parse_date "21-07-2025" ≠ "2025-07-21"
  ∧ _parse_date "21/07/2025" ≠ "2025-07-21".
Proof.
  split; [by apply (bool_decide_unpack _)|].
  split; [by apply (bool_decide_unpack _)|].
  repeat split; discriminate.
Qed.

(** *** What the body does once [re] is bound *)

Lemma digit_not_sep (c sep : ascii) :
  Str.is_digit c = true → sep = "-"%char ∨ sep = "/"%char →
  Ascii.eqb c sep = false.
Proof.
  intros Hc [-> | ->];
    destruct c as [[] [] [] [] [] [] [] []]; vm_compute in Hc |- *;
    (discriminate Hc || reflexivity).
Qed.

Lemma split_cons_ne (sep c : ascii) (s : string) :
  Ascii.eqb c sep = false →
  Str.split sep (String c s)
  = match Str.split sep s with
    | [] => [String c EmptyString]
    | p :: ps => String c p :: ps
    end.
Proof. intros H. simpl. by rewrite H. Qed.

Lemma split_cons_eq (sep : ascii) (s : string) :
  Str.split sep (String sep s) = EmptyString :: Str.split sep s.
Proof. simpl. by rewrite Ascii.eqb_refl. Qed.

Lemma split_nonempty (sep : ascii) (s : string) :
  ∃ p ps, Str.split sep s = p :: ps.
Proof.
  induction s as [|c s (p & ps & IH)]; simpl; [by eexists _, _|].
  destruct (Ascii.eqb c sep); [by eexists _, _|].
  rewrite IH. by eexists _, _.
Qed.

Lemma re_match_third (sep a b c : ascii) (t : string) :
  re_match_date sep (String a (String b (String c t))) = true →
  Ascii.eqb c sep = true.
Proof.
  destruct t as [|? [|? [|? [|? [|? [|? [|? t]]]]]]]; simpl; try discriminate.
  rewrite !andb_true_iff. tauto.
Qed.

Lemma re_match_date_shape (sep : ascii) (s : string) :
  re_match_date sep s = true →
  ∃ d1 d2 m1 m2 y1 y2 y3 y4 rest,
    s = String d1 (String d2 (String sep (String m1 (String m2 (String sep
          (String y1 (String y2 (String y3 (String y4 rest)))))))))
    ∧ Str.is_digit d1 = true ∧ Str.is_digit d2 = true
    ∧ Str.is_digit m1 = true ∧ Str.is_digit m2 = true
    ∧ Str.is_digit y1 = true ∧ Str.is_digit y2 = true
    ∧ Str.is_digit y3 = true ∧ Str.is_digit y4 = true.
Proof.
  destruct s as [|d1 [|d2 [|s1 [|m1 [|m2 [|s2 [|y1 [|y2 [|y3 [|y4 rest]]]]]]]]]];
    simpl; try discriminate.
  rewrite !andb_true_iff.
  intros (((((((((H1 & H2) & H3%Ascii.eqb_eq) & H4) & H5) & H6%Ascii.eqb_eq)
               & H7) & H8) & H9) & H10).
  subst s1 s2. by eexists _, _, _, _, _, _, _, _, _.
Qed.

(** A reformatted date starts with the digits of the year, so neither
    pattern matches it again. *)
Lemma reformat_settles (sep sep' : ascii) (s : string) :
  sep = "-"%char ∨ sep = "/"%char → sep' = "-"%char ∨ sep' = "/"%char →
  re_match_date sep s = true →
  reformat sep s = s ∨ re_match_date sep' (reformat sep s) = false.
Proof.
  intros Hsep Hsep' Hmatch.
  destruct (re_match_date_shape sep s Hmatch)
    as (d1 & d2 & m1 & m2 & y1 & y2 & y3 & y4 & rest & -> & Hd1 & Hd2
        & Hm1 & Hm2 & Hy1 & Hy2 & Hy3 & Hy4).
  destruct (split_nonempty sep rest) as (p & ps & Hrest).
  unfold reformat.
  rewrite (split_cons_ne sep d1), (split_cons_ne sep d2), split_cons_eq
    by by apply digit_not_sep.
  rewrite (split_cons_ne sep m1), (split_cons_ne sep m2), split_cons_eq
    by by apply digit_not_sep.
  rewrite (split_cons_ne sep y1), (split_cons_ne sep y2),
    (split_cons_ne sep y3), (split_cons_ne sep y4), Hrest
    by by apply digit_not_sep.
  destruct ps as [|? ?]; [|left; unfold unpack_and_format; by case_bool_decide].
  right. unfold unpack_and_format, rcatch. rewrite !append_cons.
  match goal with |- re_match_date sep' ?r = false =>
    destruct (re_match_date sep' r) eqn:Hagain; [|done]
  end.
  apply re_match_third in Hagain.
  by rewrite (digit_not_sep y3 sep') in Hagain.
Qed.

Lemma parse_date_with_re_unfold (s : string) :
  parse_date_with_re s
  = if re_match_date "-" s then reformat "-" s
    else if re_match_date "/" s then reformat "/" s
    else s.
Proof.
  unfold parse_date_with_re, parse_date_in, parse_date_try, reformat.
  change (load_global ("re" :: module_globals) "re") with (Ok ()).
  simpl. destruct (re_match_date "-" s); [done|].
  by destruct (re_match_date "/" s).
Qed.

(** With [re] bound the body meets the claim: dates in YYYY-MM-DD form
    and strings that match neither pattern come back unchanged, the
    function is idempotent, and the two dates of the claim are
    converted. *)
Lemma parse_date_with_re_spec :
  (∀ s, iso_date s = true → parse_date_with_re s = s)
  ∧ (∀ s, re_match_date "-" s = false → re_match_date "/" s = false →
          parse_date_with_re s = s)
  ∧ (∀ s, parse_date_with_re (parse_date_with_re s) = parse_date_with_re s)
  ∧ parse_date_with_re "21-07-2025" = "2025-07-21"
  ∧ parse_date_with_re "21/07/2025" = "2025-07-21".
Proof.
  assert (Hpass : ∀ s, re_match_date "-" s = false →
                       re_match_date "/" s = false →
                       parse_date_with_re s = s).
  { intros s H1 H2. by rewrite parse_date_with_re_unfold, H1, H2. }
  split; [|split; [exact Hpass|split; [|done]]].
  - intros s Hiso. apply Hpass.
    all: destruct (re_match_date _ s) eqn:Hm; [|done].
    all: destruct s as [|y1 [|y2 [|y3 t]]]; try discriminate.
    all: apply re_match_third in Hm.
    all: destruct t as [|? [|? [|? [|? [|? [|? [|? [|? ?]]]]]]]];
           try discriminate.
    all: simpl in Hiso; rewrite !andb_true_iff in Hiso.
    all: destruct Hiso
           as (((((((((_ & _) & Hy3) & _) & _) & _) & _) & _) & _) & _).
    all: rewrite (digit_not_sep y3) in Hm by (done || auto); discriminate.
  - intros s. rewrite (parse_date_with_re_unfold s).
    destruct (re_match_date "-" s) eqn:H1;
      [|destruct (re_match_date "/" s) eqn:H2].
    + destruct (reformat_settles "-" "-" s (or_introl eq_refl)
                  (or_introl eq_refl) H1) as [E|Ha];
        [rewrite E, parse_date_with_re_unfold, H1; exact E|].
      destruct (reformat_settles "-" "/" s (or_introl eq_refl)
                  (or_intror eq_refl) H1) as [E|Hb];
        [rewrite E, parse_date_with_re_unfold, H1; exact E|].
      by apply Hpass.
    + destruct (reformat_settles "/" "-" s (or_intror eq_refl)
                  (or_introl eq_refl) H2) as [E|Ha];
        [rewrite E, parse_date_with_re_unfold, H1, H2; exact E|].
      destruct (reformat_settles "/" "/" s (or_intror eq_refl)
                  (or_intror eq_refl) H2) as [E|Hb];
        [rewrite E, parse_date_with_re_unfold, H1, H2; exact E|].
      by apply Hpass.
    + by apply Hpass.
Qed.

(** ** Pairing dates and prices (C2, C10) *)

Lemma truthy_parse_date (d : string) :
  Str.truthy (_parse_date d) = Str.truthy d.
Proof. by rewrite parse_date_id. Qed.

Lemma pairing_loop_spec (days i : Z) (pairs : list (string * float))
    (carat_data : list PricePoint) :
  pairing_loop days i pairs carat_data
  = carat_data
      ++ (point_of <$> List.filter has_date (take (Z.to_nat (days - i)) pairs)).
Proof.
  revert i carat_data.
  induction pairs as [|[date_str price] rest IH]; intros i acc; simpl.
  - by rewrite take_nil, app_nil_r.
  - destruct (Z.leb_spec days i) as [Hle|Hlt].
    + replace (Z.to_nat (days - i)) with 0%nat by lia.
      by rewrite app_nil_r.
    + replace (Z.to_nat (days - i)) with (S (Z.to_nat (days - (i + 1)))) by lia.
      rewrite IH. simpl. unfold has_date at 2. simpl.
      rewrite truthy_parse_date.
      destruct (Str.truthy date_str); [|done].
      by rewrite <- app_assoc.
Qed.

Lemma combine_dates_prices_filter (days : Z) (dates : list string)
    (prices : list float) :
  combine_dates_prices days dates prices
  = reverse
      (point_of <$>
         List.filter has_date
           (zip (take (Z.to_nat days) dates) (take (Z.to_nat days) prices))).
Proof.
  unfold combine_dates_prices. rewrite pairing_loop_spec, Z.sub_0_r.
  by rewrite zip_with_take.
Qed.

Lemma filter_has_date_all (pairs : list (string * float)) :
  Forall (λ d, d ≠ "") pairs.*1 → List.filter has_date pairs = pairs.
Proof.
  induction pairs as [|[d p] rest IH]; simpl; [done|].
  intros [Hd Hrest]%Forall_cons. unfold has_date at 1; simpl.
  destruct d; [done|]. simpl. by rewrite IH.
Qed.

(** C2, amended: with as many dates as prices and [days] below their
    number, the result is the reversed list of the points of the first
    [days] (date, price) pairs, index for index, without the pairs whose
    date token is the empty string; when none of the first [days] tokens
    is empty these are all [days] pairs, and five dates with [days = 3]
    give the points of the third, second and first pair, in this order. *)
Theorem first_days_newest_first (days : Z) (dates : list string)
    (prices : list float) :
  length dates = length prices →
  days < Z.of_nat (length dates) →
  let first_dates := take (Z.to_nat days) dates in
  let first_prices := take (Z.to_nat days) prices in
  combine_dates_prices days dates prices
  = reverse (point_of <$> List.filter has_date (zip first_dates first_prices))
  ∧ (Forall (λ d, d ≠ "") first_dates →
     combine_dates_prices days dates prices
     = reverse (point_of <$> zip first_dates first_prices)
     ∧ length (combine_dates_prices days dates prices) = Z.to_nat days)
  ∧ (∀ d1 d2 d3 d4 d5 p1 p2 p3 p4 p5,
       dates = [d1; d2; d3; d4; d5] → prices = [p1; p2; p3; p4; p5] →
       days = 3 → d1 ≠ "" → d2 ≠ "" → d3 ≠ "" →
       combine_dates_prices days dates prices
       = [point_of (d3, p3); point_of (d2, p2); point_of (d1, p1)]).
Proof.
  intros Hlen Hdays first_dates first_prices.
  assert (Hall : Forall (λ d, d ≠ "") first_dates →
                 combine_dates_prices days dates prices
                 = reverse (point_of <$> zip first_dates first_prices)).
  { intros Hne. rewrite combine_dates_prices_filter.
    fold first_dates first_prices. rewrite filter_has_date_all; [done|].
    rewrite fst_zip; [done|]. subst first_dates first_prices.
    rewrite !length_take. lia. }
  split; [apply combine_dates_prices_filter|split].
  - intros Hne. split; [by apply Hall|].
    rewrite (Hall Hne), length_reverse, length_fmap, length_zip_with.
    subst first_dates first_prices. rewrite !length_take. lia.
  - intros d1 d2 d3 d4 d5 p1 p2 p3 p4 p5 -> -> -> H1 H2 H3.
    rewrite combine_dates_prices_filter. simpl.
    unfold has_date; simpl.
    destruct d1; [done|]. destruct d2; [done|]. destruct d3; [done|].
    reflexivity.
Qed.

Lemma first_days_newest_first_witness :
  combine_dates_prices 3
    ["21-07-2025"; "22-07-2025"; "23-07-2025"; "24-07-2025"; "25-07-2025"]
    [7585; 7523; 7454; 7460; 7470]%float
  = [ point_of ("23-07-2025", 7454%float);
      point_of ("22-07-2025", 7523%float);
      point_of ("21-07-2025", 7585%float) ].
Proof.
  refine (proj2 (proj2 (first_days_newest_first 3
    ["21-07-2025"; "22-07-2025"; "23-07-2025"; "24-07-2025"; "25-07-2025"]
    [7585; 7523; 7454; 7460; 7470]%float _ _))
    _ _ _ _ _ _ _ _ _ _ eq_refl eq_refl eq_refl _ _ _);
    (reflexivity || discriminate || (simpl; lia)).
Defined.

(** C2 as stated fails: three dates, three prices and [days = 2], but the
    first date token is empty, so only the second pair is kept. *)
Lemma first_days_drops_empty_date :
  let dates := [""; "22-07-2025"; "23-07-2025"] in
  let prices := [7585; 7523; 7454]%float in
  length dates = length prices
  ∧ 2 < Z.of_nat (length dates)
  ∧ combine_dates_prices 2 dates prices = [point_of ("22-07-2025", 7523%float)]
  ∧ combine_dates_prices 2 dates prices
    ≠ reverse (point_of <$> zip (take 2 dates) (take 2 prices)).
Proof. repeat split. discriminate. Qed.

Lemma zip_take_min {A B} (n : nat) (l : list A) (k : list B) :
  let m := Nat.min (Nat.min (length l) (length k)) n in
  zip (take n l) (take n k) = zip (take m l) (take m k).
Proof.
  intros m.
  rewrite <- (zip_with_take_both' _ m m (take n l) (take n k));
    [|rewrite !length_take; lia..].
  rewrite !take_take. by replace (m `min` n)%nat with m by lia.
Qed.

(** C10: with [N] date tokens and [M] prices, whatever [N] and [M] are,
    the loop pairs the first [min(N, M, days)] entries of the two lists
    index for index and nothing beyond them: the result is built from
    these pairs alone (their points, newest first, a pair with an empty
    date token left out), so it is the result for the two lists cut to
    that length; and once the price field is found and its numbers parse,
    the extraction of the carat returns this result and raises nothing. *)
Theorem unequal_lengths_pairing (web : nat → Page)
    (py_float : string → option float) (days : Z) (dates : list string)
    (prices : list float) :
  let m := Z.to_nat (Z.min (Z.min (Z.of_nat (length dates))
                                   (Z.of_nat (length prices))) days) in
  let paired := zip (take m dates) (take m prices) in
  length paired = m
  ∧ (∀ i d p, paired !! i = Some (d, p) ↔
       (i < m)%nat ∧ dates !! i = Some d ∧ prices !! i = Some p)
  ∧ combine_dates_prices days dates prices
    = reverse (point_of <$> List.filter has_date paired)
  ∧ combine_dates_prices days dates prices
    = combine_dates_prices days (take m dates) (take m prices)
  ∧ (∀ driver input_id price_input v,
       find_element (web driver) input_id = Ok price_input →
       get_attribute price_input "value" = Ok (Some v) →
       rmap (λ price, float_of_str py_float (Str.strip price))
         (Str.split "," (Str.strip_chars "[]" v)) = Ok prices →
       extract_carat web py_float driver days dates input_id
       = Ok (combine_dates_prices days dates prices)).
Proof.
  intros m paired.
  assert (Hm : m = Nat.min (Nat.min (length dates) (length prices))
                       (Z.to_nat days))
    by (subst m; lia).
  assert (Hzip : zip (take (Z.to_nat days) dates) (take (Z.to_nat days) prices)
                 = paired).
  { subst paired. rewrite Hm. apply zip_take_min. }
  split; [|split; [|split; [|split]]].
  - subst paired. rewrite length_zip_with, !length_take. lia.
  - intros i d p. subst paired.
    rewrite lookup_zip_Some, !lookup_take_Some. tauto.
  - by rewrite combine_dates_prices_filter, Hzip.
  - rewrite !combine_dates_prices_filter, Hzip. f_equal. f_equal. f_equal.
    rewrite !take_take.
    replace (Z.to_nat days `min` m)%nat with m by lia. done.
  - intros driver input_id price_input v Hfind Hattr Hparse.
    unfold extract_carat. rewrite Hfind. simpl. rewrite Hattr. simpl.
    by rewrite Hparse.
Qed.

(** Three date tokens, two prices and [days = 30]: the first two entries
    are paired, the third date is ignored, and the pair whose date token
    is empty is not kept. *)
Example unequal_lengths_example :
  let dates := ["21-07-2025"; ""; "23-07-2025"] in
  let prices := [7585; 7523]%float in
  Z.to_nat (Z.min (Z.min (Z.of_nat (length dates)) (Z.of_nat (length prices)))
              30) = 2%nat
  ∧ combine_dates_prices 30 dates prices = [point_of ("21-07-2025", 7585%float)]
  ∧ combine_dates_prices 30 dates prices
    ≠ reverse (point_of <$> zip (take 2 dates) (take 2 prices)).
Proof. repeat split. discriminate. Qed.

(** ** Code that never raises *)

Lemma bind_eval {A B} (m : M A) (k : A → M B) (w : World) :
  (m ≫= k) w = match m w with
               | (w', Ok a) => k a w'
               | (w', Raise e) => (w', Raise e)
               end.
Proof. reflexivity. Qed.

Lemma ret_eval {A} (a : A) (w : World) : (mret a : M A) w = (w, Ok a).
Proof. reflexivity. Qed.

Lemma returns_ret {A} (a : A) : returns (mret a).
Proof. intros w. by exists w, a. Qed.

Lemma returns_bind {A B} (m : M A) (k : A → M B) :
  returns m → (∀ a, returns (k a)) → returns (m ≫= k).
Proof.
  intros Hm Hk w. destruct (Hm w) as (w1 & a & E1).
  destruct (Hk a w1) as (w2 & b & E2).
  exists w2, b. by rewrite bind_eval, E1.
Qed.

Lemma returns_try_except {A} (body : M A) (handler : Exception → M A) :
  (∀ e, returns (handler e)) → returns (try_except body handler).
Proof.
  intros Hh w. unfold try_except.
  destruct (body w) as [w1 [a|e]]; [by exists w1, a|apply Hh].
Qed.

Lemma returns_for_each {A S} (xs : list A) (body : A → S → M S) (acc : S) :
  (∀ x s, returns (body x s)) → returns (for_each xs body acc).
Proof.
  intros Hbody. revert acc.
  induction xs as [|x xs IH]; intros acc; simpl.
  - apply returns_ret.
  - apply returns_bind; [apply Hbody|apply IH].
Qed.

Lemma returns_emit (ev : Event) : returns (emit ev).
Proof. intros w. by eexists _, _. Qed.

Lemma returns_attempt {A} (body : M A) : returns (attempt body).
Proof.
  intros w. unfold attempt. destruct (body w) as [w1 r]. by exists w1, r.
Qed.

Create HintDb returns.
#[local] Hint Resolve returns_ret returns_emit returns_attempt : returns.
#[local] Hint Extern 2 (returns (_ ≫= _)) =>
  apply returns_bind; [|intros ?] : returns.
#[local] Hint Extern 2 (returns (try_except _ _)) =>
  apply returns_try_except; intros ? : returns.
#[local] Hint Extern 2 (returns (for_each _ _ _)) =>
  apply returns_for_each; intros ? ? : returns.

Lemma close_popups_returns (web : nat → Page) (driver : nat) :
  returns (_close_popups web driver).
Proof. unfold _close_popups. auto with returns. Qed.

Lemma tanishq_returns (web : nat → Page) (clock : nat → string)
    (py_float : string → option float) (c : string) (days : Z) :
  returns (tanishq_scrape_city_prices web clock py_float c days).
Proof.
  unfold tanishq_scrape_city_prices.
  apply returns_bind; [auto with returns|].
  intros [driver|e]; [|auto with returns].
  apply returns_try_except. intros _. unfold driver_quit, sleep.
  auto with returns.
Qed.

Lemma scrape_all_cities_returns (self : BaseJewellerScraper) (days : Z) :
  returns (scrape_all_cities self days).
Proof. unfold scrape_all_cities. auto with returns. Qed.

(** ** The Tanishq adapter (C5) *)

Lemma extract_from_hidden_inputs_eval (web : nat → Page)
    (py_float : string → option float) (driver : nat) (days : Z) (w : World) :
  ∃ all_price_data,
    _extract_from_hidden_inputs web py_float driver days w
    = (w, Ok all_price_data)
    ∧ (∀ e, extract_dates web driver = Raise e → all_price_data = [])
    ∧ (∀ dates_list, extract_dates web driver = Ok dates_list →
         points_keys all_price_data
         = concat ((λ '(carat, input_id),
                      carat_keys carat
                        (extract_carat web py_float driver days dates_list
                           input_id)) <$> input_ids)).
Proof.
  unfold _extract_from_hidden_inputs, try_except, lift, mbind, M_bind, mret,
    M_ret.
  destruct (extract_dates web driver) as [dates_list|e]; simpl.
  - destruct (extract_carat web py_float driver days dates_list "goldRate18KT")
      eqn:E18; simpl;
      destruct (extract_carat web py_float driver days dates_list "goldRate22KT")
        eqn:E22; simpl;
      destruct (extract_carat web py_float driver days dates_list "goldRate24KT")
        eqn:E24; simpl;
      (eexists; split; [reflexivity|]; split; [done|]);
      intros ? [= <-]; unfold points_keys; simpl;
      by rewrite E18, E22, E24.
  - exists []. split; [done|]. split; [done|]. intros ? [=].
Qed.

Lemma build_points_eval (clock : nat → string) (c url carat : string)
    (prices : list PricePoint) (structured_data : list GoldPriceData)
    (w : World) :
  ∃ w' new,
    for_each prices
      (λ price_item structured_data,
         gold_data ← GoldPriceData_init clock "Tanishq" c carat
                       (point_price price_item) (point_date price_item)
                       (Some url) (Some tanishq_additional_info);
         mret (structured_data ++ [gold_data]))
      structured_data w
    = (w', Ok (structured_data ++ new))
    ∧ record_key <$> new = carat_keys carat (Ok prices)
    ∧ Forall (λ r, jeweller r = "Tanishq" ∧ city r = c
                   ∧ source_url r = Some url) new.
Proof.
  revert structured_data w.
  induction prices as [|p prices IH]; intros acc w; simpl.
  - exists w, []. by rewrite app_nil_r.
  - rewrite bind_eval. simpl.
    match goal with |- context [for_each prices _ (acc ++ [?r]) ?w1] =>
      destruct (IH (acc ++ [r]) w1) as (w' & new & E & Hk & Hf);
      exists w', (r :: new)
    end.
    rewrite E, <- app_assoc. split; [done|]. split.
    + unfold carat_keys in *. by rewrite !fmap_cons, Hk.
    + by constructor.
Qed.

Lemma build_records_eval (clock : nat → string) (c url : string)
    (all_price_data : dict (list PricePoint)) (w : World) :
  ∃ w' records,
    build_records clock c url all_price_data w = (w', Ok records)
    ∧ record_key <$> records = points_keys all_price_data
    ∧ Forall (λ r, jeweller r = "Tanishq" ∧ city r = c
                   ∧ source_url r = Some url) records.
Proof.
  unfold build_records.
  enough (∀ acc w, ∃ w' new,
    for_each all_price_data
      (λ '(carat, prices) structured_data,
         for_each prices
           (λ price_item structured_data,
              gold_data ← GoldPriceData_init clock "Tanishq" c carat
                            (point_price price_item) (point_date price_item)
                            (Some url) (Some tanishq_additional_info);
              mret (structured_data ++ [gold_data]))
           structured_data)
      acc w
    = (w', Ok (acc ++ new))
    ∧ record_key <$> new = points_keys all_price_data
    ∧ Forall (λ r, jeweller r = "Tanishq" ∧ city r = c
                   ∧ source_url r = Some url) new) as H.
  { destruct (H [] w) as (w' & new & E & ?). by exists w', new. }
  induction all_price_data as [|[carat prices] rest IH]; intros acc w0; simpl.
  - exists w0, []. by rewrite app_nil_r.
  - rewrite bind_eval.
    destruct (build_points_eval clock c url carat prices acc w0)
      as (w1 & new1 & E1 & Hk1 & Hf1).
    rewrite E1.
    destruct (IH (acc ++ new1) w1) as (w2 & new2 & E2 & Hk2 & Hf2).
    exists w2, (new1 ++ new2). rewrite E2, <- app_assoc.
    split; [done|]. split.
    + rewrite fmap_app, Hk1, Hk2. done.
    + by apply Forall_app.
Qed.

Lemma tanishq_tail_eval (web : nat → Page) (clock : nat → string)
    (py_float : string → option float) (c : string) (days : Z)
    (session : nat) (w : World) :
  ∃ w' records,
    (all_price_data ← _extract_from_hidden_inputs web py_float session days;
     structured_data ← build_records clock c (tanishq_get_source_url (Some c))
                         all_price_data;
     driver_quit session;;
     mret structured_data) w
    = (w', Ok records)
    ∧ Forall (tanishq_record c) records
    ∧ (∀ e, extract_dates web session = Raise e → records = [])
    ∧ (∀ dates_list, extract_dates web session = Ok dates_list →
         record_key <$> records
         = concat ((λ '(carat, input_id),
                      carat_keys carat
                        (extract_carat web py_float session days dates_list
                           input_id)) <$> input_ids)).
Proof.
  destruct (extract_from_hidden_inputs_eval web py_float session days w)
    as (all_price_data & Ee & Hnone & Hsome).
  destruct (build_records_eval clock c (tanishq_get_source_url (Some c))
              all_price_data w) as (w1 & records & Eb & Hk & Hf).
  rewrite bind_eval, Ee, bind_eval, Eb.
  eexists _, records. split; [reflexivity|]. split; [exact Hf|]. split.
  - intros e He. rewrite (Hnone e He) in Hk.
    by destruct records.
  - intros dates_list Hd. by rewrite Hk, (Hsome dates_list Hd).
Qed.

Opaque _close_popups _extract_from_hidden_inputs build_records.

(** C5: in every world and for every city and day count the Tanishq
    adapter returns a list and raises nothing.  The list is empty when the
    browser does not launch, when the page does not load, when waiting
    ends in anything but a timeout, and when the date field cannot be
    read; otherwise it holds, carat by carat in the order 18K, 22K, 24K,
    the records of the carats whose price field was found and parsed,
    and nothing for a carat whose extraction raised. *)
Theorem tanishq_scrape_never_raises (web : nat → Page) (clock : nat → string)
    (py_float : string → option float) (c : string) (days : Z) (w : World) :
  let session := launches w in
  let url := tanishq_get_source_url (Some c) in
  let page := web session in
  ∃ w' records,
    tanishq_scrape_city_prices web clock py_float c days w = (w', Ok records)
    ∧ Forall (tanishq_record c) records
    ∧ (∀ e, chrome page = Raise e → records = [])
    ∧ (∀ e, get page url = Raise e → records = [])
    ∧ (∀ e, wait_until page ".goldpurity-rate" = Raise e →
            e ≠ TimeoutException → records = [])
    ∧ (∀ e, extract_dates web session = Raise e → records = [])
    ∧ (∀ dates_list,
         chrome page = Ok () → get page url = Ok () →
         wait_until page ".goldpurity-rate" ∈ [Ok (); Raise TimeoutException] →
         extract_dates web session = Ok dates_list →
         record_key <$> records
         = concat ((λ '(carat, input_id),
                      carat_keys carat
                        (extract_carat web py_float session days dates_list
                           input_id)) <$> input_ids)).
Proof.
  intros session url page.
  assert (Hwait : ∀ r : result (), r ∈ [Ok (); Raise TimeoutException] →
                  r = Ok () ∨ r = Raise TimeoutException).
  { intros r. rewrite !elem_of_cons, elem_of_nil. tauto. }
  unfold tanishq_scrape_city_prices. rewrite bind_eval.
  unfold attempt, webdriver_Chrome. fold session. fold page.
  destruct (chrome page) as [[]|e0] eqn:Hc.
  - unfold try_except at 1. fold url.
    rewrite bind_eval. unfold driver_get. rewrite bind_eval. simpl.
    fold page.
    destruct (get page url) as [[]|e1] eqn:Hg.
    + rewrite bind_eval. simpl. rewrite bind_eval.
      match goal with |- context [_close_popups web session ?w0] =>
        destruct (close_popups_returns web session w0) as (w1 & [] & ->)
      end.
      rewrite bind_eval. unfold try_except, lift.
      destruct (wait_until page ".goldpurity-rate") as [[]|e2] eqn:Hw;
        [|destruct e2].
      all: try (simpl; eexists _, []; split; [reflexivity|];
                split; [constructor|]; repeat split; try done;
                intros dl _ _ [[=]|[=]]%Hwait).
      all: rewrite ?ret_eval.
      all: destruct (tanishq_tail_eval web clock py_float c days session w1)
             as (w2 & records & E & Hf & Hnone & Hsome);
           fold url in E; rewrite E;
           exists w2, records; (split; [reflexivity|]);
           (split; [exact Hf|]); (split; [intros ? [=]|]);
           (split; [intros ? [=]|]); (split; [intros e He Hne; congruence|]);
           (split; [exact Hnone|]);
           intros dates_list _ _ _ Hd; exact (Hsome dates_list Hd).
    + simpl. eexists _, []. split; [reflexivity|].
      split; [constructor|]. repeat split; try done.
    - simpl. eexists _, []. split; [reflexivity|].
      split; [constructor|]. repeat split; try done.
Qed.

Transparent _close_popups _extract_from_hidden_inputs build_records.

(** ** The placeholders (C8) *)

(** C8: for every city and day count, and in every world, the Kalyan
    Jewellers and the Joyalukkas adapters return the empty list, raise
    nothing and leave the world as it was; they are the adapters the
    manager registers as kalyan and joyalukkas. *)
Theorem placeholders_return_empty (web : nat → Page) (clock : nat → string)
    (py_float : string → option float) (firebase : option FirebaseManager)
    (c : string) (days : Z) (w : World) :
  scrape_city_prices KalyanJewellersScraper c days w = (w, Ok [])
  ∧ scrape_city_prices JoyalukkasJewellersScraper c days w = (w, Ok [])
  ∧ dict_lookup "kalyan"
      (scrapers (GoldPriceManager_init web clock py_float firebase))
    = Some KalyanJewellersScraper
  ∧ dict_lookup "joyalukkas"
      (scrapers (GoldPriceManager_init web clock py_float firebase))
    = Some JoyalukkasJewellersScraper.
Proof. repeat split. Qed.

(** ** The coordinator (C7) *)

Lemma dict_get_cons {V} (k k' : string) (v : V) (d : dict V) :
  dict_get k ((k', v) :: d) = if String.eqb k' k then Ok v else dict_get k d.
Proof. reflexivity. Qed.

Lemma registered_lookup (web : nat → Page) (clock : nat → string)
    (py_float : string → option float) (firebase : option FirebaseManager)
    (name : string) :
  dict_lookup name (scrapers (GoldPriceManager_init web clock py_float firebase))
  = if bool_decide (name = "tanishq")
    then Some (TanishqScraper web clock py_float)
    else if bool_decide (name = "kalyan") then Some KalyanJewellersScraper
    else if bool_decide (name = "joyalukkas")
    then Some JoyalukkasJewellersScraper
    else None.
Proof.
  unfold dict_lookup, GoldPriceManager_init, scrapers.
  rewrite dict_get_cons.
  destruct (String.eqb_spec "tanishq" name) as [<-|H1]; [done|].
  rewrite bool_decide_eq_false_2 by congruence.
  rewrite dict_get_cons.
  destruct (String.eqb_spec "kalyan" name) as [<-|H2]; [done|].
  rewrite bool_decide_eq_false_2 by congruence.
  rewrite dict_get_cons.
  destruct (String.eqb_spec "joyalukkas" name) as [<-|H3]; [done|].
  by rewrite bool_decide_eq_false_2 by congruence.
Qed.

Lemma scrape_jeweller_with (scraper : BaseJewellerScraper) (name : string)
    (self : GoldPriceManager) (cities : option (list string)) (days : Z) :
  dict_lookup name (scrapers self) = Some scraper →
  (∀ c, returns (scrape_city_prices scraper c days)) →
  returns (scrape_jeweller self name cities days).
Proof.
  intros Hlookup Hscrape. unfold scrape_jeweller. rewrite Hlookup.
  destruct (cities_given cities) as [cs|].
  - apply returns_for_each. intros c acc.
    case_bool_decide; [|apply returns_ret].
    apply returns_bind; [apply Hscrape|intros; apply returns_ret].
  - apply scrape_all_cities_returns.
Qed.

(** C7: a name outside the three registered ones makes [scrape_jeweller]
    raise [ValueError] with the message Unsupported jeweller, and the world
    is then exactly as before the call: no browser was started, nothing was
    fetched and no time was slept.  For each registered name the call
    returns a list whatever the browser does, and [scrape_all_jewellers]
    returns as well, so nothing else propagates from the coordinator. *)
Theorem scrape_jeweller_unsupported (web : nat → Page) (clock : nat → string)
    (py_float : string → option float) (firebase : option FirebaseManager)
    (name : string) (cities : option (list string)) (days : Z) (w : World) :
  let self := GoldPriceManager_init web clock py_float firebase in
  (scrapers self).*1 = ["tanishq"; "kalyan"; "joyalukkas"]
  ∧ (name ∉ (scrapers self).*1 →
     scrape_jeweller self name cities days w
     = (w, Raise (ValueError ("Unsupported jeweller: " +:+ name))))
  ∧ (name ∈ (scrapers self).*1 →
     ∃ w' records, scrape_jeweller self name cities days w = (w', Ok records))
  ∧ (∃ w' by_jeweller,
       scrape_all_jewellers self cities days w = (w', Ok by_jeweller)).
Proof.
  intros self.
  assert (Hreg : ∀ n, n ∈ (scrapers self).*1 →
                 returns (scrape_jeweller self n cities days)).
  { intros n Hn. simpl in Hn.
    rewrite !elem_of_cons, elem_of_nil in Hn.
    destruct Hn as [->|[->|[->|[]]]].
    - eapply scrape_jeweller_with; [reflexivity|].
      intros c. apply tanishq_returns.
    - eapply scrape_jeweller_with; [reflexivity|].
      intros c. apply returns_ret.
    - eapply scrape_jeweller_with; [reflexivity|].
      intros c. apply returns_ret. }
  split; [done|]. split; [|split].
  - intros Hname. simpl in Hname.
    rewrite !not_elem_of_cons in Hname. destruct Hname as (H1 & H2 & H3 & _).
    unfold scrape_jeweller. subst self. rewrite registered_lookup.
    by rewrite !bool_decide_eq_false_2.
  - intros Hname. apply (Hreg name Hname).
  - unfold scrape_all_jewellers.
    apply returns_for_each. intros n acc.
    apply returns_try_except. intros _. apply returns_ret.
Qed.

(** ** Batched upload (C9) *)

Lemma after_commits_nil (w : World) : after_commits w 0 [] = w.
Proof.
  destruct w. unfold after_commits. simpl.
  by rewrite !Nat.add_0_r, app_nil_r.
Qed.

Lemma after_commits_app (w : World) (r1 r2 : nat) (c1 c2 : list (list Write)) :
  after_commits (after_commits w r1 c1) r2 c2
  = after_commits w (r1 + r2) (c1 ++ c2).
Proof.
  unfold after_commits. simpl.
  by rewrite length_app, !Nat.add_assoc, app_assoc.
Qed.

Lemma batch_commit_ok (commit_ok : nat → bool) (batch : list Write)
    (w : World) :
  (∀ k, commit_ok k = true) →
  batch_commit commit_ok batch w = (after_commits w 0 [batch], Ok ()).
Proof.
  intros Hok. unfold batch_commit, after_commits. rewrite Hok. simpl.
  by rewrite Nat.add_0_r, Nat.add_1_r.
Qed.

Lemma commit_when_full_eval (commit_ok : nat → bool) (batch : list Write)
    (w : World) :
  (∀ k, commit_ok k = true) →
  (length batch ≤ 500)%nat →
  commit_when_full commit_ok (Some firestore_client) batch
    (Z.of_nat (length batch)) w
  = if bool_decide (length batch = 500%nat)
    then (after_commits w 0 [batch], Ok (open_batch []))
    else (w, Ok (open_batch batch)).
Proof.
  intros Hok Hlen. unfold commit_when_full.
  case_bool_decide as Hfull.
  - rewrite Hfull. simpl. rewrite bind_eval, batch_commit_ok by done.
    reflexivity.
  - destruct (Z.leb_spec 500 (Z.of_nat (length batch))); [lia|done].
Qed.

Lemma length_concat_full (full : list (list Write)) :
  Forall (λ c, length c = 500%nat) full →
  length (concat full) = (500 * length full)%nat.
Proof.
  induction 1 as [|c full Hc _ IH]; [done|].
  rewrite concat_cons, length_app, length_cons, Hc, IH. lia.
Qed.

(** What the batches of a run look like, from the loop's invariant. *)
Lemma with_rest_shape (full : list (list Write)) (rest : list Write)
    (writes : list Write) :
  concat full ++ rest = writes →
  Forall (λ c, length c = 500%nat) full →
  (length rest < 500)%nat →
  concat (with_rest full rest) = writes
  ∧ length (with_rest full rest) = ((length writes + 499) / 500)%nat
  ∧ Forall (λ c, (0 < length c ≤ 500)%nat) (with_rest full rest)
  ∧ (∀ i c, with_rest full rest !! i = Some c →
            (S i < length (with_rest full rest))%nat → length c = 500%nat)
  ∧ (length writes = 501%nat → length <$> with_rest full rest = [500; 1]%nat).
Proof.
  intros Hcat Hfull Hrest.
  assert (Hn : length writes = (500 * length full + length rest)%nat).
  { by rewrite <- Hcat, length_app, length_concat_full. }
  unfold with_rest. case_bool_decide as Hnil.
  - subst rest. rewrite !app_nil_r in *. simpl in Hn.
    split; [done|].
    split; [apply (Nat.div_unique _ 500 _ 499); lia|]. split; [|split].
    + eapply Forall_impl; [exact Hfull|]. simpl. lia.
    + intros i c Hi _. by eapply (Forall_lookup_1 _ _ _ _ Hfull).
    + intros H501. lia.
  - assert (0 < length rest)%nat by (destruct rest; [done|simpl; lia]).
    split; [|split; [|split; [|split]]].
    + rewrite concat_app. simpl. by rewrite app_nil_r.
    + rewrite length_app. simpl.
      apply (Nat.div_unique _ 500 _ (length rest - 1)); lia.
    + apply Forall_app. split.
      * eapply Forall_impl; [exact Hfull|]. simpl. lia.
      * constructor; [lia|constructor].
    + intros i c Hi Hlt. rewrite length_app in Hlt. simpl in Hlt.
      rewrite lookup_app_l in Hi by lia.
      by eapply (Forall_lookup_1 _ _ _ _ Hfull).
    + intros H501.
      assert (length full = 1%nat ∧ length rest = 1%nat) as [H1 Hr] by lia.
      destruct full as [|c [|? ?]]; try done.
      apply Forall_cons in Hfull as [Hc _].
      rewrite fmap_app. simpl. by rewrite Hc, Hr.
Qed.

Lemma push_loop_eval (commit_ok : nat → bool) (collection_name : string)
    (data : list GoldPriceData) (batch : list Write) (w : World) :
  (∀ k, commit_ok k = true) →
  (length batch < 500)%nat →
  ∃ full rest,
    for_each data
      (λ item '(batch, batch_count),
         commit_when_full commit_ok (Some firestore_client)
           (batch ++ [record_write collection_name item]) (batch_count + 1))
      (open_batch batch) w
    = (after_commits w 0 full, Ok (open_batch rest))
    ∧ concat full ++ rest = batch ++ (record_write collection_name <$> data)
    ∧ Forall (λ c, length c = 500%nat) full
    ∧ (length rest < 500)%nat.
Proof.
  intros Hok. revert batch w.
  induction data as [|item data IH]; intros batch w Hlen.
  - exists [], batch. simpl. rewrite after_commits_nil, app_nil_r. done.
  - simpl for_each. rewrite bind_eval. unfold open_batch at 1.
    cbv beta iota.
    set (batch1 := batch ++ [record_write collection_name item]).
    assert (Hlen1 : length batch1 = S (length batch)).
    { subst batch1. rewrite length_app. simpl. lia. }
    replace (Z.of_nat (length batch) + 1) with (Z.of_nat (length batch1)) by lia.
    rewrite commit_when_full_eval by (done || lia).
    case_bool_decide as Hfull.
    + destruct (IH [] (after_commits w 0 [batch1])) as (full & rest & E & Hc & Hf & Hr);
        [simpl; lia|].
      exists (batch1 :: full), rest. rewrite E, after_commits_app.
      split; [done|]. split; [|split; [by constructor|done]].
      rewrite concat_cons, <- app_assoc, Hc. subst batch1.
      by rewrite <- app_assoc.
    + destruct (IH batch1 w) as (full & rest & E & Hc & Hf & Hr); [lia|].
      exists full, rest. rewrite E. split; [done|]. split; [|done].
      rewrite Hc. subst batch1. by rewrite <- app_assoc.
Qed.

(** The last step of both upload functions. *)
Lemma commit_rest_eval (commit_ok : nat → bool) (rest : list Write)
    (w : World) :
  (∀ k, commit_ok k = true) →
  (if 0 <? Z.of_nat (length rest)
   then batch_commit commit_ok rest else mret ()) w
  = (after_commits w 0 (with_rest [] rest), Ok ()).
Proof.
  intros Hok. unfold with_rest. destruct rest as [|x rest]; simpl.
  - by rewrite after_commits_nil.
  - by rewrite batch_commit_ok.
Qed.

Lemma now_eval (clock : nat → string) (w : World) :
  now clock w = (after_commits w 1 [], Ok (clock (clock_reads w))).
Proof.
  unfold now, after_commits. simpl.
  by rewrite Nat.add_1_r, Nat.add_0_r, app_nil_r.
Qed.

Lemma rates_loop_eval (clock : nat → string) (commit_ok : nat → bool)
    (py_str : PyVal → string) (collection_name : string)
    (gold_rates : list (dict PyVal)) (batch : list Write) (total : Z)
    (w : World) :
  (∀ k, commit_ok k = true) →
  Forall rate_keys gold_rates →
  (length batch < 500)%nat →
  ∃ full rest writes,
    for_each gold_rates
      (λ rate '(batch, batch_count, total_pushed),
         date ← lift (dict_get "date" rate);
         carat ← lift (dict_get "carat" rate);
         let doc_id :=
           format_value py_str date +:+ "_" +:+ format_value py_str carat in
         updated_at ← now clock;
         let rate_data :=
           dict_set "updated_at" (PStr updated_at)
             (dict_set "source" (PStr "tanishq_scraper")
                (dict_set "timestamp" PServerTimestamp rate)) in
         let batch :=
           batch ++ [ {| write_collection := collection_name;
                         write_document := doc_id;
                         write_data := rate_data;
                         write_merge := true |} ] in
         '(batch, batch_count) ←
           commit_when_full commit_ok (Some firestore_client) batch
             (batch_count + 1);
         mret (batch, batch_count, total_pushed + 1))
      (open_batch batch, total) w
    = (after_commits w (length gold_rates) full,
       Ok (open_batch rest, total + Z.of_nat (length gold_rates)))
    ∧ concat full ++ rest = batch ++ writes
    ∧ Forall2 (rate_written py_str collection_name) gold_rates writes
    ∧ Forall (λ c, length c = 500%nat) full
    ∧ (length rest < 500)%nat.
Proof.
  intros Hok Hkeys.
  match goal with |- context [for_each _ ?b _ _] => set (body := b) end.
  revert batch total w.
  induction Hkeys as [|rate gold_rates (date & carat & Hd & Hc) _ IH];
    intros batch total w Hlen.
  - exists [], batch, []. simpl.
    rewrite after_commits_nil, Z.add_0_r, !app_nil_r. done.
  - cbn [for_each]. rewrite bind_eval. unfold body at 1, open_batch at 1.
    cbv beta iota.
    rewrite bind_eval. unfold lift at 1. rewrite Hd.
    rewrite bind_eval. unfold lift at 1. rewrite Hc.
    cbv zeta. rewrite bind_eval, now_eval.
    match goal with |- context [commit_when_full _ _ ?b _] => set (batch1 := b) end.
    assert (Hlen1 : length batch1 = S (length batch)).
    { subst batch1. rewrite length_app. simpl. lia. }
    replace (Z.of_nat (length batch) + 1) with (Z.of_nat (length batch1)) by lia.
    rewrite bind_eval, commit_when_full_eval by (done || lia).
    assert (Hw : rate_written py_str collection_name rate
                   (List.last batch1 (record_write "" (record_of "" "" "" "")))).
    { subst batch1. rewrite last_last. by exists date, carat. }
    assert (Hn : total + 1 + Z.of_nat (length gold_rates)
                 = total + Z.of_nat (length (rate :: gold_rates)))
      by (simpl length; lia).
    case_bool_decide as Hfull.
    + unfold open_batch in *. cbv beta iota. rewrite ret_eval.
      destruct (IH [] (total + 1) (after_commits (after_commits w 1 []) 0 [batch1]))
        as (full & rest & writes & E & Hcat & Hw2 & Hf & Hr); [simpl; lia|].
      exists (batch1 :: full), rest,
        (List.last batch1 (record_write "" (record_of "" "" "" "")) :: writes).
      rewrite E, !after_commits_app.
      split; [by rewrite Hn|].
      split; [|split; [by constructor|split; [by constructor|done]]].
      rewrite concat_cons, <- app_assoc, Hcat. simpl.
      subst batch1. rewrite last_last. by rewrite <- app_assoc.
    + unfold open_batch in *. cbv beta iota. rewrite ret_eval.
      destruct (IH batch1 (total + 1) (after_commits w 1 []))
        as (full & rest & writes & E & Hcat & Hw2 & Hf & Hr); [lia|].
      exists full, rest,
        (List.last batch1 (record_write "" (record_of "" "" "" "")) :: writes).
      rewrite E, !after_commits_app.
      split; [by rewrite Hn|].
      split; [|split; [by constructor|done]].
      rewrite Hcat. subst batch1. rewrite last_last. by rewrite <- app_assoc.
Qed.

(** C9: when the store accepts every commit, [push_to_firebase] of a
    manager with an initialised client returns [True] and commits the
    writes of the records, in order, in batches of exactly 500 followed by
    the non-empty rest: ceil(n / 500) commits for [n] records, none above
    500 writes, and a batch of 500 and a batch of 1 for 501 records.
    [FirebaseManager.push_gold_rates] batches its writes the same way. *)
Theorem upload_commits_in_batches_of_500 (clock : nat → string)
    (commit_ok : nat → bool) (py_str : PyVal → string) :
  (∀ k, commit_ok k = true) →
  (∀ self fm data collection_name w,
     firebase_manager self = Some fm → db fm = Some firestore_client →
     ∃ new,
       push_to_firebase commit_ok self data collection_name w
       = (after_commits w 0 new, Ok true)
       ∧ batches_of_500 (record_write collection_name <$> data) new)
  ∧ (∀ self gold_rates collection_name w,
       db self = Some firestore_client → Forall rate_keys gold_rates →
       ∃ new writes,
         push_gold_rates clock commit_ok py_str self gold_rates
           collection_name w
         = (after_commits w (length gold_rates) new, Ok true)
         ∧ Forall2 (rate_written py_str collection_name) gold_rates writes
         ∧ batches_of_500 writes new).
Proof.
  intros Hok. split.
  - intros self fm data collection_name w Hfm Hdb.
    unfold push_to_firebase. rewrite Hfm, Hdb.
    unfold try_except. rewrite bind_eval. unfold db_batch. rewrite ret_eval.
    rewrite bind_eval.
    destruct (push_loop_eval commit_ok collection_name data [] w Hok)
      as (full & rest & E & Hcat & Hfull & Hrest); [simpl; lia|].
    match goal with |- context [for_each data ?body ?init ?w0] =>
      change (for_each data body init w0)
        with (for_each data
                (λ item '(batch, batch_count),
                   commit_when_full commit_ok (Some firestore_client)
                     (batch ++ [record_write collection_name item])
                     (batch_count + 1))
                (open_batch []) w0)
    end.
    rewrite E. unfold open_batch. cbv beta iota.
    rewrite bind_eval, commit_rest_eval by done.
    rewrite ret_eval, after_commits_app.
    exists (with_rest full rest). split; [done|].
    by apply with_rest_shape.
  - intros self gold_rates collection_name w Hdb Hkeys.
    unfold push_gold_rates. rewrite Hdb.
    unfold try_except. rewrite bind_eval. unfold db_batch. rewrite ret_eval.
    rewrite bind_eval.
    destruct (rates_loop_eval clock commit_ok py_str collection_name
                gold_rates [] 0 w Hok Hkeys)
      as (full & rest & writes & E & Hcat & Hw & Hfull & Hrest); [simpl; lia|].
    unfold open_batch in E.
    match goal with |- context [for_each gold_rates ?body ?init ?w0] =>
      match type of E with for_each _ ?body' ?init' _ = _ =>
        change (for_each gold_rates body init w0)
          with (for_each gold_rates body' init' w0)
      end
    end.
    rewrite E. cbv beta iota.
    rewrite bind_eval, commit_rest_eval by done.
    rewrite ret_eval, after_commits_app.
    exists (with_rest full rest), writes. split; [|split; [done|]].
    + by rewrite Nat.add_0_r.
    + by apply with_rest_shape.
Qed.

Lemma upload_commits_in_batches_of_500_witness :
  ∃ new,
    push_to_firebase always_commit (manager_with_firebase [])
      (replicate 501 (record_of "Tanishq" "Mumbai" "18K" "2025-07-21"))
      "gold_prices" initial_world
    = (after_commits initial_world 0 new, Ok true)
    ∧ length <$> new = [500; 1]%nat.
Proof.
  destruct (proj1 (upload_commits_in_batches_of_500 (λ _, "") always_commit
                     (λ _, "") (λ _, eq_refl))
              (manager_with_firebase []) _
              (replicate 501 (record_of "Tanishq" "Mumbai" "18K" "2025-07-21"))
              "gold_prices" initial_world eq_refl eq_refl)
    as (new & E & _ & _ & _ & _ & H501).
  exists new. split; [exact E|].
  apply H501. by rewrite length_fmap, length_replicate.
Defined.

(** ** The summary (C6) *)

Lemma collect_sets_no_records (all_data : dict (list GoldPriceData)) :
  Forall (λ kv, kv.2 = []) all_data →
  collect_sets all_data = (∅, ∅, list_to_set all_data.*1).
Proof.
  unfold collect_sets.
  enough (∀ (D C J : gset string),
    Forall (λ kv : string * list GoldPriceData, kv.2 = []) all_data →
    foldl
      (λ '(all_dates, all_cities, all_jewellers) '(jeweller, data_list),
         let all_jewellers := all_jewellers ∪ {[ jeweller ]} in
         foldl
           (λ '(all_dates, all_cities, all_jewellers) item,
              (all_dates ∪ {[ date item ]}, all_cities ∪ {[ city item ]},
               all_jewellers))
           (all_dates, all_cities, all_jewellers) data_list)
      (D, C, J) all_data
    = (D, C, J ∪ list_to_set all_data.*1)) as H.
  { intros Hall. rewrite (H ∅ ∅ ∅ Hall). f_equal. apply (left_id_L ∅ (∪)). }
  induction all_data as [|[jeweller data_list] rest IH]; intros D C J Hall.
  - simpl. f_equal. symmetry. apply (right_id_L ∅ (∪)).
  - apply Forall_cons in Hall as [Hnil Hrest]. simpl in Hnil. subst data_list.
    simpl. rewrite IH by done. f_equal. symmetry. apply (assoc_L (∪)).
Qed.

Lemma total_no_records (all_data : dict (list GoldPriceData)) :
  Forall (λ kv, kv.2 = []) all_data →
  foldr Z.add 0 ((λ kv, Z.of_nat (length kv.2)) <$> all_data) = 0.
Proof.
  induction 1 as [|[k v] rest Hv _ IH]; [done|].
  simpl in Hv. subst v. exact IH.
Qed.

(** C6, amended: over a mapping whose record lists are all empty the
    summary is returned (nothing is raised) with zero entries, no city, no
    latest rate and both ends of the date range null; its jewellers are
    the keys of the mapping, so there is none exactly when the mapping
    itself is empty. *)
Theorem summary_of_no_records (clock : nat → string)
    (all_data : dict (list GoldPriceData)) (w : World) :
  Forall (λ kv, kv.2 = []) all_data →
  ∃ w' s,
    create_summary_data clock all_data w = (w', Ok s)
    ∧ total_entries s = 0
    ∧ cities s = []
    ∧ date_range_from s = None ∧ date_range_to s = None
    ∧ latest_rates s = []
    ∧ (∀ j, j ∈ jewellers s ↔ j ∈ all_data.*1)
    ∧ (jewellers s = [] ↔ all_data = []).
Proof.
  intros Hall. unfold create_summary_data.
  rewrite (collect_sets_no_records all_data Hall).
  rewrite bind_eval, now_eval, ret_eval.
  eexists _, _. split; [reflexivity|]. simpl.
  rewrite bool_decide_eq_true_2 by done. rewrite elements_empty.
  split; [|split; [done|split; [done|split; [done|split; [done|split]]]]].
  - by apply total_no_records.
  - intros j. by rewrite elem_of_elements, elem_of_list_to_set.
  - split.
    + intros Hnil. destruct all_data as [|[k v] rest]; [done|].
      assert (Hk : k ∈ elements (list_to_set ((k, v) :: rest).*1 : gset string)).
      { rewrite elem_of_elements, elem_of_list_to_set. simpl. left. }
      rewrite Hnil in Hk. by apply elem_of_nil in Hk.
    + intros ->. simpl. apply elements_empty.
Qed.

Lemma summary_of_no_records_witness :
  ∃ w' s,
    create_summary_data (λ _, "2025-07-21T10:00:00") [] initial_world
    = (w', Ok s)
    ∧ total_entries s = 0 ∧ cities s = [] ∧ jewellers s = []
    ∧ date_range_from s = None ∧ date_range_to s = None.
Proof.
  destruct (summary_of_no_records (λ _, "2025-07-21T10:00:00") []
              initial_world (Forall_nil_2 _))
    as (w' & s & E & Ht & Hc & Hfrom & Hto & _ & _ & Hj).
  exists w', s. split; [exact E|]. split; [exact Ht|]. split; [exact Hc|].
  split; [by apply Hj|]. by split.
Defined.

(** C6 as stated fails: a mapping with a key and no record (what a run
    over the Kalyan placeholder alone produces) has an empty record set,
    yet the summary lists one jeweller. *)
Lemma summary_lists_jeweller_without_records :
  ∃ w' s,
    create_summary_data (λ _, "2025-07-21T10:00:00") [("kalyan", [])]
      initial_world
    = (w', Ok s)
    ∧ total_entries s = 0
    ∧ jewellers s = ["kalyan"]
    ∧ jewellers s ≠ [].
Proof.
  eexists _, _. split; [vm_compute; reflexivity|].
  split; [reflexivity|]. split; [reflexivity|]. discriminate.
Qed.

(** ** The definitions at work *)

Example str_builtins :
  Str.split "," "" = [""]
  ∧ Str.split "," "a,,b," = ["a"; ""; "b"; ""]
  ∧ Str.strip_chars "[]" "[[a]]]" = "a"
  ∧ Str.strip <$> Str.split "," (Str.strip_chars "[]" "[7585, 7523 ]")
    = ["7585"; "7523"]
  ∧ Str.zfill 2 "7" = "07" ∧ Str.zfill 3 "-5" = "-05" ∧ Str.zfill 2 "123" = "123"
  ∧ Str.lower "Kalyan Jewellers 22K" = "kalyan jewellers 22k".
Proof. repeat split. Qed.

Example validation_on_floats :
  let self := BaseJewellerScraper_init "Tanishq" tanishq_cities
                (λ _ _, mret []) tanishq_get_source_url in
  let item p c k :=
    {| jeweller := "Tanishq"; city := c; carat := k; price := p;
       date := "2025-07-21"; source_url := None; additional_info := [];
       timestamp := "" |} in
  validate_data self
    [ item 7585%float "Mumbai" "22K"; item 1000%float "Mumbai" "22K";
      item 20000%float "Mumbai" "22K"; item nan "Mumbai" "22K";
      item infinity "Mumbai" "22K"; item 7585%float "Kochi" "22K";
      item 7585%float "Mumbai" "14K"; item 19999.5%float "Delhi" "24K" ]
  = [ item 7585%float "Mumbai" "22K"; item 19999.5%float "Delhi" "24K" ].
Proof. reflexivity. Qed.

(** One run of the Tanishq adapter on the sample page: the 24K field is
    missing, the other two carats are returned newest first, and the
    dates are those of the page, not rewritten. *)
Example tanishq_sample_run :
  let '(w', r) :=
    tanishq_scrape_city_prices sample_web sample_clock sample_float
      "Mumbai" 2 initial_world in
  match r with
  | Ok records =>
      record_key <$> records
      = [ ("18K", 5642%float, "22-07-2025"); ("18K", 5689%float, "21-07-2025");
          ("22K", 7523%float, "22-07-2025"); ("22K", 7585%float, "21-07-2025") ]
  | Raise _ => False
  end
  ∧ trace w'
    = [ ChromeStart 0; DriverGet 0 "https://www.tanishq.co.in/gold-rate.html?lang=en_IN";
        Sleep 15; DriverQuit 0 ]
  ∧ launches w' = 1%nat.
Proof. vm_compute. repeat split. Qed.

Example tanishq_without_browser :
  tanishq_scrape_city_prices no_browser sample_clock sample_float
    "Mumbai" 30 initial_world
  = ({| launches := 1; clock_reads := 0; commit_calls := 0; committed := [];
        trace := [ChromeStart 0] |}, Ok []).
Proof. reflexivity. Qed.

Lemma tanishq_scrape_never_raises_witness :
  ∃ w' records,
    tanishq_scrape_city_prices sample_web sample_clock sample_float
      "Mumbai" 2 initial_world = (w', Ok records)
    ∧ record_key <$> records
      = [ ("18K", 5642%float, "22-07-2025"); ("18K", 5689%float, "21-07-2025");
          ("22K", 7523%float, "22-07-2025"); ("22K", 7585%float, "21-07-2025") ].
Proof.
  destruct (tanishq_scrape_never_raises sample_web sample_clock sample_float
              "Mumbai" 2 initial_world)
    as (w' & records & E & _ & _ & _ & _ & _ & Hkeys).
  exists w', records. split; [exact E|].
  apply (Hkeys ["21-07-2025"; "22-07-2025"; "23-07-2025"]);
    [reflexivity|reflexivity| |reflexivity].
  apply list_elem_of_further, list_elem_of_here.
Defined.

Lemma scrape_jeweller_unsupported_witness :
  scrape_jeweller
    (GoldPriceManager_init sample_web sample_clock sample_float None)
    "malabar" (Some ["Mumbai"]) 30 initial_world
  = (initial_world, Raise (ValueError "Unsupported jeweller: malabar")).
Proof.
  apply (proj1 (proj2 (scrape_jeweller_unsupported sample_web sample_clock
                         sample_float None "malabar" (Some ["Mumbai"]) 30
                         initial_world))).
  apply (bool_decide_unpack _). reflexivity.
Defined.

Lemma unequal_lengths_pairing_witness :
  extract_carat sample_web sample_float 0 30 ["21-07-2025"; "22-07-2025"]
    "goldRate18KT"
  = Ok (combine_dates_prices 30 ["21-07-2025"; "22-07-2025"]
          [5689; 5642; 5591]%float).
Proof.
  eapply (proj2 (proj2 (proj2 (proj2 (unequal_lengths_pairing sample_web
            sample_float 30 ["21-07-2025"; "22-07-2025"]
            [5689; 5642; 5591]%float)))));
    reflexivity.
Defined.

(** * Further properties *)

(** ** Document ids *)






(** ** Validation *)

Lemma filter_filter {A} (f : A → bool) (l : list A) :
  List.filter f (List.filter f l) = List.filter f l.
Proof.
  induction l as [|x l IH]; simpl; [done|].
  destruct (f x) eqn:Hx; simpl; by rewrite ?Hx, IH.
Qed.

Lemma filter_sublist {A} (f : A → bool) (l : list A) :
  List.filter f l `sublist_of` l.
Proof.
  induction l as [|x l IH]; simpl; [constructor|].
  destruct (f x); by constructor.
Qed.

(** X2: for every adapter, validating twice is validating once; the
    validated list is a sublist of the input (same records, same order,
    never longer), each of its records passes the check, and a list whose
    records all pass is returned as it is. *)
Theorem validate_data_idempotent (self : BaseJewellerScraper)
    (data : list GoldPriceData) :
  validate_data self (validate_data self data) = validate_data self data
  ∧ validate_data self data `sublist_of` data
  ∧ (length (validate_data self data) ≤ length data)%nat
  ∧ Forall (λ item, valid_item self item = true) (validate_data self data)
  ∧ (Forall (λ item, valid_item self item = true) data ↔
     validate_data self data = data).
Proof.
  rewrite !validate_data_filter.
  split; [apply filter_filter|]. split; [apply filter_sublist|].
  split; [apply sublist_length, filter_sublist|].
  assert (Hall : Forall (λ item, valid_item self item = true)
                   (List.filter (valid_item self) data)).
  { apply Forall_forall. intros item Hin.
    apply list_elem_of_In, filter_In in Hin. tauto. }
  split; [exact Hall|]. split.
  - clear Hall. induction 1 as [|item rest Hv _ IH]; simpl; [done|].
    rewrite Hv. by f_equal.
  - intros <-. exact Hall.
Qed.

(** ** Pairing dates and prices *)

Lemma sublist_reverse {A} (l1 l2 : list A) :
  l1 `sublist_of` l2 → reverse l1 `sublist_of` reverse l2.
Proof.
  induction 1 as [|x l1 l2 _ IH|x l1 l2 _ IH]; [done|..];
    rewrite ?reverse_cons.
  - by apply sublist_app.
  - by apply sublist_inserts_r.
Qed.

Lemma fst_zip_sublist {A B} (l : list A) (k : list B) :
  (zip l k).*1 `sublist_of` l.
Proof.
  revert k. induction l as [|x l IH]; intros [|y k]; simpl;
    try apply sublist_nil_l.
  by constructor.
Qed.

Lemma snd_zip_sublist {A B} (l : list A) (k : list B) :
  (zip l k).*2 `sublist_of` k.
Proof.
  revert k. induction l as [|x l IH]; intros [|y k]; simpl;
    try apply sublist_nil_l.
  by constructor.
Qed.

(** X3: whatever the two lists and [days] are, no point of the result
    has an empty date; the result has at most [days] points and no more
    than there are dates or prices, and none when [days] is zero or
    negative; its dates and its prices are those of the input in reversed
    order, with nothing added. *)
Theorem combine_dates_prices_bounds (days : Z) (dates : list string)
    (prices : list float) :
  let result := combine_dates_prices days dates prices in
  Forall (λ p, point_date p ≠ "") result
  ∧ (length result ≤ Z.to_nat days)%nat
  ∧ (length result ≤ length dates)%nat
  ∧ (length result ≤ length prices)%nat
  ∧ (days ≤ 0 → result = [])
  ∧ point_date <$> result `sublist_of` reverse dates
  ∧ point_price <$> result `sublist_of` reverse prices.
Proof.
  intros result. subst result. rewrite combine_dates_prices_filter.
  set (paired := zip (take (Z.to_nat days) dates) (take (Z.to_nat days) prices)).
  assert (Hlen : (length (List.filter has_date paired) ≤ length paired)%nat)
    by apply sublist_length, filter_sublist.
  assert (Hpaired : (length paired ≤ Z.to_nat days
                     ∧ length paired ≤ length dates
                     ∧ length paired ≤ length prices)%nat).
  { subst paired. rewrite length_zip_with, !length_take. lia. }
  rewrite length_reverse, length_fmap.
  split; [|split; [lia|split; [lia|split; [lia|split; [|split]]]]].
  - apply Forall_reverse, Forall_fmap, Forall_forall. intros [d p] Hin.
    apply list_elem_of_In, filter_In in Hin as [_ Hd].
    unfold has_date in Hd. simpl in *. rewrite parse_date_id.
    by destruct d.
  - intros Hdays. replace (length paired) with 0%nat in Hlen by lia.
    by destruct (List.filter has_date paired); [|simpl in Hlen; lia].
  - rewrite fmap_reverse. apply sublist_reverse.
    rewrite <- list_fmap_compose.
    transitivity (paired.*1);
      [apply fmap_sublist, filter_sublist|].
    subst paired. rewrite <- zip_with_take, fmap_take.
    transitivity ((zip dates prices).*1); [apply sublist_take|].
    apply fst_zip_sublist.
  - rewrite fmap_reverse. apply sublist_reverse.
    rewrite <- list_fmap_compose.
    transitivity (paired.*2);
      [apply fmap_sublist, filter_sublist|].
    subst paired. rewrite <- zip_with_take, fmap_take.
    transitivity ((zip dates prices).*2); [apply sublist_take|].
    apply snd_zip_sublist.
Qed.

(** ** Reading the arrays of the hidden fields *)

Lemma append_nil_r (s : string) : s +:+ "" = s.
Proof. induction s as [|c s IH]; [done|]. by rewrite append_cons, IH. Qed.

Lemma rstrip_all (p : ascii → bool) (t : string) :
  Str.forallb p t = true → Str.rstrip_by p t = "".
Proof.
  induction t as [|c t IH]; simpl; [done|].
  intros [Hc Ht]%andb_prop. by rewrite IH, Hc.
Qed.

Lemma rstrip_append (p : ascii → bool) (s t : string) :
  Str.forallb (λ c, negb (p c)) s = true →
  Str.rstrip_by p (s +:+ t) = s +:+ Str.rstrip_by p t.
Proof.
  induction s as [|c s IH]; [done|]. simpl.
  intros [Hc Hs]%andb_prop. rewrite !append_cons. simpl. rewrite (IH Hs).
  apply negb_true_iff in Hc. rewrite Hc.
  by destruct (s +:+ Str.rstrip_by p t).
Qed.

Lemma rstrip_none (p : ascii → bool) (s : string) :
  Str.forallb (λ c, negb (p c)) s = true → Str.rstrip_by p s = s.
Proof.
  intros Hs. rewrite <- (append_nil_r s) at 1.
  by rewrite rstrip_append, append_nil_r.
Qed.

Lemma lstrip_none (p : ascii → bool) (s : string) :
  Str.forallb (λ c, negb (p c)) s = true → Str.lstrip_by p s = s.
Proof.
  destruct s as [|c s]; simpl; [done|].
  intros [Hc _]%andb_prop. apply negb_true_iff in Hc. by rewrite Hc.
Qed.

Lemma split_none (sep : ascii) (a : string) :
  Str.forallb (λ c, negb (Ascii.eqb c sep)) a = true →
  Str.split sep a = [a].
Proof.
  induction a as [|c a IH]; simpl; [done|].
  intros [Hc Ha]%andb_prop. apply negb_true_iff in Hc.
  by rewrite Hc, (IH Ha).
Qed.

Lemma split_append (sep : ascii) (a r : string) :
  Str.forallb (λ c, negb (Ascii.eqb c sep)) a = true →
  Str.split sep (a +:+ String sep r) = a :: Str.split sep r.
Proof.
  induction a as [|c a IH]; intros Ha.
  - rewrite append_nil_l. apply split_cons_eq.
  - simpl in Ha. apply andb_prop in Ha as [Hc Ha].
    apply negb_true_iff in Hc.
    by rewrite append_cons, (split_cons_ne sep c) by done; rewrite (IH Ha).
Qed.

Lemma forallb_impl (p q : ascii → bool) (s : string) :
  (∀ c, p c = true → q c = true) →
  Str.forallb p s = true → Str.forallb q s = true.
Proof.
  intros Hpq. induction s as [|c s IH]; simpl; [done|].
  intros [Hc Hs]%andb_prop. by rewrite (Hpq c Hc), IH.
Qed.

Lemma forallb_append (p : ascii → bool) (s t : string) :
  Str.forallb p (s +:+ t) = Str.forallb p s && Str.forallb p t.
Proof.
  induction s as [|c s IH]; [done|].
  rewrite append_cons. simpl. by rewrite IH, andb_assoc.
Qed.

Lemma plain_char_spec (c : ascii) :
  plain_char c = true →
  negb (Ascii.eqb c ",") = true ∧ negb (Str.mem c "[]") = true
  ∧ negb (Str.is_space c) = true.
Proof. unfold plain_char. rewrite !andb_true_iff. tauto. Qed.

Lemma strip_plain (t : string) :
  Str.forallb plain_char t = true →
  Str.strip t = t ∧ Str.strip (String " " t) = t.
Proof.
  intros Ht.
  assert (Hs : Str.forallb (λ c, negb (Str.is_space c)) t = true).
  { eapply forallb_impl; [|exact Ht]. intros c Hc.
    by apply plain_char_spec in Hc as (_ & _ & ?). }
  unfold Str.strip. split.
  - by rewrite rstrip_none, lstrip_none.
  - simpl. rewrite rstrip_none by done.
    destruct t as [|c t]; [done|]. simpl.
    simpl in Hs. apply andb_prop in Hs as [Hc _].
    apply negb_true_iff in Hc. by rewrite Hc.
Qed.

Lemma split_join_tokens (t : string) (rest : list string) :
  Forall (λ t, Str.forallb plain_char t = true) (t :: rest) →
  Str.split "," (join_tokens (t :: rest)) = t :: (String " " <$> rest).
Proof.
  revert t. induction rest as [|u rest IH]; intros t Hall.
  - apply Forall_cons in Hall as [Ht _]. apply split_none.
    eapply forallb_impl; [|exact Ht]. intros c Hc.
    by apply plain_char_spec in Hc as (? & _ & _).
  - apply Forall_cons in Hall as [Ht Hrest].
    change (join_tokens (t :: u :: rest))
      with (t +:+ String "," (String " " (join_tokens (u :: rest)))).
    rewrite split_append.
    + rewrite split_cons_ne by done. by rewrite (IH u Hrest).
    + eapply forallb_impl; [|exact Ht]. intros c Hc.
      by apply plain_char_spec in Hc as (? & _ & _).
Qed.

Lemma join_tokens_no_bracket (tokens : list string) :
  Forall (λ t, Str.forallb plain_char t = true) tokens →
  Str.forallb (λ c, negb (Str.mem c "[]")) (join_tokens tokens) = true.
Proof.
  induction 1 as [|t rest Ht Hrest IH]; [done|].
  assert (Ht' : Str.forallb (λ c, negb (Str.mem c "[]")) t = true).
  { eapply forallb_impl; [|exact Ht]. intros c Hc.
    by apply plain_char_spec in Hc as (_ & ? & _). }
  destruct rest as [|u rest]; [done|].
  change (join_tokens (t :: u :: rest))
    with (t +:+ String "," (String " " (join_tokens (u :: rest)))).
  rewrite forallb_append, Ht'. simpl. exact IH.
Qed.

(** What the parsing expression of the scraper makes of an array. *)
Lemma read_array (tokens : list string) :
  Forall (λ t, Str.forallb plain_char t = true) tokens →
  Str.strip <$> Str.split "," (Str.strip_chars "[]" (array_value tokens))
  = tokens_read tokens.
Proof.
  intros Hall.
  assert (Hstrip : Str.strip_chars "[]" (array_value tokens)
                   = join_tokens tokens).
  { pose proof (join_tokens_no_bracket tokens Hall) as Hb.
    unfold Str.strip_chars, array_value.
    change ("[" +:+ join_tokens tokens +:+ "]")
      with (String "[" (join_tokens tokens +:+ "]")).
    simpl Str.rstrip_by. rewrite rstrip_append by done. simpl.
    rewrite append_nil_r.
    destruct (join_tokens tokens) as [|c body] eqn:Hj; [done|].
    rewrite <- Hj in *. simpl. by rewrite lstrip_none. }
  rewrite Hstrip. destruct tokens as [|t rest]; [done|].
  rewrite split_join_tokens by done.
  apply Forall_cons in Hall as [Ht Hrest].
  rewrite fmap_cons, (proj1 (strip_plain t Ht)).
  change (tokens_read (t :: rest)) with (t :: rest). f_equal.
  clear Hstrip. induction Hrest as [|u rest Hu _ IH]; [done|].
  by rewrite !fmap_cons, (proj2 (strip_plain u Hu)), IH.
Qed.

(** X4: when the date field holds an array of tokens without commas,
    brackets and white space, written [t1, t2, ...], the scraper reads
    exactly these tokens, in order; the empty array is read as one empty
    token; a field without a value raises [TypeError] and a missing field
    raises what the lookup raised. *)
Theorem extract_dates_reads_array (web : nat → Page) (driver : nat) :
  (∀ dates_input tokens,
     Forall (λ t, Str.forallb plain_char t = true) tokens →
     find_element (web driver) "goldRateDates" = Ok dates_input →
     get_attribute dates_input "value" = Ok (Some (array_value tokens)) →
     extract_dates web driver = Ok (tokens_read tokens))
  ∧ (∀ dates_input,
       find_element (web driver) "goldRateDates" = Ok dates_input →
       get_attribute dates_input "value" = Ok None →
       extract_dates web driver = Raise TypeError)
  ∧ (∀ e, find_element (web driver) "goldRateDates" = Raise e →
          extract_dates web driver = Raise e).
Proof.
  unfold extract_dates. split; [|split].
  - intros dates_input tokens Hall Hfind Hvalue.
    rewrite Hfind. cbn [rbind]. rewrite Hvalue. cbn [rbind].
    by rewrite read_array.
  - intros dates_input Hfind Hvalue.
    rewrite Hfind. cbn [rbind]. by rewrite Hvalue.
  - by intros e ->.
Qed.

Lemma extract_dates_reads_array_witness :
  extract_dates sample_web 0 = Ok ["21-07-2025"; "22-07-2025"; "23-07-2025"].
Proof.
  eapply (proj1 (extract_dates_reads_array sample_web 0) _
            ["21-07-2025"; "22-07-2025"; "23-07-2025"]);
    [by repeat constructor|reflexivity|reflexivity].
Defined.

Lemma rmap_fmap {A B C} (f : B → result C) (g : A → B) (l : list A) :
  rmap (λ x, f (g x)) l = rmap f (g <$> l).
Proof. induction l as [|x l IH]; simpl; by rewrite ?IH. Qed.

Lemma rmap_float (py_float : string → option float) (tokens : list string) :
  (∀ prices, rmap (float_of_str py_float) tokens = Ok prices ↔
             Forall2 (λ t x, py_float t = Some x) tokens prices)
  ∧ (Exists (λ t, py_float t = None) tokens →
     ∃ msg, rmap (float_of_str py_float) tokens = Raise (ValueError msg)).
Proof.
  induction tokens as [|t tokens [IHok IHbad]]; simpl.
  - split; [|by intros ?%Exists_nil].
    intros prices. split; [intros [= <-]; constructor|by inversion 1].
  - unfold float_of_str at 1 3. destruct (py_float t) as [x|] eqn:Ht; simpl.
    + split.
      * intros prices.
        destruct (rmap (float_of_str py_float) tokens) as [xs|e] eqn:Hr; simpl.
        -- split.
           ++ intros [= <-]. constructor; [done|]. by apply IHok.
           ++ inversion 1 as [|? y ? ys Hy Hys]; subst.
              apply IHok in Hys. by simplify_eq.
        -- split; [done|].
           inversion 1 as [|? y ? ys Hy Hys]; subst.
           by apply IHok in Hys.
      * intros [Hbad|Hbad]%Exists_cons; [congruence|].
        destruct (IHbad Hbad) as [msg ->]. by exists msg.
    + split; [|by eexists].
      intros prices. split; [done|].
      inversion 1; subst. congruence.
Qed.

(** X5: when the price field of a carat holds an array of plain tokens,
    the carat's extraction is decided by [float] on these tokens alone:
    if every token converts, it returns the pairing of the dates with the
    converted prices; if one of them does not convert (the one empty
    token of an empty array included), it raises [ValueError], and the
    carat is then left out of the result. *)
Theorem extract_carat_reads_array (web : nat → Page)
    (py_float : string → option float) (driver : nat) (days : Z)
    (dates_list : list string) (input_id : string) (price_input : Element)
    (tokens : list string) :
  Forall (λ t, Str.forallb plain_char t = true) tokens →
  find_element (web driver) input_id = Ok price_input →
  get_attribute price_input "value" = Ok (Some (array_value tokens)) →
  (∀ prices,
     Forall2 (λ t x, py_float t = Some x) (tokens_read tokens) prices →
     extract_carat web py_float driver days dates_list input_id
     = Ok (combine_dates_prices days dates_list prices))
  ∧ (Exists (λ t, py_float t = None) (tokens_read tokens) →
     ∃ msg, extract_carat web py_float driver days dates_list input_id
            = Raise (ValueError msg)).
Proof.
  intros Hall Hfind Hvalue. unfold extract_carat.
  rewrite Hfind. cbn [rbind]. rewrite Hvalue. cbn [rbind].
  rewrite rmap_fmap, read_array by done.
  destruct (rmap_float py_float (tokens_read tokens)) as [Hok Hbad].
  split.
  - intros prices Hprices. apply Hok in Hprices. by rewrite Hprices.
  - intros Hexists. destruct (Hbad Hexists) as [msg ->]. by exists msg.
Qed.

Lemma extract_carat_reads_array_witness :
  extract_carat sample_web sample_float 0 2
    ["21-07-2025"; "22-07-2025"; "23-07-2025"] "goldRate22KT"
  = Ok (combine_dates_prices 2 ["21-07-2025"; "22-07-2025"; "23-07-2025"]
          [7585; 7523; 7454]%float).
Proof.
  eapply (proj1 (extract_carat_reads_array sample_web sample_float 0 2
                   ["21-07-2025"; "22-07-2025"; "23-07-2025"] "goldRate22KT"
                   _ ["7585"; "7523"; "7454"] _ eq_refl eq_refl)).
  repeat constructor.
  Unshelve. by repeat constructor.
Defined.

(** ** What a run does to the world *)

#[local] Instance same_counts_preorder : PreOrder same_counts.
Proof.
  split.
  - by intros w.
  - intros w1 w2 w3 (? & ? & ?) (? & ? & ?). unfold same_counts.
    repeat split; congruence.
Qed.

#[local] Instance quiet_preorder (n : nat) : PreOrder (quiet n).
Proof.
  split.
  - intros w. split; [done|]. exists []. by rewrite app_nil_r.
  - intros w1 w2 w3 (H12 & e1 & E1 & F1) (H23 & e2 & E2 & F2).
    split; [by etrans|]. exists (e1 ++ e2).
    rewrite E2, E1, app_assoc. split; [done|]. by apply Forall_app.
Qed.

Lemma keeps_ret (R : World → World → Prop) `{!Reflexive R} {A} (a : A) :
  keeps R (mret a).
Proof. by intros w. Qed.

Lemma keeps_lift (R : World → World → Prop) `{!Reflexive R} {A}
    (r : result A) : keeps R (lift r).
Proof. by intros w. Qed.

Lemma keeps_raise (R : World → World → Prop) `{!Reflexive R} {A}
    (e : Exception) : keeps R (raise e : M A).
Proof. by intros w. Qed.

Lemma keeps_bind (R : World → World → Prop) `{!Transitive R} {A B}
    (m : M A) (k : A → M B) :
  keeps R m → (∀ a, keeps R (k a)) → keeps R (m ≫= k).
Proof.
  intros Hm Hk w. rewrite bind_eval. specialize (Hm w).
  destruct (m w) as [w1 [a|e]]; [|done].
  by etrans; [exact Hm|apply Hk].
Qed.

Lemma keeps_try_except (R : World → World → Prop) `{!Transitive R} {A}
    (body : M A) (handler : Exception → M A) :
  keeps R body → (∀ e, keeps R (handler e)) →
  keeps R (try_except body handler).
Proof.
  intros Hb Hh w. unfold try_except. specialize (Hb w).
  destruct (body w) as [w1 [a|e]]; [done|].
  by etrans; [exact Hb|apply Hh].
Qed.

Lemma keeps_for_each (R : World → World → Prop) `{!PreOrder R} {A S}
    (xs : list A) (body : A → S → M S) (acc : S) :
  (∀ x s, keeps R (body x s)) → keeps R (for_each xs body acc).
Proof.
  intros Hbody. revert acc.
  induction xs as [|x xs IH]; intros acc; simpl.
  - apply keeps_ret, _.
  - apply keeps_bind; [apply _|apply Hbody|intros s; apply IH].
Qed.

Lemma keeps_weaken (R R' : World → World → Prop) {A} (m : M A) :
  (∀ w w', R w w' → R' w w') → keeps R m → keeps R' m.
Proof. intros HR Hm w. apply HR, Hm. Qed.

Lemma quiet_emit (n : nat) (ev : Event) :
  session_event n ev → keeps (quiet n) (emit ev).
Proof.
  intros Hev w. split; [done|]. exists [ev]. by repeat constructor.
Qed.

Lemma quiet_now (n : nat) (clock : nat → string) : keeps (quiet n) (now clock).
Proof.
  intros w. split; [done|]. exists []. simpl. by rewrite app_nil_r.
Qed.

Ltac keeps_step :=
  lazymatch goal with
  | |- keeps _ (mret _) => apply keeps_ret, _
  | |- keeps _ (lift _) => apply keeps_lift, _
  | |- keeps _ (raise _) => apply keeps_raise, _
  | |- keeps (quiet _) (now _) => apply quiet_now
  | |- keeps (quiet _) (emit _) => by apply quiet_emit
  | |- keeps _ (_ ≫= _) => apply keeps_bind; [apply _| |intros ?]
  | |- keeps _ (try_except _ _) =>
      apply keeps_try_except; [apply _| |intros ?]
  | |- keeps _ (for_each _ _ _) =>
      apply keeps_for_each; [apply _|intros [? ?] ? || intros ? ?]
  | |- keeps _ (match ?x with _ => _ end) => destruct x
  end.

Ltac solve_keeps := repeat (cbv beta iota; keeps_step).

Lemma quiet_close_popups (web : nat → Page) (n : nat) :
  keeps (quiet n) (_close_popups web n).
Proof. unfold _close_popups, popup_click, sleep. solve_keeps. Qed.

Lemma quiet_extract (web : nat → Page) (py_float : string → option float)
    (n : nat) (days : Z) :
  keeps (quiet n) (_extract_from_hidden_inputs web py_float n days).
Proof. unfold _extract_from_hidden_inputs. solve_keeps. Qed.

Lemma quiet_build_records (clock : nat → string) (n : nat) (c url : string)
    (all_price_data : dict (list PricePoint)) :
  keeps (quiet n) (build_records clock c url all_price_data).
Proof. unfold build_records, GoldPriceData_init. solve_keeps. Qed.

Lemma closes_bind (n : nat) {A B} (m : M A) (k : A → M B) :
  keeps (quiet n) m → (∀ a, closes n (k a)) → closes n (m ≫= k).
Proof.
  intros Hm Hk w. rewrite bind_eval. specialize (Hm w).
  destruct (m w) as [w1 [a|e]]; [|done]. simpl in Hm.
  specialize (Hk a w1). destruct (k a w1) as [w2 [b|e]].
  - destruct Hk as (w0 & H0 & H2). exists w0. split; [by etrans|done].
  - by etrans.
Qed.

Lemma closes_quit (n : nat) {A} (a : A) :
  closes n (driver_quit n;; mret a).
Proof.
  intros w. rewrite bind_eval. unfold driver_quit, emit. rewrite ret_eval.
  exists w. split; [reflexivity|split; [by repeat split|done]].
Qed.

Lemma closes_try_except (n : nat) {A} (body : M A) (a : A) (w : World) :
  closes n body →
  ∃ w0, quiet n w w0
        ∧ same_counts w0 (try_except body (λ _, driver_quit n;; mret a) w).1
        ∧ trace (try_except body (λ _, driver_quit n;; mret a) w).1
          = trace w0 ++ [DriverQuit n].
Proof.
  intros Hbody. specialize (Hbody w). unfold try_except.
  destruct (body w) as [w1 [b|e]].
  - exact Hbody.
  - exists w1. rewrite bind_eval. unfold driver_quit, emit.
    rewrite ret_eval. split; [done|split; [by repeat split|done]].
Qed.

Lemma tanishq_body_closes (web : nat → Page) (clock : nat → string)
    (py_float : string → option float) (c : string) (days : Z) (n : nat) :
  closes n
    (let url := tanishq_get_source_url (Some c) in
     driver_get web n url;;
     sleep 15;;
     _close_popups web n;;
     try_except (lift (wait_until (web n) ".goldpurity-rate"))
       (λ e, match e with
             | TimeoutException => mret tt
             | _ => raise e
             end);;
     all_price_data ← _extract_from_hidden_inputs web py_float n days;
     structured_data ← build_records clock c url all_price_data;
     driver_quit n;;
     mret structured_data).
Proof.
  cbv zeta.
  apply closes_bind; [unfold driver_get; solve_keeps|intros _].
  apply closes_bind; [unfold sleep; solve_keeps|intros _].
  apply closes_bind; [apply quiet_close_popups|intros _].
  apply closes_bind; [solve_keeps|intros _].
  apply closes_bind; [apply quiet_extract|intros all_price_data].
  apply closes_bind; [apply quiet_build_records|intros structured_data].
  apply closes_quit.
Qed.

(** X6: one call of the Tanishq adapter starts exactly one browser session
    and never touches the store.  When the browser starts, everything the
    call does afterwards belongs to that session and the last thing it does
    is to quit it, on the error path as well; when the browser does not
    start, the call does nothing after the attempt. *)
Theorem tanishq_one_session_always_quit (web : nat → Page)
    (clock : nat → string) (py_float : string → option float)
    (c : string) (days : Z) (w : World) :
  let n := launches w in
  let w' := (tanishq_scrape_city_prices web clock py_float c days w).1 in
  launches w' = S n ∧ commit_calls w' = commit_calls w
  ∧ committed w' = committed w
  ∧ match chrome (web n) with
    | Ok _ => ∃ evs, Forall (session_event n) evs
                     ∧ trace w' = trace w ++ [ChromeStart n] ++ evs
                                  ++ [DriverQuit n]
    | Raise _ => trace w' = trace w ++ [ChromeStart n]
    end.
Proof.
  intros n w'. subst w'. unfold tanishq_scrape_city_prices.
  rewrite bind_eval. unfold attempt, webdriver_Chrome. fold n.
  destruct (chrome (web n)) as [[]|e]; [|done].
  match goal with
  | |- context [try_except ?b ?h ?w1] =>
      destruct (closes_try_except n b [] w1
                  (tanishq_body_closes web clock py_float c days n))
        as (w0 & [(Hl & Hc & Hs) (evs & Ht & Hevs)] & (Hl' & Hc' & Hs') & Ht')
  end.
  simpl in Hl, Hc, Hs, Ht.
  repeat split; [congruence..|].
  exists evs. split; [done|].
  etrans; [exact Ht'|]. rewrite Ht. by rewrite <- !app_assoc.
Qed.

(** ** What a run returns *)

Lemma yields_ret {A} (Q : A → Prop) (a : A) : Q a → yields Q (mret a).
Proof. intros HQ w w' a' [= _ <-]. exact HQ. Qed.

Lemma yields_bind {A B} (P : A → Prop) (Q : B → Prop) (m : M A)
    (k : A → M B) :
  yields P m → (∀ a, P a → yields Q (k a)) → yields Q (m ≫= k).
Proof.
  intros Hm Hk w w' b. rewrite bind_eval.
  destruct (m w) as [w1 [a|e]] eqn:E; [|done].
  apply Hk. by eapply Hm.
Qed.

Lemma yields_then {A B} (Q : B → Prop) (m : M A) (k : A → M B) :
  (∀ a, yields Q (k a)) → yields Q (m ≫= k).
Proof. intros Hk. by apply (yields_bind (λ _, True)). Qed.

Lemma yields_try_except {A} (Q : A → Prop) (body : M A)
    (handler : Exception → M A) :
  yields Q body → (∀ e, yields Q (handler e)) →
  yields Q (try_except body handler).
Proof.
  intros Hb Hh w w' a. unfold try_except.
  destruct (body w) as [w1 [a1|e]] eqn:E.
  - intros [= <- <-]. by eapply Hb.
  - apply Hh.
Qed.

Lemma yields_for_each {A S} (Q : S → Prop) (xs : list A)
    (body : A → S → M S) (acc : S) :
  Q acc → (∀ x s, Q s → yields Q (body x s)) →
  yields Q (for_each xs body acc).
Proof.
  intros Hacc Hbody. revert acc Hacc.
  induction xs as [|x xs IH]; intros acc Hacc; simpl.
  - by apply yields_ret.
  - apply (yields_bind Q); [by apply Hbody|]. intros s Hs. by apply IH.
Qed.

Lemma yields_weaken {A} (P Q : A → Prop) (m : M A) :
  (∀ a, P a → Q a) → yields P m → yields Q m.
Proof. intros HPQ Hm w w' a E. eapply HPQ, Hm, E. Qed.

Lemma combine_dates_prices_points (days : Z) (dates : list string)
    (prices : list float) :
  Forall (λ p, point_date p ≠ "") (combine_dates_prices days dates prices)
  ∧ (length (combine_dates_prices days dates prices) ≤ Z.to_nat days)%nat.
Proof.
  rewrite combine_dates_prices_filter, length_reverse, length_fmap. split.
  - apply Forall_reverse, Forall_fmap, Forall_forall. intros [d p] Hin.
    apply list_elem_of_In, filter_In in Hin as [_ Hd].
    unfold has_date in Hd. simpl in *. rewrite parse_date_id.
    by destruct d.
  - etrans; [apply sublist_length, filter_sublist|].
    rewrite length_zip_with, !length_take. lia.
Qed.

Lemma extract_carat_points (web : nat → Page)
    (py_float : string → option float) (session : nat) (days : Z)
    (dates_list : list string) (input_id : string)
    (points : list PricePoint) :
  extract_carat web py_float session days dates_list input_id = Ok points →
  Forall (λ p, point_date p ≠ "") points
  ∧ (length points ≤ Z.to_nat days)%nat.
Proof.
  unfold extract_carat.
  destruct (find_element (web session) input_id) as [price_input|]; [|done].
  cbn [rbind].
  destruct (get_attribute price_input "value") as [[v|]|]; [|done..].
  cbn [rbind].
  destruct (rmap _ _) as [prices_list|]; [|done]. cbn [rbind].
  intros [= <-]. apply combine_dates_prices_points.
Qed.

Lemma scraped_keys_shape (web : nat → Page)
    (py_float : string → option float) (session : nat) (days : Z)
    (dates_list : list string) :
  Forall (λ k, k.1.1 ∈ ["18K"; "22K"; "24K"] ∧ k.2 ≠ "")
    (scraped_keys web py_float session days dates_list)
  ∧ (length (scraped_keys web py_float session days dates_list)
     ≤ 3 * Z.to_nat days)%nat.
Proof.
  assert (Hone : ∀ carat input_id,
    carat ∈ ["18K"; "22K"; "24K"] →
    Forall (λ k : string * float * string,
              k.1.1 ∈ ["18K"; "22K"; "24K"] ∧ k.2 ≠ "")
      (carat_keys carat
         (extract_carat web py_float session days dates_list input_id))
    ∧ (length (carat_keys carat
         (extract_carat web py_float session days dates_list input_id))
       ≤ Z.to_nat days)%nat).
  { intros carat input_id Hcarat.
    destruct (extract_carat _ _ _ _ _ _) as [points|e] eqn:E; simpl.
    - apply extract_carat_points in E as [Hd Hl].
      rewrite length_fmap. split; [|done].
      apply Forall_fmap. eapply Forall_impl; [exact Hd|]. by intros p Hp.
    - split; [constructor|lia]. }
  unfold scraped_keys, input_ids. rewrite !fmap_cons, fmap_nil. simpl concat.
  rewrite app_nil_r, !Forall_app, !length_app.
  destruct (Hone "18K" "goldRate18KT") as [F1 L1]; [by repeat constructor|].
  destruct (Hone "22K" "goldRate22KT") as [F2 L2]; [by repeat constructor|].
  destruct (Hone "24K" "goldRate24KT") as [F3 L3]; [by repeat constructor|].
  split; [done|lia].
Qed.

Lemma tanishq_run_shape (web : nat → Page) (clock : nat → string)
    (py_float : string → option float) (c : string) (days : Z) (w : World) :
  ∃ w' records,
    tanishq_scrape_city_prices web clock py_float c days w = (w', Ok records)
    ∧ Forall (tanishq_record c) records
    ∧ (records = []
       ∨ ∃ dates_list,
           record_key <$> records
           = scraped_keys web py_float (launches w) days dates_list).
Proof.
  destruct (tanishq_returns web clock py_float c days w)
    as (w' & records & E).
  exists w', records. split; [exact E|].
  revert E. unfold tanishq_scrape_city_prices. rewrite bind_eval.
  unfold attempt, webdriver_Chrome.
  destruct (chrome (web (launches w))) as [[]|e].
  2: { intros [= _ <-]. split; [constructor|by left]. }
  match goal with
  | |- try_except ?b ?h ?w1 = _ → _ =>
      intros E;
      refine (yields_try_except
                (λ records, Forall (tanishq_record c) records
                            ∧ (records = [] ∨ ∃ dates_list,
                                 record_key <$> records
                                 = scraped_keys web py_float (launches w)
                                     days dates_list))
                b h _ _ w1 w' records E)
  end.
  - cbv zeta. do 4 (apply yields_then; intros _).
    intros w1 w2 a E1.
    destruct (tanishq_tail_eval web clock py_float c days (launches w) w1)
      as (w3 & records' & E3 & Hf & Hnone & Hsome).
    rewrite E3 in E1. injection E1 as _ <-. split; [exact Hf|].
    destruct (extract_dates web (launches w)) as [dates_list|e] eqn:Ed.
    + right. exists dates_list. by apply Hsome.
    + left. by eapply Hnone.
  - intros e. apply yields_then; intros _. apply yields_ret.
    split; [constructor|by left].
Qed.

Lemma tanishq_run_output (web : nat → Page) (clock : nat → string)
    (py_float : string → option float) (c : string) (days : Z) (w : World) :
  ∃ w' records,
    tanishq_scrape_city_prices web clock py_float c days w = (w', Ok records)
    ∧ tanishq_output c days records.
Proof.
  destruct (tanishq_run_shape web clock py_float c days w)
    as (w' & records & E & Hrec & Hkeys).
  exists w', records. split; [exact E|].
  destruct Hkeys as [->|[dates_list Hkeys]].
  { split; [constructor|simpl; lia]. }
  destruct (scraped_keys_shape web py_float (launches w) days dates_list)
    as [Hall Hlen].
  rewrite <- Hkeys in Hall, Hlen. rewrite length_fmap in Hlen.
  split; [|exact Hlen].
  apply Forall_fmap in Hall. rewrite Forall_forall in Hrec, Hall.
  apply Forall_forall. intros r Hr.
  destruct (Hrec r Hr) as (Hj & Hc & Hu), (Hall r Hr) as [Hk Hd].
  by repeat split.
Qed.


(** X8: for a city the Tanishq adapter supports, validating what the
    adapter returned can drop a record only for its price: the validated
    list is the returned list without the records whose price is not
    strictly between 1000 and 20000. *)
Theorem tanishq_validation_checks_price_only (web : nat → Page)
    (clock : nat → string) (py_float : string → option float)
    (c : string) (days : Z) (w : World) :
  c ∈ tanishq_cities →
  ∃ w' records,
    tanishq_scrape_city_prices web clock py_float c days w = (w', Ok records)
    ∧ validate_data (TanishqScraper web clock py_float) records
      = List.filter price_in_range records.
Proof.
  intros Hc.
  destruct (tanishq_run_output web clock py_float c days w)
    as (w' & records & E & Hall & _).
  exists w', records. split; [exact E|].
  rewrite validate_data_filter. clear E.
  induction Hall as [|r records (_ & Hcity & _ & Hcarat & _) _ IH]; [done|].
  simpl. rewrite IH. unfold valid_item, price_in_range. simpl.
  rewrite Hcity, (bool_decide_eq_true_2 _ Hcarat),
    (bool_decide_eq_true_2 _ Hc), !andb_true_r.
  done.
Qed.

Lemma tanishq_validation_checks_price_only_witness :
  ∃ w' records,
    tanishq_scrape_city_prices sample_web sample_clock sample_float
      "Mumbai" 2 initial_world = (w', Ok records)
    ∧ validate_data (TanishqScraper sample_web sample_clock sample_float)
        records
      = List.filter price_in_range records.
Proof.
  apply (tanishq_validation_checks_price_only sample_web sample_clock
           sample_float "Mumbai" 2 initial_world).
  unfold tanishq_cities. by repeat constructor.
Defined.

(** ** The coordinator and the cities *)

Lemma for_each_filter {A S} (P : A → Prop) `{!∀ x, Decision (P x)}
    (xs : list A) (f : A → S → M S) (acc : S) (w : World) :
  for_each xs (λ x s, if bool_decide (P x) then f x s else mret s) acc w
  = for_each (filter P xs) f acc w.
Proof.
  revert acc w. induction xs as [|x xs IH]; intros acc w; [done|].
  rewrite filter_cons. cbn [for_each]. case_bool_decide.
  - rewrite decide_True by done. cbn [for_each]. rewrite !bind_eval.
    destruct (f x acc w) as [w1 [s|e]]; [apply IH|done].
  - rewrite decide_False by done. rewrite bind_eval, ret_eval. apply IH.
Qed.

(** X9: when cities are asked for, [scrape_jeweller] runs the adapter for
    the supported ones among them, in the order given, and does nothing at
    all for the others; when none of the cities asked for is supported it
    returns the empty list and leaves the world as it was. *)
Theorem scrape_jeweller_skips_unsupported (self : GoldPriceManager)
    (name : string) (scraper : BaseJewellerScraper) (c : string)
    (cs : list string) (days : Z) (w : World) :
  dict_lookup name (scrapers self) = Some scraper →
  scrape_jeweller self name (Some (c :: cs)) days w
  = for_each (filter (λ c, c ∈ supported_cities scraper) (c :: cs))
      (λ city all_data,
         city_data ← scrape_city_prices scraper city days;
         mret (all_data ++ city_data))
      [] w
  ∧ (Forall (λ c, c ∉ supported_cities scraper) (c :: cs) →
     scrape_jeweller self name (Some (c :: cs)) days w = (w, Ok [])).
Proof.
  intros Hlookup. unfold scrape_jeweller. rewrite Hlookup.
  cbn [cities_given].
  rewrite (for_each_filter (λ c, c ∈ supported_cities scraper) (c :: cs)
             (λ city all_data,
                city_data ← scrape_city_prices scraper city days;
                mret (all_data ++ city_data))).
  split; [done|]. intros Hnone.
  replace (filter (λ c, c ∈ supported_cities scraper) (c :: cs))
    with (@nil string); [done|].
  symmetry. clear Hlookup. induction Hnone as [|c' cs' Hc' _ IH]; [done|].
  by rewrite filter_cons, decide_False.
Qed.

Lemma scrape_jeweller_skips_unsupported_witness :
  scrape_jeweller
    (GoldPriceManager_init sample_web sample_clock sample_float None)
    "kalyan" (Some ["Paris"; "Mumbai"]) 3 initial_world
  = for_each
      (filter (λ c, c ∈ supported_cities KalyanJewellersScraper)
         ["Paris"; "Mumbai"])
      (λ city all_data,
         city_data ← scrape_city_prices KalyanJewellersScraper city 3;
         mret (all_data ++ city_data))
      [] initial_world.
Proof.
  refine (proj1 (scrape_jeweller_skips_unsupported
                   (GoldPriceManager_init sample_web sample_clock
                      sample_float None)
                   "kalyan" KalyanJewellersScraper "Paris" ["Mumbai"] 3
                   initial_world _)).
  reflexivity.
Defined.

Lemma quiet_same_counts (n : nat) {A} (m : M A) :
  keeps (quiet n) m → keeps same_counts m.
Proof. apply keeps_weaken. by intros w w' [H _]. Qed.

Lemma tanishq_run_counts (web : nat → Page) (clock : nat → string)
    (py_float : string → option float) (c : string) (days : Z) (w : World) :
  let w' := (tanishq_scrape_city_prices web clock py_float c days w).1 in
  launches w' = S (launches w) ∧ commit_calls w' = commit_calls w
  ∧ committed w' = committed w.
Proof.
  intros w'. subst w'. unfold tanishq_scrape_city_prices.
  rewrite bind_eval. unfold attempt, webdriver_Chrome.
  destruct (chrome (web (launches w))) as [[]|e]; [|done].
  match goal with
  | |- context [try_except ?b ?h ?w1] =>
      destruct (closes_try_except (launches w) b [] w1
                  (tanishq_body_closes web clock py_float c days (launches w)))
        as (w0 & [(Hl & Hc & Hs) _] & (Hl' & Hc' & Hs') & _)
  end.
  simpl in Hl, Hc, Hs. repeat split; congruence.
Qed.

(** One pass over the cities [cs] with a loop body that runs the Tanishq
    adapter once and appends what it returns. *)
Lemma tanishq_city_loop (web : nat → Page) (clock : nat → string)
    (py_float : string → option float) (days : Z)
    (body : string → list GoldPriceData → M (list GoldPriceData))
    (cs : list string) :
  (∀ c acc w w0 data,
     tanishq_scrape_city_prices web clock py_float c days w = (w0, Ok data) →
     ∃ w', body c acc w = (w', Ok (acc ++ data)) ∧ same_counts w0 w') →
  ∀ acc w, ∃ w' new,
    for_each cs body acc w = (w', Ok (acc ++ new))
    ∧ launches w' = (launches w + length cs)%nat
    ∧ commit_calls w' = commit_calls w ∧ committed w' = committed w
    ∧ Forall (λ r, jeweller r = "Tanishq" ∧ city r ∈ cs
                   ∧ carat r ∈ ["18K"; "22K"; "24K"] ∧ date r ≠ "") new
    ∧ (length new ≤ 3 * Z.to_nat days * length cs)%nat.
Proof.
  intros Hbody. induction cs as [|c cs IH]; intros acc w.
  - exists w, []. rewrite app_nil_r. repeat split; simpl; try lia.
    constructor.
  - destruct (tanishq_run_output web clock py_float c days w)
      as (w0 & data & E0 & Hall & Hlen).
    destruct (Hbody c acc w w0 data E0) as (w1 & E1 & Hl1 & Hc1 & Hs1).
    destruct (tanishq_run_counts web clock py_float c days w)
      as (Hl0 & Hc0 & Hs0).
    rewrite E0 in Hl0, Hc0, Hs0. simpl in Hl0, Hc0, Hs0.
    destruct (IH (acc ++ data) w1) as (w2 & new & E2 & Hl2 & Hc2 & Hs2 & Hf & Hn).
    exists w2, (data ++ new). cbn [for_each].
    rewrite bind_eval, E1, E2, app_assoc.
    cbn [length]. rewrite Nat.mul_succ_r.
    split; [done|]. split; [lia|]. split; [congruence|]. split; [congruence|].
    split.
    + apply Forall_app. split.
      * eapply Forall_impl; [exact Hall|].
        intros r (Hj & Hcity & _ & Hcarat & Hdate).
        repeat split; try done. rewrite Hcity. by left.
      * eapply Forall_impl; [exact Hf|].
        intros r (Hj & Hcity & Hcarat & Hdate).
        repeat split; try done. by right.
    + rewrite length_app. lia.
Qed.



Lemma scrape_jeweller_tanishq_run (web : nat → Page) (clock : nat → string)
    (py_float : string → option float) (firebase : option FirebaseManager)
    (cities : option (list string)) (days : Z) (w : World) :
  let self := GoldPriceManager_init web clock py_float firebase in
  let visited := visited_cities (TanishqScraper web clock py_float) cities in
  ∃ w' records,
    scrape_jeweller self "tanishq" cities days w = (w', Ok records)
    ∧ launches w' = (launches w + length visited)%nat
    ∧ commit_calls w' = commit_calls w ∧ committed w' = committed w
    ∧ Forall (λ r, jeweller r = "Tanishq" ∧ city r ∈ visited
                   ∧ carat r ∈ ["18K"; "22K"; "24K"] ∧ date r ≠ "") records
    ∧ (length records ≤ 3 * Z.to_nat days * length visited)%nat.
Proof.
  intros self visited. subst visited. unfold visited_cities, scrape_jeweller.
  change (dict_lookup "tanishq" (scrapers self))
    with (Some (TanishqScraper web clock py_float)).
  cbv iota beta. destruct (cities_given cities) as [cs|].
  - rewrite (for_each_filter
               (λ c, c ∈ supported_cities (TanishqScraper web clock py_float))
               cs
               (λ city all_data,
                  city_data ← scrape_city_prices
                                (TanishqScraper web clock py_float) city days;
                  mret (all_data ++ city_data))).
    apply (tanishq_city_loop web clock py_float days).
    intros c acc w1 w0 data E0. exists w0. split; [|done].
    rewrite bind_eval. simpl. by rewrite E0.
  - unfold scrape_all_cities.
    apply (tanishq_city_loop web clock py_float days).
    intros c acc w1 w0 data E0. eexists. unfold try_except.
    rewrite bind_eval. simpl scrape_city_prices. rewrite E0.
    rewrite bind_eval. unfold sleep, emit. rewrite ret_eval.
    split; [reflexivity|by repeat split].
Qed.


(** ** All jewellers *)

Lemma placeholder_scrape_jeweller (self : GoldPriceManager) (name : string)
    (scraper : BaseJewellerScraper) (cities : option (list string))
    (days : Z) (w : World) :
  dict_lookup name (scrapers self) = Some scraper →
  (∀ c d, scrape_city_prices scraper c d = mret []) →
  ∃ w', scrape_jeweller self name cities days w = (w', Ok [])
        ∧ same_counts w w'.
Proof.
  intros Hlookup Hempty.
  assert (Hreturns : returns (scrape_jeweller self name cities days)).
  { apply (scrape_jeweller_with scraper); [exact Hlookup|].
    intros c. rewrite Hempty. apply returns_ret. }
  destruct (Hreturns w) as (w' & records & E).
  assert (Hkeeps : keeps same_counts (scrape_jeweller self name cities days)).
  { unfold scrape_jeweller, scrape_all_cities, sleep. rewrite Hlookup.
    destruct (cities_given cities).
    - apply keeps_for_each; [apply _|]. intros c s.
      rewrite Hempty. case_bool_decide; solve_keeps.
    - apply keeps_for_each; [apply _|]. intros c s.
      rewrite Hempty. solve_keeps. by intros w0. }
  assert (Hyields : yields (λ l, l = []) (scrape_jeweller self name cities days)).
  { unfold scrape_jeweller, scrape_all_cities. rewrite Hlookup.
    destruct (cities_given cities).
    - apply yields_for_each; [done|]. intros c s Hs. simpl in Hs. subst s.
      rewrite Hempty.
      case_bool_decide; [|by apply yields_ret].
      apply (yields_bind (λ l, l = [])); [by apply yields_ret|].
      intros l' Hl. simpl in Hl. subst l'. by apply yields_ret.
    - apply yields_for_each; [done|]. intros c s Hs. simpl in Hs. subst s.
      rewrite Hempty.
      apply yields_try_except; [|intros _; by apply yields_ret].
      apply (yields_bind (λ l, l = [])); [by apply yields_ret|].
      intros l' Hl. simpl in Hl. subst l'. apply yields_then. intros _.
      by apply yields_ret. }
  exists w'. specialize (Hkeeps w). rewrite E in Hkeeps.
  by rewrite (Hyields _ _ _ E) in E.
Qed.

Lemma jeweller_step (self : GoldPriceManager) (name : string)
    (cities : option (list string)) (days : Z)
    (all_data : dict (list GoldPriceData)) (w w1 : World)
    (data : list GoldPriceData) :
  scrape_jeweller self name cities days w = (w1, Ok data) →
  ∃ w', try_except
          (jeweller_data ← scrape_jeweller self name cities days;
           sleep 5;;
           mret (dict_set name jeweller_data all_data))
          (λ _, mret (dict_set name [] all_data)) w
        = (w', Ok (dict_set name data all_data))
        ∧ same_counts w1 w'.
Proof.
  intros E. eexists. unfold try_except. rewrite bind_eval, E, bind_eval.
  unfold sleep, emit. rewrite ret_eval. split; [reflexivity|by repeat split].
Qed.

(** X11: [scrape_all_jewellers] never raises and returns one entry for
    each of the three registered jewellers, in the order tanishq, kalyan,
    joyalukkas: the Tanishq entry is what [scrape_jeweller] returns for
    Tanishq in the same world, the two others are empty, and no browser is
    started and no store call made beyond those of the Tanishq run. *)
Theorem scrape_all_jewellers_entries (web : nat → Page)
    (clock : nat → string) (py_float : string → option float)
    (firebase : option FirebaseManager) (cities : option (list string))
    (days : Z) (w : World) :
  let self := GoldPriceManager_init web clock py_float firebase in
  ∃ w1 data w',
    scrape_jeweller self "tanishq" cities days w = (w1, Ok data)
    ∧ scrape_all_jewellers self cities days w
      = (w', Ok [("tanishq", data); ("kalyan", []); ("joyalukkas", [])])
    ∧ same_counts w1 w'.
Proof.
  intros self.
  destruct (scrape_jeweller_tanishq_run web clock py_float firebase cities
              days w) as (w1 & data & E1 & _).
  fold self in E1. exists w1, data.
  destruct (jeweller_step self "tanishq" cities days [] w w1 data E1)
    as (w2 & E2 & H12).
  destruct (placeholder_scrape_jeweller self "kalyan" KalyanJewellersScraper
              cities days w2 eq_refl (λ _ _, eq_refl)) as (w3 & E3 & H23).
  destruct (jeweller_step self "kalyan" cities days
              (dict_set "tanishq" data []) w2 w3 [] E3) as (w4 & E4 & H34).
  destruct (placeholder_scrape_jeweller self "joyalukkas"
              JoyalukkasJewellersScraper cities days w4 eq_refl
              (λ _ _, eq_refl)) as (w5 & E5 & H45).
  destruct (jeweller_step self "joyalukkas" cities days
              (dict_set "kalyan" [] (dict_set "tanishq" data [])) w4 w5 []
              E5) as (w6 & E6 & H56).
  exists w6. split; [exact E1|]. split.
  - unfold scrape_all_jewellers.
    change ((scrapers self).*1) with ["tanishq"; "kalyan"; "joyalukkas"].
    cbn [for_each]. rewrite bind_eval, E2, bind_eval, E4, bind_eval, E6.
    reflexivity.
  - by do 5 (etrans; [eassumption|]).
Qed.

(** ** Uploads to a store that may refuse *)

Lemma commit_when_full_any (commit_ok : nat → bool) (batch : list Write)
    (w : World) :
  (length batch ≤ 500)%nat →
  commit_when_full commit_ok (Some firestore_client) batch
    (Z.of_nat (length batch)) w
  = if bool_decide (length batch = 500%nat)
    then if commit_ok (commit_calls w)
         then (after_commits w 0 [batch], Ok (open_batch []))
         else (after_refusal w, Raise GoogleAPICallError)
    else (w, Ok (open_batch batch)).
Proof.
  intros Hlen. unfold commit_when_full.
  case_bool_decide as Hfull.
  - rewrite Hfull. simpl. rewrite bind_eval. unfold batch_commit.
    destruct (commit_ok (commit_calls w)); [|done].
    unfold after_commits. simpl. by rewrite Nat.add_0_r, Nat.add_1_r.
  - destruct (Z.leb_spec 500 (Z.of_nat (length batch))); [lia|done].
Qed.

Lemma push_loop_any (commit_ok : nat → bool) (collection_name : string)
    (data : list GoldPriceData) (batch : list Write) (w : World)
    (r : World * result (list Write * Z)) :
  (length batch < 500)%nat →
  for_each data
    (λ item '(batch, batch_count),
       commit_when_full commit_ok (Some firestore_client)
         (batch ++ [record_write collection_name item]) (batch_count + 1))
    (open_batch batch) w = r →
  ∃ full,
    Forall (λ c, length c = 500%nat) full
    ∧ (∀ i, (i < length full)%nat → commit_ok (commit_calls w + i)%nat = true)
    ∧ ((∃ rest,
          r = (after_commits w 0 full, Ok (open_batch rest))
          ∧ concat full ++ rest
            = batch ++ (record_write collection_name <$> data)
          ∧ (length rest < 500)%nat)
       ∨ (r = (after_refusal (after_commits w 0 full),
               Raise GoogleAPICallError)
          ∧ commit_ok (commit_calls w + length full)%nat = false
          ∧ ∃ pending tail,
              pending ≠ []
              ∧ concat full ++ pending ++ tail
                = batch ++ (record_write collection_name <$> data))).
Proof.
  revert batch w r.
  induction data as [|item data IH]; intros batch w r Hlen E.
  - exists []. split; [constructor|]. split; [simpl; lia|].
    left. exists batch. subst r. simpl.
    by rewrite after_commits_nil, app_nil_r.
  - simpl for_each in E. rewrite bind_eval in E.
    set (batch1 := batch ++ [record_write collection_name item]) in *.
    assert (Hlen1 : length batch1 = S (length batch)).
    { subst batch1. rewrite length_app. simpl. lia. }
    replace (Z.of_nat (length batch) + 1) with (Z.of_nat (length batch1))
      in E by lia.
    rewrite commit_when_full_any in E by lia.
    case_bool_decide as Hfull;
      [destruct (commit_ok (commit_calls w)) eqn:Hok|].
    + destruct (IH [] (after_commits w 0 [batch1]) r)
        as (full & Hf & Hacc & Hcases); [simpl; lia|exact E|].
      exists (batch1 :: full). split; [by constructor|]. split.
      { intros [|i] Hi; [by rewrite Nat.add_0_r|].
        specialize (Hacc i). simpl in Hacc, Hi.
        rewrite <- Hacc by lia. f_equal. lia. }
      destruct Hcases
        as [(rest & -> & Hc & Hr)|(-> & Hno & pending & tail & Hp & Hc)].
      * left. exists rest. rewrite after_commits_app.
        split; [done|]. split; [|done].
        rewrite concat_cons, <- app_assoc, Hc. subst batch1.
        by rewrite <- app_assoc.
      * right. rewrite after_commits_app. split; [done|]. split.
        { simpl in Hno. rewrite <- Hno. f_equal. simpl. lia. }
        exists pending, tail. split; [done|].
        rewrite concat_cons, <- app_assoc, Hc. subst batch1.
        by rewrite <- app_assoc.
    + exists []. split; [constructor|]. split; [simpl; lia|].
      right. rewrite after_commits_nil. split; [done|].
      split; [by rewrite Nat.add_0_r|].
      exists batch1, (record_write collection_name <$> data).
      split; [by destruct batch1|]. subst batch1. simpl.
      by rewrite <- app_assoc.
    + destruct (IH batch1 w r) as (full & Hf & Hacc & Hcases); [lia|exact E|].
      exists full. split; [done|]. split; [done|].
      destruct Hcases
        as [(rest & -> & Hc & Hr)|(-> & Hno & pending & tail & Hp & Hc)].
      * left. exists rest. split; [done|]. split; [|done].
        rewrite Hc. subst batch1. by rewrite <- app_assoc.
      * right. split; [done|]. split; [done|].
        exists pending, tail. split; [done|].
        rewrite Hc. subst batch1. by rewrite <- app_assoc.
Qed.

(** X12: with an initialised client and a store that may refuse commits,
    [push_to_firebase] never raises.  It commits the writes of the records
    in order, in batches of at most 500, until the store refuses a commit;
    it returns [True] when every write was committed, and otherwise
    [False] after exactly one refused commit, with the batches accepted
    before still committed and the refused batch and all later records
    unwritten. *)
Theorem push_to_firebase_no_rollback (commit_ok : nat → bool)
    (self : GoldPriceManager) (fm : FirebaseManager)
    (data : list GoldPriceData) (collection_name : string) (w : World) :
  firebase_manager self = Some fm → db fm = Some firestore_client →
  ∃ (new : list (list Write)) (b : bool),
    push_to_firebase commit_ok self data collection_name w
    = (if b then after_commits w 0 new
       else after_refusal (after_commits w 0 new), Ok b)
    ∧ Forall (λ c, (0 < length c ≤ 500)%nat) new
    ∧ (∀ i, (i < length new)%nat → commit_ok (commit_calls w + i)%nat = true)
    ∧ if b then concat new = record_write collection_name <$> data
      else commit_ok (commit_calls w + length new)%nat = false
           ∧ ∃ pending tail,
               pending ≠ []
               ∧ concat new ++ pending ++ tail
                 = record_write collection_name <$> data.
Proof.
  intros Hfm Hdb. unfold push_to_firebase. rewrite Hfm, Hdb.
  unfold try_except. rewrite bind_eval. unfold db_batch. rewrite ret_eval.
  rewrite bind_eval.
  match goal with |- context [for_each data ?body ?init ?w0] =>
    change (for_each data body init w0)
      with (for_each data
              (λ item '(batch, batch_count),
                 commit_when_full commit_ok (Some firestore_client)
                   (batch ++ [record_write collection_name item])
                   (batch_count + 1))
              (open_batch []) w0)
  end.
  match goal with |- context [for_each data ?body ?init ?w0] =>
    destruct (for_each data body init w0) as [w1 r1] eqn:E
  end.
  apply push_loop_any in E as (full & Hfull & Hacc & Hcases); [|simpl; lia].
  assert (Hsize : Forall (λ c, (0 < length c ≤ 500)%nat) full).
  { eapply Forall_impl; [exact Hfull|]. simpl. lia. }
  destruct Hcases
    as [(rest & [= -> ->] & Hc & Hr)|([= -> ->] & Hno & pending & tail & Hp & Hc)].
  - unfold open_batch. cbv beta iota. rewrite bind_eval.
    destruct rest as [|x rest].
    + exists full, true. simpl.
      split; [done|]. split; [done|]. split; [done|].
      by rewrite app_nil_r in Hc.
    + change (0 <? Z.of_nat (length (x :: rest))) with true. cbv iota.
      unfold batch_commit.
      change (commit_calls (after_commits w 0 full))
        with (commit_calls w + length full)%nat.
      destruct (commit_ok (commit_calls w + length full)%nat) eqn:Hok.
      * exists (full ++ [x :: rest]), true. rewrite ret_eval.
        split; [|split; [|split]].
        -- unfold after_commits. simpl.
           by rewrite length_app, Nat.add_1_r, Nat.add_succ_r, app_assoc.
        -- apply Forall_app. split; [done|].
           constructor; [simpl in *; lia|constructor].
        -- intros i. rewrite length_app. simpl. intros Hi.
           destruct (decide (i < length full)%nat) as [Hlt|Hge];
             [by apply Hacc|].
           by replace i with (length full) by lia.
        -- rewrite concat_app. simpl. by rewrite app_nil_r.
      * exists full, false. rewrite ret_eval.
        split; [done|]. split; [done|]. split; [done|]. split; [done|].
        exists (x :: rest), []. split; [done|]. by rewrite app_nil_r.
  - exists full, false. rewrite ret_eval.
    split; [done|]. split; [done|]. split; [done|]. split; [done|].
    by exists pending, tail.
Qed.

Lemma push_to_firebase_no_rollback_witness :
  ∃ (new : list (list Write)) (b : bool),
    push_to_firebase never_commit (manager_with_firebase [])
      [record_of "Tanishq" "Mumbai" "22K" "2025-07-21"] "gold_prices"
      initial_world
    = (if b then after_commits initial_world 0 new
       else after_refusal (after_commits initial_world 0 new), Ok b)
    ∧ Forall (λ c, (0 < length c ≤ 500)%nat) new
    ∧ (∀ i, (i < length new)%nat →
            never_commit (commit_calls initial_world + i)%nat = true)
    ∧ if b
      then concat new
           = record_write "gold_prices"
               <$> [record_of "Tanishq" "Mumbai" "22K" "2025-07-21"]
      else never_commit (commit_calls initial_world + length new)%nat = false
           ∧ ∃ pending tail,
               pending ≠ []
               ∧ concat new ++ pending ++ tail
                 = record_write "gold_prices"
                     <$> [record_of "Tanishq" "Mumbai" "22K" "2025-07-21"].
Proof.
  apply (push_to_firebase_no_rollback never_commit (manager_with_firebase [])
           {| db := Some firestore_client;
              service_account_path := Some "firebase_service_account.json" |}
           [record_of "Tanishq" "Mumbai" "22K" "2025-07-21"] "gold_prices"
           initial_world); reflexivity.
Defined.

#[local] Instance store_grows_preorder : PreOrder store_grows.
Proof.
  split.
  - intros w. by repeat split.
  - intros w1 w2 w3 (Hl1 & Ht1 & Hp1 & Hc1) (Hl2 & Ht2 & Hp2 & Hc2).
    repeat split; [congruence|congruence|by etrans|lia].
Qed.

Lemma store_grows_commit (commit_ok : nat → bool) (batch : list Write) :
  keeps store_grows (batch_commit commit_ok batch).
Proof.
  intros w. unfold batch_commit.
  destruct (commit_ok (commit_calls w));
    (split; [done|split; [done|split; [|simpl; lia]]]); simpl.
  - by apply prefix_app_r.
  - done.
Qed.

Lemma store_grows_now (clock : nat → string) : keeps store_grows (now clock).
Proof. intros w. by repeat split. Qed.

Ltac keeps_store :=
  repeat (cbv beta iota zeta;
          first [ apply store_grows_commit | apply store_grows_now
                | keeps_step ]).

Lemma store_grows_push_to_firebase (commit_ok : nat → bool)
    (self : GoldPriceManager) (data : list GoldPriceData)
    (collection_name : string) :
  keeps store_grows (push_to_firebase commit_ok self data collection_name).
Proof. unfold push_to_firebase, commit_when_full, db_batch. keeps_store. Qed.

Lemma store_grows_push_gold_rates (clock : nat → string)
    (commit_ok : nat → bool) (py_str : PyVal → string)
    (self : FirebaseManager) (gold_rates : list (dict PyVal))
    (collection_name : string) :
  keeps store_grows
    (push_gold_rates clock commit_ok py_str self gold_rates collection_name).
Proof. unfold push_gold_rates, commit_when_full, db_batch. keeps_store. Qed.

(** X13: the two upload functions never raise, whatever the store does
    and whatever the rates hold: they return a boolean.  They start no
    browser and sleep for nothing, and what the store held before the call
    is still there after it.  Without an initialised client they return
    [False] and leave the world as it was. *)
Theorem uploads_never_raise (clock : nat → string) (commit_ok : nat → bool)
    (py_str : PyVal → string) (collection_name : string) (w : World) :
  (∀ self data,
     ∃ w' b,
       push_to_firebase commit_ok self data collection_name w = (w', Ok b)
       ∧ store_grows w w'
       ∧ (firebase_manager self = None
          ∨ (∃ fm, firebase_manager self = Some fm ∧ db fm = None) →
          w' = w ∧ b = false))
  ∧ (∀ self gold_rates,
       ∃ w' b,
         push_gold_rates clock commit_ok py_str self gold_rates
           collection_name w = (w', Ok b)
         ∧ store_grows w w'
         ∧ (db self = None → w' = w ∧ b = false)).
Proof.
  split.
  - intros self data.
    assert (Hreturns :
      returns (push_to_firebase commit_ok self data collection_name)).
    { unfold push_to_firebase. destruct (firebase_manager self);
        [apply returns_try_except; intros _|]; apply returns_ret. }
    destruct (Hreturns w) as (w' & b & E). exists w', b.
    split; [exact E|]. split.
    + pose proof (store_grows_push_to_firebase commit_ok self data
                    collection_name w) as H. by rewrite E in H.
    + revert E. unfold push_to_firebase.
      intros E [Hnone|(fm & Hfm & Hdb)].
      * rewrite Hnone in E. by injection E as <- <-.
      * rewrite Hfm, Hdb in E. by injection E as <- <-.
  - intros self gold_rates.
    assert (Hreturns :
      returns (push_gold_rates clock commit_ok py_str self gold_rates
                 collection_name)).
    { unfold push_gold_rates. destruct (db self);
        [apply returns_try_except; intros _|]; apply returns_ret. }
    destruct (Hreturns w) as (w' & b & E). exists w', b.
    split; [exact E|]. split.
    + pose proof (store_grows_push_gold_rates clock commit_ok py_str self
                    gold_rates collection_name w) as H. by rewrite E in H.
    + revert E. unfold push_gold_rates. intros E Hnone.
      rewrite Hnone in E. by injection E as <- <-.
Qed.

Lemma for_each_app {A S} (xs ys : list A) (body : A → S → M S) (acc : S)
    (w : World) :
  for_each (xs ++ ys) body acc w
  = (for_each xs body acc ≫= for_each ys body) w.
Proof.
  revert acc w. induction xs as [|x xs IH]; intros acc w.
  - simpl app. cbn [for_each]. by rewrite bind_eval, ret_eval.
  - simpl app. cbn [for_each]. rewrite !bind_eval.
    destruct (body x acc w) as [w1 [s|e]]; [|done].
    by rewrite IH, bind_eval.
Qed.

(** X14: when the store accepts every commit and one rate lacks the key
    date or the key carat, [push_gold_rates] returns [False].  Of the rates
    before that one, the writes that filled batches of 500 are committed
    and the fewer than 500 writes still waiting are never committed; the
    faulty rate and the rates after it are not written, and the clock is
    read once for each rate before the faulty one. *)
Theorem push_gold_rates_missing_key (clock : nat → string)
    (commit_ok : nat → bool) (py_str : PyVal → string)
    (self : FirebaseManager) (good : list (dict PyVal)) (bad : dict PyVal)
    (rest : list (dict PyVal)) (collection_name : string) (w : World) :
  (∀ k, commit_ok k = true) → db self = Some firestore_client →
  Forall rate_keys good → ¬ rate_keys bad →
  ∃ full pending writes,
    push_gold_rates clock commit_ok py_str self (good ++ bad :: rest)
      collection_name w
    = (after_commits w (length good) full, Ok false)
    ∧ Forall2 (rate_written py_str collection_name) good writes
    ∧ concat full ++ pending = writes
    ∧ Forall (λ c, length c = 500%nat) full
    ∧ (length pending < 500)%nat.
Proof.
  intros Hok Hdb Hgood Hbad. unfold push_gold_rates. rewrite Hdb.
  unfold try_except. rewrite bind_eval. unfold db_batch. rewrite ret_eval.
  rewrite bind_eval, for_each_app, bind_eval.
  destruct (rates_loop_eval clock commit_ok py_str collection_name
              good [] 0 w Hok Hgood)
    as (full & pending & writes & E & Hcat & Hw & Hfull & Hpending);
    [simpl; lia|].
  unfold open_batch in E.
  match goal with |- context [for_each good ?body ?init ?w0] =>
    match type of E with for_each _ ?body' ?init' _ = _ =>
      change (for_each good body init w0)
        with (for_each good body' init' w0)
    end
  end.
  rewrite E. cbn [for_each]. rewrite bind_eval. cbv beta iota.
  rewrite bind_eval. unfold lift at 1.
  exists full, pending, writes.
  split; [|by split].
  destruct (dict_get "date" bad) as [date|e1] eqn:Hd; [|done].
  rewrite bind_eval. unfold lift at 1.
  destruct (dict_get "carat" bad) as [carat|e2] eqn:Hc; [|done].
  destruct Hbad. by exists date, carat.
Qed.

Lemma push_gold_rates_missing_key_witness :
  ∃ full pending writes,
    push_gold_rates sample_clock always_commit (λ _, "")
      {| db := Some firestore_client; service_account_path := None |}
      ([] ++ [("date", PStr "2025-07-21")] :: []) "gold_rates" initial_world
    = (after_commits initial_world (length (@nil (dict PyVal))) full,
       Ok false)
    ∧ Forall2 (rate_written (λ _, "") "gold_rates") [] writes
    ∧ concat full ++ pending = writes
    ∧ Forall (λ c, length c = 500%nat) full
    ∧ (length pending < 500)%nat.
Proof.
  apply (push_gold_rates_missing_key sample_clock always_commit (λ _, "")
           {| db := Some firestore_client; service_account_path := None |}
           [] [("date", PStr "2025-07-21")] [] "gold_rates" initial_world).
  - reflexivity.
  - reflexivity.
  - constructor.
  - intros (date & carat & _ & H). vm_compute in H. discriminate H.
Defined.

(** ** The summary of a run *)

Lemma string_compare_refl (s : string) : String.compare s s = Eq.
Proof.
  pose proof (String.compare_antisym s s) as H.
  by destruct (String.compare s s).
Qed.

Lemma string_leb_refl (s : string) : String.leb s s = true.
Proof. unfold String.leb. by rewrite string_compare_refl. Qed.

Lemma string_leb_trans (a b c : string) :
  String.leb a b = true → String.leb b c = true → String.leb a c = true.
Proof.
  unfold String.leb. revert b c.
  induction a as [|x a IH]; intros [|y b] [|z c]; cbn [String.compare];
    try done.
  unfold Ascii.compare.
  destruct (N.compare_spec (N_of_ascii x) (N_of_ascii y)),
    (N.compare_spec (N_of_ascii y) (N_of_ascii z)),
    (N.compare_spec (N_of_ascii x) (N_of_ascii z));
    try done; try lia.
  apply IH.
Qed.

Lemma string_ltb_leb (a b : string) :
  String.ltb a b = true → String.leb a b = true.
Proof. unfold String.ltb, String.leb. by destruct (String.compare a b). Qed.

Lemma string_not_ltb_leb (a b : string) :
  String.ltb a b = false → String.leb b a = true.
Proof.
  unfold String.ltb, String.leb. rewrite (String.compare_antisym b a).
  by destruct (String.compare a b).
Qed.

Lemma str_max_spec (xs : list string) :
  xs ≠ [] →
  ∃ hi, str_max xs = Some hi ∧ hi ∈ xs
        ∧ ∀ y, y ∈ xs → String.leb y hi = true.
Proof.
  destruct xs as [|x xs]; [done|]. intros _. simpl. eexists.
  split; [reflexivity|]. revert x.
  induction xs as [|y xs IH]; intros x.
  - simpl. split; [by left|].
    intros z ->%list_elem_of_singleton. apply string_leb_refl.
  - cbn [foldl].
    destruct (IH (if String.ltb x y then y else x)) as [Hin Hle].
    assert (Hx : String.leb x (if String.ltb x y then y else x) = true).
    { destruct (String.ltb x y) eqn:E;
        [by apply string_ltb_leb|apply string_leb_refl]. }
    assert (Hy : String.leb y (if String.ltb x y then y else x) = true).
    { destruct (String.ltb x y) eqn:E;
        [apply string_leb_refl|by apply string_not_ltb_leb]. }
    split.
    + apply elem_of_cons in Hin as [->|Hin].
      * destruct (String.ltb x y); [right; left|left].
      * by do 2 right.
    + intros z [->|[->|Hz]%elem_of_cons]%elem_of_cons.
      * eapply string_leb_trans; [exact Hx|]. apply Hle. by left.
      * eapply string_leb_trans; [exact Hy|]. apply Hle. by left.
      * apply Hle. by right.
Qed.

Lemma str_min_spec (xs : list string) :
  xs ≠ [] →
  ∃ lo, str_min xs = Some lo ∧ lo ∈ xs
        ∧ ∀ y, y ∈ xs → String.leb lo y = true.
Proof.
  destruct xs as [|x xs]; [done|]. intros _. simpl. eexists.
  split; [reflexivity|]. revert x.
  induction xs as [|y xs IH]; intros x.
  - simpl. split; [by left|].
    intros z ->%list_elem_of_singleton. apply string_leb_refl.
  - cbn [foldl].
    destruct (IH (if String.ltb y x then y else x)) as [Hin Hle].
    assert (Hx : String.leb (if String.ltb y x then y else x) x = true).
    { destruct (String.ltb y x) eqn:E;
        [by apply string_ltb_leb|apply string_leb_refl]. }
    assert (Hy : String.leb (if String.ltb y x then y else x) y = true).
    { destruct (String.ltb y x) eqn:E;
        [apply string_leb_refl|by apply string_not_ltb_leb]. }
    split.
    + apply elem_of_cons in Hin as [->|Hin].
      * destruct (String.ltb y x); [right; left|left].
      * by do 2 right.
    + intros z [->|[->|Hz]%elem_of_cons]%elem_of_cons.
      * eapply string_leb_trans; [|exact Hx]. apply Hle. by left.
      * eapply string_leb_trans; [|exact Hy]. apply Hle. by left.
      * apply Hle. by right.
Qed.

Lemma collect_sets_inner (D C J : gset string) (data_list : list GoldPriceData) :
  foldl
    (λ '(all_dates, all_cities, all_jewellers) item,
       (all_dates ∪ {[ date item ]}, all_cities ∪ {[ city item ]},
        all_jewellers))
    (D, C, J) data_list
  = (D ∪ list_to_set (date <$> data_list),
     C ∪ list_to_set (city <$> data_list), J).
Proof.
  revert D C. induction data_list as [|item rest IH]; intros D C.
  - simpl. by rewrite !(right_id_L ∅ (∪)).
  - cbn [foldl]. rewrite IH, !fmap_cons, !list_to_set_cons.
    by rewrite !(assoc_L (∪)).
Qed.

Lemma collect_sets_spec (all_data : dict (list GoldPriceData)) :
  collect_sets all_data
  = (list_to_set (date <$> all_records all_data),
     list_to_set (city <$> all_records all_data),
     list_to_set all_data.*1).
Proof.
  unfold collect_sets, all_records.
  enough (∀ (D C J : gset string),
    foldl
      (λ '(all_dates, all_cities, all_jewellers) '(jeweller, data_list),
         let all_jewellers := all_jewellers ∪ {[ jeweller ]} in
         foldl
           (λ '(all_dates, all_cities, all_jewellers) item,
              (all_dates ∪ {[ date item ]}, all_cities ∪ {[ city item ]},
               all_jewellers))
           (all_dates, all_cities, all_jewellers) data_list)
      (D, C, J) all_data
    = (D ∪ list_to_set (date <$> concat all_data.*2),
       C ∪ list_to_set (city <$> concat all_data.*2),
       J ∪ list_to_set all_data.*1)) as H.
  { rewrite H. by rewrite !(left_id_L ∅ (∪)). }
  induction all_data as [|[jeweller data_list] rest IH]; intros D C J.
  - simpl. by rewrite !(right_id_L ∅ (∪)).
  - cbn [foldl]. cbv zeta. rewrite collect_sets_inner, IH.
    rewrite !fmap_cons. cbn [fst snd concat].
    rewrite !fmap_app, !list_to_set_app_L, list_to_set_cons.
    by rewrite !(assoc_L (∪)).
Qed.

Lemma total_entries_spec (all_data : dict (list GoldPriceData)) :
  foldr Z.add 0 ((λ kv, Z.of_nat (length kv.2)) <$> all_data)
  = Z.of_nat (length (all_records all_data)).
Proof.
  unfold all_records. induction all_data as [|[k v] rest IH]; [done|].
  rewrite !fmap_cons. cbn [foldr snd concat]. rewrite IH, length_app. lia.
Qed.

Lemma dict_get_set_eq {V} (k : string) (v : V) (d : dict V) :
  dict_get k (dict_set k v d) = Ok v.
Proof.
  induction d as [|[k' v'] d IH]; cbn [dict_set dict_get].
  - by rewrite String.eqb_refl.
  - destruct (String.eqb k' k) eqn:E; cbn [dict_get]; rewrite ?E; [|done].
    by rewrite String.eqb_refl.
Qed.

Lemma dict_get_set_ne {V} (k k' : string) (v : V) (d : dict V) :
  k ≠ k' → dict_get k' (dict_set k v d) = dict_get k' d.
Proof.
  intros Hne. induction d as [|[k0 v0] d IH]; cbn [dict_set dict_get].
  - by destruct (String.eqb_spec k k').
  - destruct (String.eqb_spec k0 k) as [->|Hk0]; cbn [dict_get].
    + by destruct (String.eqb_spec k k').
    + by rewrite IH.
Qed.

Lemma collect_latest_flat (latest_date : string)
    (all_data : dict (list GoldPriceData)) :
  collect_latest latest_date all_data
  = foldl
      (λ latest_rates item,
         if String.eqb (date item) latest_date
         then dict_set (rate_key item) (to_dict item) latest_rates
         else latest_rates)
      [] (all_records all_data).
Proof.
  unfold collect_latest, all_records. generalize (@nil (string * dict PyVal)).
  induction all_data as [|[k v] rest IH]; intros acc; [done|].
  cbn [foldl]. rewrite fmap_cons. cbn [snd concat].
  by rewrite foldl_app, IH.
Qed.

Lemma collect_latest_get (latest_date : string)
    (all_data : dict (list GoldPriceData)) (k : string) :
  dict_get k (collect_latest latest_date all_data)
  = match last (filter (λ r, date r = latest_date ∧ rate_key r = k)
                  (all_records all_data)) with
    | Some r => Ok (to_dict r)
    | None => Raise (KeyError k)
    end.
Proof.
  rewrite collect_latest_flat. generalize (all_records all_data).
  intros records. induction records as [|r records IH] using rev_ind;
    [done|].
  rewrite foldl_app, filter_app, filter_cons, filter_nil. cbn [foldl].
  destruct (String.eqb_spec (date r) latest_date) as [Hd|Hd].
  - destruct (decide (rate_key r = k)) as [Hk|Hk].
    + rewrite decide_True by done. rewrite last_snoc, Hk.
      apply dict_get_set_eq.
    + rewrite decide_False by tauto. rewrite app_nil_r.
      by rewrite dict_get_set_ne.
  - rewrite decide_False by tauto. by rewrite app_nil_r.
Qed.

(** X15: the summary of any mapping is returned after one reading of the
    clock.  Its total is the number of all records; its jewellers are the
    keys of the mapping and its cities the cities of the records, each
    listed once, and the sentence it carries counts them.  Without records
    the date range is null at both ends and there is no latest rate.  With
    records the range runs from the least to the greatest date in the
    order of strings, and the latest rates hold, under each key
    jeweller_city_carat, the last record of the greatest date with that
    key, and nothing when the greatest date is the empty string. *)
Theorem summary_of_records (clock : nat → string)
    (all_data : dict (list GoldPriceData)) (w : World) :
  let records := all_records all_data in
  let dates := date <$> records in
  ∃ s,
    create_summary_data clock all_data w = (after_commits w 1 [], Ok s)
    ∧ summary s
      = "Gold prices from " +:+ pretty (length (jewellers s))
        +:+ " jewellers across " +:+ pretty (length (cities s)) +:+ " cities"
    ∧ total_entries s = Z.of_nat (length records)
    ∧ scrape_timestamp s = clock (clock_reads w)
    ∧ NoDup (jewellers s) ∧ (∀ j, j ∈ jewellers s ↔ j ∈ all_data.*1)
    ∧ NoDup (cities s) ∧ (∀ c, c ∈ cities s ↔ c ∈ city <$> records)
    ∧ (records = [] →
       date_range_from s = None ∧ date_range_to s = None
       ∧ latest_rates s = [])
    ∧ (records ≠ [] →
       ∃ lo hi,
         date_range_from s = Some lo ∧ date_range_to s = Some hi
         ∧ lo ∈ dates ∧ hi ∈ dates
         ∧ (∀ d, d ∈ dates →
                 String.leb lo d = true ∧ String.leb d hi = true)
         ∧ (hi = "" → latest_rates s = [])
         ∧ (hi ≠ "" →
            ∀ k, dict_get k (latest_rates s)
                 = match last (filter (λ r, date r = hi ∧ rate_key r = k)
                                 records) with
                   | Some r => Ok (to_dict r)
                   | None => Raise (KeyError k)
                   end)).
Proof.
  intros records dates. unfold create_summary_data.
  rewrite collect_sets_spec, total_entries_spec. fold records. fold dates.
  rewrite bind_eval, now_eval, ret_eval.
  eexists. split; [reflexivity|].
  cbn [summary total_entries scrape_timestamp jewellers cities
       date_range_from date_range_to latest_rates].
  split; [done|]. split; [done|]. split; [done|].
  split; [apply NoDup_elements|].
  split; [intros j; by rewrite elem_of_elements, elem_of_list_to_set|].
  split; [apply NoDup_elements|].
  split; [intros c; by rewrite elem_of_elements, elem_of_list_to_set|].
  split.
  - intros Hnil. subst dates. rewrite Hnil. simpl.
    by rewrite bool_decide_eq_true_2.
  - intros Hrecords.
    assert (Hdates : dates ≠ []).
    { subst dates. by destruct records. }
    assert (Hset : (list_to_set dates : gset string) ≠ ∅).
    { destruct dates as [|d ds]; [done|]. rewrite list_to_set_cons.
      intros Hempty. apply (not_elem_of_empty (C := gset string) d).
      rewrite <- Hempty. apply elem_of_union_l, elem_of_singleton_2.
      reflexivity. }
    rewrite !bool_decide_eq_false_2 by done.
    assert (Hel : elements (list_to_set dates : gset string) ≠ []).
    { intros Hnil. by apply elements_empty_inv, leibniz_equiv in Hnil. }
    destruct (str_min_spec _ Hel) as (lo & Elo & Hlo & Hmin).
    destruct (str_max_spec _ Hel) as (hi & Ehi & Hhi & Hmax).
    rewrite Elo, Ehi. exists lo, hi.
    rewrite elem_of_elements, elem_of_list_to_set in Hlo, Hhi.
    split; [done|]. split; [done|]. split; [done|]. split; [done|].
    split; [|split].
    + intros d Hd. split; [apply Hmin|apply Hmax];
        by rewrite elem_of_elements, elem_of_list_to_set.
    + by intros ->.
    + intros Hne k. destruct hi as [|c hi]; [done|].
      apply collect_latest_get.
Qed.

(** ** The Firebase client of a manager *)

Lemma initialize_firebase_spec (sdk : FirebaseSDK) (self : FirebaseManager) :
  service_account_path (initialize_firebase sdk self).1
  = service_account_path self
  ∧ ((initialize_firebase sdk self).2 = true →
     db (initialize_firebase sdk self).1 = Some firestore_client
     ∧ client sdk = Ok firestore_client
     ∧ if apps sdk then get_app sdk = Ok ()
       else match path_given (service_account_path self) with
            | Some p => Certificate sdk p = Ok ()
                        ∧ initialize_app sdk (Some p) = Ok ()
            | None => initialize_app sdk None = Ok ()
            end)
  ∧ ((initialize_firebase sdk self).2 = false →
     (initialize_firebase sdk self).1 = self).
Proof.
  unfold initialize_firebase, initialize_firebase_try.
  destruct (apps sdk).
  - destruct (get_app sdk) as [[]|]; cbn [rbind]; [|done].
    by destruct (client sdk) as [[]|].
  - destruct (path_given (service_account_path self)) as [p|].
    + destruct (Certificate sdk p) as [[]|]; cbn [rbind]; [|done].
      destruct (initialize_app sdk (Some p)) as [[]|]; cbn [rbind]; [|done].
      by destruct (client sdk) as [[]|].
    + destruct (initialize_app sdk None) as [[]|]; cbn [rbind]; [|done].
      by destruct (client sdk) as [[]|].
Qed.

Lemma new_manager_some (web : nat → Page) (clock : nat → string)
    (py_float : string → option float) (sdk : FirebaseSDK)
    (path : option string) (fm : FirebaseManager) :
  firebase_manager (GoldPriceManager_new web clock py_float sdk path)
  = Some fm →
  db fm = Some firestore_client
  ∧ ∃ p, path = Some p ∧ p ≠ "" ∧ service_account_path fm = Some p
         ∧ sdk_accepts sdk p.
Proof.
  unfold GoldPriceManager_new.
  cbn [firebase_manager GoldPriceManager_init].
  destruct path as [p|]; [|done]. cbn [path_given].
  destruct (Str.truthy p) eqn:Hp; [|done].
  pose proof (initialize_firebase_spec sdk (FirebaseManager_init (Some p)))
    as (Hpath & Htrue & _).
  destruct (initialize_firebase sdk (FirebaseManager_init (Some p)))
    as [manager ok].
  destruct ok; [|done]. intros [= <-].
  destruct (Htrue eq_refl) as (Hdb & Hclient & Happ).
  split; [exact Hdb|]. exists p. split; [done|].
  split; [by destruct p|]. split; [exact Hpath|].
  split; [|exact Hclient].
  destruct (apps sdk); [done|].
  cbn [FirebaseManager_init service_account_path path_given] in Happ.
  by rewrite Hp in Happ.
Qed.

Lemma new_manager_accepted (web : nat → Page) (clock : nat → string)
    (py_float : string → option float) (sdk : FirebaseSDK) (p : string) :
  p ≠ "" → sdk_accepts sdk p →
  firebase_manager (GoldPriceManager_new web clock py_float sdk (Some p))
  = Some {| db := Some firestore_client; service_account_path := Some p |}.
Proof.
  intros Hp [Happ Hclient]. unfold GoldPriceManager_new.
  cbn [firebase_manager GoldPriceManager_init path_given].
  assert (Str.truthy p = true) as -> by by destruct p.
  unfold initialize_firebase, initialize_firebase_try.
  cbn [FirebaseManager_init service_account_path path_given].
  assert (Str.truthy p = true) as -> by by destruct p.
  destruct (apps sdk).
  - rewrite Happ. cbn [rbind]. by rewrite Hclient.
  - destruct Happ as [-> ->]. cbn [rbind]. by rewrite Hclient.
Qed.


(** ** Closing the popups *)

#[local] Instance appends_preorder (P : Event → Prop) : PreOrder (appends P).
Proof.
  split.
  - intros w. repeat (split; [done|]). exists []. by rewrite app_nil_r.
  - intros w1 w2 w3 (Hl1 & Hr1 & Hc1 & Hs1 & e1 & E1 & F1)
      (Hl2 & Hr2 & Hc2 & Hs2 & e2 & E2 & F2).
    repeat (split; [congruence|]). exists (e1 ++ e2).
    rewrite E2, E1, app_assoc. split; [done|]. by apply Forall_app.
Qed.

Lemma appends_emit (P : Event → Prop) (ev : Event) :
  P ev → keeps (appends P) (emit ev).
Proof.
  intros Hev w. repeat (split; [done|]). exists [ev]. by repeat constructor.
Qed.

Lemma keeps_for_each_elem (R : World → World → Prop) `{!PreOrder R} {A S}
    (xs : list A) (body : A → S → M S) (acc : S) :
  (∀ x s, x ∈ xs → keeps R (body x s)) → keeps R (for_each xs body acc).
Proof.
  revert acc. induction xs as [|x xs IH]; intros acc Hbody; simpl.
  - apply keeps_ret, _.
  - apply keeps_bind; [apply _|apply Hbody; by left|].
    intros s. apply IH. intros y s' Hy. apply Hbody. by right.
Qed.

Lemma popups_of_selector_hidden (n : nat) (selector : string)
    (popups : list Popup) (w : World) :
  Forall (λ popup, is_displayed popup ≠ Ok true) popups →
  (for_each popups
     (λ popup _,
        displayed ← lift (is_displayed popup);
        if displayed : bool
        then popup_click n selector popup;; sleep 1
        else mret tt)
     tt w).1 = w.
Proof.
  induction 1 as [|popup popups Hpopup _ IH]; [done|].
  cbn [for_each]. rewrite !bind_eval. unfold lift at 1.
  destruct (is_displayed popup) as [[]|e]; [done| |done].
  rewrite ret_eval. exact IH.
Qed.

(** X17: [_close_popups] never raises, whatever the page answers.  All it
    does is click elements found under its six selectors, in the session
    it was given, and sleep one second; it starts or quits no browser and
    reads no clock.  When no element found under a selector is displayed
    it leaves the world as it was. *)
Theorem close_popups_best_effort (web : nat → Page) (n : nat) (w : World) :
  ∃ w',
    _close_popups web n w = (w', Ok ())
    ∧ appends (popup_event n) w w'
    ∧ (no_popup_displayed web n → w' = w).
Proof.
  destruct (close_popups_returns web n w) as (w' & [] & E).
  exists w'. split; [exact E|]. split.
  - assert (Hkeeps : keeps (appends (popup_event n)) (_close_popups web n)).
    { unfold _close_popups. apply keeps_for_each_elem; [apply _|].
      intros selector [] Hsel. unfold popup_click, sleep.
      apply keeps_try_except; [apply _| |intros _; apply keeps_ret, _].
      apply keeps_bind; [apply _|apply keeps_lift, _|intros popups].
      apply keeps_for_each; [apply _|]. intros popup [].
      apply keeps_bind; [apply _|apply keeps_lift, _|intros [|]];
        [|apply keeps_ret, _].
      apply keeps_bind; [apply _| |intros _; apply appends_emit; by left].
      apply keeps_bind; [apply _| |intros _; apply keeps_lift, _].
      apply appends_emit. right. by exists selector. }
    specialize (Hkeeps w). by rewrite E in Hkeeps.
  - intros Hhidden. change w' with (w', @Ok unit ()).1. rewrite <- E.
    unfold _close_popups. generalize popup_selectors. intros selectors.
    induction selectors as [|selector selectors IH]; [done|].
    cbn [for_each]. rewrite bind_eval. unfold try_except at 1.
    rewrite bind_eval. unfold lift at 1.
    destruct (find_elements (web n) selector) as [popups|e] eqn:Hfind.
    + pose proof (popups_of_selector_hidden n selector popups w
                    (Hhidden selector popups Hfind)) as Hsame.
      match type of Hsame with
      | (?run).1 = _ => destruct run as [w1 [[]|e]]
      end; simpl in Hsame; subst w1; rewrite ?ret_eval; exact IH.
    + rewrite ret_eval. exact IH.
Qed.

(** ** Failures of single cities *)

Lemma after_events_nil (w : World) : after_events w [] = w.
Proof. destruct w. unfold after_events. simpl. by rewrite app_nil_r. Qed.

Lemma after_events_app (w : World) (e1 e2 : list Event) :
  after_events (after_events w e1) e2 = after_events w (e1 ++ e2).
Proof. unfold after_events. simpl. by rewrite app_assoc. Qed.

Lemma answered_cons (answer : string → result (list GoldPriceData))
    (c : string) (towns : list string) :
  answered answer (c :: towns)
  = match answer c with
    | Ok l => l :: answered answer towns
    | Raise _ => answered answer towns
    end.
Proof. unfold answered. simpl. by destruct (answer c). Qed.

(** X18: for an adapter whose answer for a city depends on the city only
    and leaves the world alone, [scrape_all_cities] never raises: it
    returns the records of the cities that answered, in the order of the
    supported cities, leaves out the cities that raised, and sleeps two
    seconds after each city that answered and not after one that raised.
    [scrape_jeweller] with cities asked for does not isolate them: it
    raises what the first failing supported city raises, and otherwise
    returns the records of the supported cities asked for without
    sleeping. *)
Theorem scrape_all_cities_isolates_failures (self : GoldPriceManager)
    (name : string) (scraper : BaseJewellerScraper) (days : Z)
    (answer : string → result (list GoldPriceData)) (w : World) :
  dict_lookup name (scrapers self) = Some scraper →
  (∀ c w, scrape_city_prices scraper c days w = (w, answer c)) →
  scrape_all_cities scraper days w
  = (after_events w
       (replicate (length (answered answer (supported_cities scraper)))
          (Sleep 2)),
     Ok (concat (answered answer (supported_cities scraper))))
  ∧ scrape_jeweller self name None days w = scrape_all_cities scraper days w
  ∧ ∀ c cs,
      scrape_jeweller self name (Some (c :: cs)) days w
      = (w, rbind (rmap answer
                     (filter (λ c, c ∈ supported_cities scraper) (c :: cs)))
              (λ lists, Ok (concat lists))).
Proof.
  intros Hlookup Hpure. split; [|split].
  - unfold scrape_all_cities.
    enough (∀ towns acc w,
      for_each towns
        (λ city all_data,
           try_except
             (city_data ← scrape_city_prices scraper city days;
              sleep 2;;
              mret (all_data ++ city_data))
             (λ _, mret all_data))
        acc w
      = (after_events w (replicate (length (answered answer towns)) (Sleep 2)),
         Ok (acc ++ concat (answered answer towns)))) as H by apply H.
    induction towns as [|c towns IH]; intros acc w0.
    + simpl. by rewrite after_events_nil, app_nil_r.
    + cbn [for_each]. rewrite bind_eval. unfold try_except at 1.
      rewrite bind_eval, Hpure, answered_cons.
      destruct (answer c) as [l|e].
      * rewrite bind_eval. unfold sleep, emit. rewrite ret_eval, IH.
        cbn [length replicate concat].
        change (Sleep 2 :: ?evs) with ([Sleep 2] ++ evs).
        by rewrite <- after_events_app, <- app_assoc.
      * rewrite ret_eval, IH. done.
  - unfold scrape_jeweller. by rewrite Hlookup.
  - intros c cs. unfold scrape_jeweller. rewrite Hlookup.
    cbn [cities_given].
    rewrite (for_each_filter (λ c, c ∈ supported_cities scraper) (c :: cs)
               (λ city all_data,
                  city_data ← scrape_city_prices scraper city days;
                  mret (all_data ++ city_data))).
    generalize (filter (λ c, c ∈ supported_cities scraper) (c :: cs)).
    intros towns.
    enough (∀ acc,
      for_each towns
        (λ city all_data,
           city_data ← scrape_city_prices scraper city days;
           mret (all_data ++ city_data))
        acc w
      = (w, rbind (rmap answer towns) (λ lists, Ok (acc ++ concat lists))))
      as H by apply H.
    induction towns as [|c' towns IH]; intros acc.
    + simpl. by rewrite app_nil_r.
    + cbn [for_each rmap]. rewrite !bind_eval, Hpure.
      destruct (answer c') as [l|e]; [|done].
      rewrite ret_eval, IH. cbn [rbind].
      destruct (rmap answer towns) as [lists|e]; [|done].
      cbn [rbind concat]. by rewrite <- app_assoc.
Qed.

Lemma scrape_all_cities_isolates_failures_witness :
  scrape_all_cities flaky_scraper 3 initial_world
  = (after_events initial_world [Sleep 2],
     Ok [record_of "Flaky" "Mumbai" "22K" "2025-07-21"]).
Proof.
  refine (proj1 (scrape_all_cities_isolates_failures
                   {| scrapers := [("flaky", flaky_scraper)];
                      firebase_manager := None |}
                   "flaky" flaky_scraper 3
                   (λ c, if String.eqb c "Delhi" then Raise TimeoutException
                         else Ok [record_of "Flaky" c "22K" "2025-07-21"])
                   initial_world _ _)).
  - reflexivity.
  - intros c w. simpl. by destruct (String.eqb c "Delhi").
Defined.

(** ** The documents of the rates *)

Lemma rates_loop_writes (clock : nat → string) (commit_ok : nat → bool)
    (py_str : PyVal → string) (collection_name : string)
    (gold_rates : list (dict PyVal)) (batch : list Write) (total : Z)
    (w : World) :
  (∀ k, commit_ok k = true) →
  Forall rate_keys gold_rates →
  (length batch < 500)%nat →
  ∃ full rest,
    for_each gold_rates
      (λ rate '(batch, batch_count, total_pushed),
         date ← lift (dict_get "date" rate);
         carat ← lift (dict_get "carat" rate);
         let doc_id :=
           format_value py_str date +:+ "_" +:+ format_value py_str carat in
         updated_at ← now clock;
         let rate_data :=
           dict_set "updated_at" (PStr updated_at)
             (dict_set "source" (PStr "tanishq_scraper")
                (dict_set "timestamp" PServerTimestamp rate)) in
         let batch :=
           batch ++ [ {| write_collection := collection_name;
                         write_document := doc_id;
                         write_data := rate_data;
                         write_merge := true |} ] in
         '(batch, batch_count) ←
           commit_when_full commit_ok (Some firestore_client) batch
             (batch_count + 1);
         mret (batch, batch_count, total_pushed + 1))
      (open_batch batch, total) w
    = (after_commits w (length gold_rates) full,
       Ok (open_batch rest, total + Z.of_nat (length gold_rates)))
    ∧ concat full ++ rest
      = batch ++ imap (λ i, rate_write clock py_str collection_name
                              (clock_reads w + i)) gold_rates
    ∧ Forall (λ c, length c = 500%nat) full
    ∧ (length rest < 500)%nat.
Proof.
  intros Hok Hkeys.
  match goal with |- context [for_each _ ?b _ _] => set (body := b) end.
  revert batch total w.
  induction Hkeys as [|rate gold_rates (date & carat & Hd & Hc) _ IH];
    intros batch total w Hlen.
  - exists [], batch. simpl.
    rewrite after_commits_nil, Z.add_0_r, app_nil_r. done.
  - cbn [for_each]. rewrite bind_eval. unfold body at 1, open_batch at 1.
    cbv beta iota.
    rewrite bind_eval. unfold lift at 1. rewrite Hd.
    rewrite bind_eval. unfold lift at 1. rewrite Hc.
    cbv zeta. rewrite bind_eval, now_eval.
    match goal with |- context [commit_when_full _ _ ?b _] => set (batch1 := b) end.
    assert (Hbatch1 : batch1 = batch ++ [rate_write clock py_str
                                           collection_name (clock_reads w) rate]).
    { subst batch1. unfold rate_write. by rewrite Hd, Hc. }
    clearbody batch1. subst batch1.
    set (batch1 := batch ++ [rate_write clock py_str collection_name
                               (clock_reads w) rate]).
    assert (Hlen1 : length batch1 = S (length batch)).
    { subst batch1. rewrite length_app. simpl. lia. }
    replace (Z.of_nat (length batch) + 1) with (Z.of_nat (length batch1)) by lia.
    rewrite bind_eval, commit_when_full_eval by (done || lia).
    assert (Hn : total + 1 + Z.of_nat (length gold_rates)
                 = total + Z.of_nat (length (rate :: gold_rates)))
      by (simpl length; lia).
    assert (Himap :
      imap (λ i, rate_write clock py_str collection_name (clock_reads w + i))
        (rate :: gold_rates)
      = rate_write clock py_str collection_name (clock_reads w) rate
        :: imap (λ i, rate_write clock py_str collection_name
                        (clock_reads w + 1 + i)) gold_rates).
    { rewrite imap_cons, Nat.add_0_r. f_equal. apply imap_ext.
      intros i x _. simpl. f_equal. lia. }
    rewrite Himap.
    case_bool_decide as Hfull.
    + unfold open_batch in *. cbv beta iota. rewrite ret_eval.
      destruct (IH [] (total + 1) (after_commits (after_commits w 1 []) 0 [batch1]))
        as (full & rest & E & Hcat & Hf & Hr); [simpl; lia|].
      exists (batch1 :: full), rest.
      rewrite E, !after_commits_app.
      split; [by rewrite Hn|].
      split; [|split; [by constructor|done]].
      rewrite concat_cons, <- app_assoc, Hcat. simpl.
      subst batch1. rewrite Nat.add_0_r. by rewrite <- app_assoc.
    + unfold open_batch in *. cbv beta iota. rewrite ret_eval.
      destruct (IH batch1 (total + 1) (after_commits w 1 []))
        as (full & rest & E & Hcat & Hf & Hr); [lia|].
      exists full, rest.
      rewrite E, !after_commits_app.
      split; [by rewrite Hn|].
      split; [|done].
      rewrite Hcat. subst batch1. simpl. by rewrite <- app_assoc.
Qed.

(** X19: when the store accepts every commit and every rate has the keys
    date and carat, [push_gold_rates] commits one document for each rate,
    in order.  The document of a rate is merged into the collection under
    the id date_carat; it holds the server timestamp under timestamp,
    tanishq_scraper under source and the time the clock showed for that
    rate under updated_at, whatever the rate held under these three keys,
    and under every other key what the rate holds. *)
Theorem push_gold_rates_documents (clock : nat → string)
    (commit_ok : nat → bool) (py_str : PyVal → string)
    (self : FirebaseManager) (gold_rates : list (dict PyVal))
    (collection_name : string) (w : World) :
  (∀ k, commit_ok k = true) → db self = Some firestore_client →
  Forall rate_keys gold_rates →
  ∃ new,
    push_gold_rates clock commit_ok py_str self gold_rates collection_name w
    = (after_commits w (length gold_rates) new, Ok true)
    ∧ length (concat new) = length gold_rates
    ∧ ∀ (i : nat) rate,
        gold_rates !! i = Some rate →
        ∃ wr date carat,
          concat new !! i = Some wr
          ∧ dict_get "date" rate = Ok date ∧ dict_get "carat" rate = Ok carat
          ∧ write_collection wr = collection_name ∧ write_merge wr = true
          ∧ write_document wr
            = format_value py_str date +:+ "_" +:+ format_value py_str carat
          ∧ dict_get "timestamp" (write_data wr) = Ok PServerTimestamp
          ∧ dict_get "source" (write_data wr) = Ok (PStr "tanishq_scraper")
          ∧ dict_get "updated_at" (write_data wr)
            = Ok (PStr (clock (clock_reads w + i)%nat))
          ∧ ∀ k, k ∉ ["timestamp"; "source"; "updated_at"] →
                 dict_get k (write_data wr) = dict_get k rate.
Proof.
  intros Hok Hdb Hkeys. unfold push_gold_rates. rewrite Hdb.
  unfold try_except. rewrite bind_eval. unfold db_batch. rewrite ret_eval.
  rewrite bind_eval.
  destruct (rates_loop_writes clock commit_ok py_str collection_name
              gold_rates [] 0 w Hok Hkeys)
    as (full & rest & E & Hcat & Hfull & Hrest); [simpl; lia|].
  unfold open_batch in E.
  match goal with |- context [for_each gold_rates ?body ?init ?w0] =>
    match type of E with for_each _ ?body' ?init' _ = _ =>
      change (for_each gold_rates body init w0)
        with (for_each gold_rates body' init' w0)
    end
  end.
  rewrite E. cbv beta iota.
  rewrite bind_eval, commit_rest_eval by done.
  rewrite ret_eval, after_commits_app.
  exists (with_rest full rest). rewrite Nat.add_0_r.
  split; [done|]. rewrite app_nil_l in Hcat.
  destruct (with_rest_shape full rest _ Hcat Hfull Hrest) as (Hnew & _).
  rewrite Hnew. split; [by rewrite length_imap|].
  intros i rate Hi.
  pose proof (proj1 (Forall_lookup _ _) Hkeys i rate Hi)
    as (date & carat & Hd & Hc).
  exists (rate_write clock py_str collection_name (clock_reads w + i) rate),
    date, carat.
  split; [by rewrite list_lookup_imap, Hi|].
  unfold rate_write. cbn [write_collection write_merge write_document
                           write_data].
  rewrite Hd, Hc. do 5 (split; [done|]).
  split; [|split; [|split]].
  - rewrite !dict_get_set_ne by done. apply dict_get_set_eq.
  - rewrite dict_get_set_ne by done. apply dict_get_set_eq.
  - apply dict_get_set_eq.
  - intros k Hk. rewrite !not_elem_of_cons in Hk.
    destruct Hk as (H1 & H2 & H3 & _).
    by rewrite !dict_get_set_ne by done.
Qed.

Lemma push_gold_rates_documents_witness :
  ∃ new,
    push_gold_rates sample_clock always_commit (λ _, "")
      {| db := Some firestore_client; service_account_path := None |}
      [[("date", PStr "2025-07-21"); ("carat", PStr "22K")]] "gold_rates"
      initial_world
    = (after_commits initial_world 1 new, Ok true).
Proof.
  destruct (push_gold_rates_documents sample_clock always_commit (λ _, "")
              {| db := Some firestore_client; service_account_path := None |}
              [[("date", PStr "2025-07-21"); ("carat", PStr "22K")]]
              "gold_rates" initial_world)
    as (new & E & _).
  - reflexivity.
  - reflexivity.
  - repeat constructor. by exists (PStr "2025-07-21"), (PStr "22K").
  - exists new. exact E.
Defined.

(** ** The document of a record *)

(** X20: the dictionary of a record lists its eight fields in the order
    of the source and loses none of them: two records with the same
    dictionary are the same record.  The document [push_to_firebase]
    queues for a record is that dictionary with the server timestamp
    added under firebase_timestamp, so the queued write determines the
    record as well. *)
Theorem to_dict_loses_nothing (r1 r2 : GoldPriceData)
    (collection_name : string) :
  (to_dict r1).*1
  = ["jeweller"; "city"; "carat"; "price"; "date"; "source_url"; "timestamp";
     "additional_info"]
  ∧ (to_dict r1 = to_dict r2 → r1 = r2)
  ∧ (record_write collection_name r1 = record_write collection_name r2 →
     r1 = r2)
  ∧ dict_get "firebase_timestamp"
      (write_data (record_write collection_name r1)) = Ok PServerTimestamp
  ∧ (∀ k, k ≠ "firebase_timestamp" →
          dict_get k (write_data (record_write collection_name r1))
          = dict_get k (to_dict r1)).
Proof.
  assert (Hinj : ∀ a b, to_dict a = to_dict b → a = b).
  { intros [j1 c1 k1 p1 d1 u1 i1 t1] [j2 c2 k2 p2 d2 u2 i2 t2].
    unfold to_dict. simpl. intros [= -> -> -> -> -> Hu -> ->].
    f_equal. by destruct u1, u2; simplify_eq. }
  split; [done|]. split; [apply Hinj|]. split; [|split].
  - unfold record_write. intros Hwrite. apply Hinj.
    injection Hwrite as _ Hj Hc Hk Hp Hd Hu Ht Hi.
    unfold to_dict. congruence.
  - apply dict_get_set_eq.
  - intros k Hk. unfold record_write. cbn [write_data].
    by rewrite dict_get_set_ne.
Qed.

(** ** The command line *)

Lemma registered_scrape (web : nat → Page) (clock : nat → string)
    (py_float : string → option float) (firebase : option FirebaseManager)
    (name : string) (cities : option (list string)) (days : Z) (w : World) :
  name ∈ jeweller_choices →
  ∃ w' data,
    scrape_jeweller (GoldPriceManager_init web clock py_float firebase) name
      cities days w = (w', Ok data)
    ∧ commit_calls w' = commit_calls w ∧ committed w' = committed w.
Proof.
  unfold jeweller_choices. rewrite !elem_of_cons, elem_of_nil.
  intros [->|[->|[->|[]]]].
  - destruct (scrape_jeweller_tanishq_run web clock py_float firebase cities
                days w) as (w' & data & E & _ & Hc & Hs & _).
    by exists w', data.
  - destruct (placeholder_scrape_jeweller
                (GoldPriceManager_init web clock py_float firebase) "kalyan"
                KalyanJewellersScraper cities days w eq_refl
                (λ _ _, eq_refl)) as (w' & E & _ & Hc & Hs).
    by exists w', [].
  - destruct (placeholder_scrape_jeweller
                (GoldPriceManager_init web clock py_float firebase)
                "joyalukkas" JoyalukkasJewellersScraper cities days w eq_refl
                (λ _ _, eq_refl)) as (w' & E & _ & Hc & Hs).
    by exists w', [].
Qed.

Lemma scrape_requested_eval (web : nat → Page) (clock : nat → string)
    (py_float : string → option float) (firebase : option FirebaseManager)
    (args : Args) (w : World) :
  Forall (λ j, j ∈ jeweller_choices) (args_jewellers args) →
  ∃ w1 all_data,
    scrape_requested (GoldPriceManager_init web clock py_float firebase) args w
    = (w1, Ok all_data)
    ∧ commit_calls w1 = commit_calls w ∧ committed w1 = committed w.
Proof.
  intros Hchoices.
  assert (Hloop : ∀ names acc w0,
    Forall (λ j, j ∈ jeweller_choices) names →
    ∃ w1 all_data,
      for_each names
        (λ jeweller all_data,
           data ← scrape_jeweller
                     (GoldPriceManager_init web clock py_float firebase)
                     jeweller (args_cities args) (args_days args);
           mret (dict_set jeweller data all_data))
        acc w0 = (w1, Ok all_data)
      ∧ commit_calls w1 = commit_calls w0 ∧ committed w1 = committed w0).
  { intros names acc w0 Hnames. revert acc w0.
    induction Hnames as [|name names Hname _ IH]; intros acc w0.
    - by exists w0, acc.
    - destruct (registered_scrape web clock py_float firebase name
                  (args_cities args) (args_days args) w0 Hname)
        as (w1 & data & E & Hc & Hs).
      destruct (IH (dict_set name data acc) w1)
        as (w2 & all_data & E2 & Hc2 & Hs2).
      exists w2, all_data. cbn [for_each].
      rewrite bind_eval, bind_eval, E, ret_eval, E2.
      split; [done|]. split; congruence. }
  unfold scrape_requested.
  destruct (args_jewellers args) as [|name [|name2 names]] eqn:Hargs.
  - by apply Hloop.
  - apply Forall_cons in Hchoices as [Hname _].
    destruct (registered_scrape web clock py_float firebase name
                (args_cities args) (args_days args) w Hname)
      as (w1 & data & E & Hc & Hs).
    exists w1, [(name, data)]. by rewrite bind_eval, E, ret_eval.
  - by apply Hloop.
Qed.

Lemma create_summary_data_eval (clock : nat → string)
    (all_data : dict (list GoldPriceData)) (w : World) :
  ∃ s, create_summary_data clock all_data w = (after_commits w 1 [], Ok s).
Proof.
  unfold create_summary_data.
  destruct (collect_sets all_data) as [[all_dates all_cities] all_jewellers].
  rewrite bind_eval, now_eval, ret_eval. by eexists.
Qed.

Lemma push_to_firebase_returns (commit_ok : nat → bool)
    (self : GoldPriceManager) (data : list GoldPriceData)
    (collection_name : string) :
  returns (push_to_firebase commit_ok self data collection_name).
Proof.
  unfold push_to_firebase. destruct (firebase_manager self);
    [apply returns_try_except; intros _|]; apply returns_ret.
Qed.

Lemma main_eval (web : nat → Page) (clock : nat → string)
    (commit_ok : nat → bool) (py_float : string → option float)
    (sdk : FirebaseSDK) (write_file : string → OutputData → result unit)
    (args : Args) (w : World) :
  Forall (λ j, j ∈ jeweller_choices) (args_jewellers args) →
  let manager := main_manager web clock py_float sdk args in
  ∃ w1 all_data s,
    scrape_requested manager args w = (w1, Ok all_data)
    ∧ commit_calls w1 = commit_calls w ∧ committed w1 = committed w
    ∧ main web clock commit_ok py_float sdk write_file args w
      = match file_step write_file args
                {| output_data := to_dict <$> all_records all_data;
                   output_summary := s |} with
        | Raise e => (after_commits w1 1 [], Raise e)
        | Ok _ =>
            if upload_wanted manager args
            then ((push_to_firebase commit_ok manager (all_records all_data)
                     (args_collection args) (after_commits w1 1 [])).1, Ok ())
            else (after_commits w1 1 [], Ok ())
        end.
Proof.
  intros Hchoices manager.
  destruct (scrape_requested_eval web clock py_float
              (firebase_manager manager) args w Hchoices)
    as (w1 & all_data & E & Hc & Hs).
  destruct (create_summary_data_eval clock all_data w1) as (s & Es).
  exists w1, all_data, s. split; [exact E|]. split; [done|]. split; [done|].
  unfold main. fold (main_manager web clock py_float sdk args). fold manager.
  cbv zeta. rewrite bind_eval.
  change (scrape_requested manager args w)
    with (scrape_requested
            (GoldPriceManager_init web clock py_float
               (firebase_manager manager)) args w).
  rewrite E, bind_eval, Es, bind_eval.
  fold (all_records all_data). unfold file_step.
  fold (upload_wanted manager args).
  assert (Hrest : ∀ w2,
    ((if upload_wanted manager args
      then success ← push_to_firebase commit_ok manager
                       (all_records all_data) (args_collection args);
           mret ()
      else mret ());; mret ()) w2
    = if upload_wanted manager args
      then ((push_to_firebase commit_ok manager (all_records all_data)
               (args_collection args) w2).1, Ok ())
      else (w2, Ok ())).
  { intros w2. rewrite bind_eval. destruct (upload_wanted manager args).
    - rewrite bind_eval.
      destruct (push_to_firebase_returns commit_ok manager
                  (all_records all_data) (args_collection args) w2)
        as (w3 & b & ->).
      by rewrite !ret_eval.
    - by rewrite !ret_eval. }
  destruct (path_given (args_output_file args)) as [path|].
  - unfold lift at 1. destruct (write_file path _) as [[]|e]; [|done].
    apply Hrest.
  - rewrite ret_eval. apply Hrest.
Qed.

Lemma push_to_firebase_accepting (commit_ok : nat → bool)
    (self : GoldPriceManager) (fm : FirebaseManager)
    (data : list GoldPriceData) (collection_name : string) (w : World) :
  (∀ k, commit_ok k = true) →
  firebase_manager self = Some fm → db fm = Some firestore_client →
  ∃ new,
    push_to_firebase commit_ok self data collection_name w
    = (after_commits w 0 new, Ok true)
    ∧ batches_of_500 (record_write collection_name <$> data) new.
Proof.
  intros Hok Hfm Hdb.
  unfold push_to_firebase. rewrite Hfm, Hdb.
  unfold try_except. rewrite bind_eval. unfold db_batch. rewrite ret_eval.
  rewrite bind_eval.
  destruct (push_loop_eval commit_ok collection_name data [] w Hok)
    as (full & rest & E & Hcat & Hfull & Hrest); [simpl; lia|].
  match goal with |- context [for_each data ?body ?init ?w0] =>
    change (for_each data body init w0)
      with (for_each data
              (λ item '(batch, batch_count),
                 commit_when_full commit_ok (Some firestore_client)
                   (batch ++ [record_write collection_name item])
                   (batch_count + 1))
              (open_batch []) w0)
  end.
  rewrite E. unfold open_batch. cbv beta iota.
  rewrite bind_eval, commit_rest_eval by done.
  rewrite ret_eval, after_commits_app.
  exists (with_rest full rest). split; [done|].
  by apply with_rest_shape.
Qed.

(** X21: [main] never validates.  With jewellers among the three choices
    of [--jewellers], an accepted Firebase key, a store that accepts every
    commit and an output file that can be written, [main] returns and has
    then committed one write for every record the scrapers returned, in
    the order of the jewellers and in batches of 500, whatever the prices
    of the records are; scraping itself makes no store call. *)
Theorem main_uploads_every_scraped_record (web : nat → Page)
    (clock : nat → string) (commit_ok : nat → bool)
    (py_float : string → option float) (sdk : FirebaseSDK)
    (write_file : string → OutputData → result unit) (args : Args)
    (p : string) (w : World) :
  Forall (λ j, j ∈ jeweller_choices) (args_jewellers args) →
  args_no_firebase args = false → args_firebase_key args = Some p →
  p ≠ "" → sdk_accepts sdk p →
  (∀ k, commit_ok k = true) →
  (∀ path out, write_file path out = Ok ()) →
  ∃ w1 all_data new,
    scrape_requested (main_manager web clock py_float sdk args) args w
    = (w1, Ok all_data)
    ∧ commit_calls w1 = commit_calls w ∧ committed w1 = committed w
    ∧ main web clock commit_ok py_float sdk write_file args w
      = (after_commits w1 1 new, Ok ())
    ∧ batches_of_500
        (record_write (args_collection args) <$> all_records all_data) new.
Proof.
  intros Hchoices Hno Hkey Hp Haccepts Hok Hfile.
  destruct (main_eval web clock commit_ok py_float sdk write_file args w
              Hchoices) as (w1 & all_data & s & E & Hc & Hs & Emain).
  assert (Hfm : firebase_manager (main_manager web clock py_float sdk args)
                = Some {| db := Some firestore_client;
                          service_account_path := Some p |}).
  { unfold main_manager. rewrite Hno, Hkey. by apply new_manager_accepted. }
  destruct (push_to_firebase_accepting commit_ok
              (main_manager web clock py_float sdk args) _
              (all_records all_data) (args_collection args)
              (after_commits w1 1 []) Hok Hfm eq_refl) as (new & Epush & Hnew).
  exists w1, all_data, new. split; [exact E|]. split; [done|]. split; [done|].
  split; [|exact Hnew].
  rewrite Emain. unfold file_step, upload_wanted.
  rewrite Hno, Hfm, Epush, after_commits_app. cbn [negb andb].
  rewrite bool_decide_eq_true_2 by by eexists.
  by destruct (path_given (args_output_file args)); rewrite ?Hfile.
Qed.

(** X22: [main] raises only what writing the output file raises, and it
    uploads nothing when the file cannot be written, when [--no-firebase]
    is given, when no key or an empty one is given or when the SDK refuses
    the key: in all these runs the store is not called at all.  The
    jewellers are among the three choices of [--jewellers]. *)
Theorem main_without_upload (web : nat → Page) (clock : nat → string)
    (commit_ok : nat → bool) (py_float : string → option float)
    (sdk : FirebaseSDK) (write_file : string → OutputData → result unit)
    (args : Args) (w : World) :
  Forall (λ j, j ∈ jeweller_choices) (args_jewellers args) →
  let run := main web clock commit_ok py_float sdk write_file args w in
  (run.2 = Ok ()
   ∨ ∃ path out e,
       path_given (args_output_file args) = Some path
       ∧ write_file path out = Raise e ∧ run.2 = Raise e)
  ∧ ((∃ e, run.2 = Raise e)
     ∨ args_no_firebase args = true
     ∨ path_given (args_firebase_key args) = None
     ∨ (∃ p, args_firebase_key args = Some p ∧ ¬ sdk_accepts sdk p) →
     commit_calls run.1 = commit_calls w ∧ committed run.1 = committed w).
Proof.
  intros Hchoices run. subst run.
  destruct (main_eval web clock commit_ok py_float sdk write_file args w
              Hchoices) as (w1 & all_data & s & E & Hc & Hs & ->).
  assert (Hoff : args_no_firebase args = true
                 ∨ path_given (args_firebase_key args) = None
                 ∨ (∃ p, args_firebase_key args = Some p
                         ∧ ¬ sdk_accepts sdk p) →
                 upload_wanted (main_manager web clock py_float sdk args) args
                 = false).
  { unfold upload_wanted. intros [->|Hoff]; [done|].
    destruct (args_no_firebase args) eqn:Hno; [done|]. cbn [negb andb].
    apply bool_decide_eq_false_2. intros [fm Hfm].
    unfold main_manager in Hfm. rewrite Hno in Hfm.
    apply new_manager_some in Hfm as (_ & p & Hkey & Hp & _ & Haccepts).
    destruct Hoff as [Hnone|(p' & Hkey' & Hrefused)].
    - rewrite Hkey in Hnone. cbn [path_given] in Hnone.
      by destruct p.
    - rewrite Hkey in Hkey'. injection Hkey' as <-. by apply Hrefused. }
  assert (Hsame : commit_calls (after_commits w1 1 []) = commit_calls w
                  ∧ committed (after_commits w1 1 []) = committed w).
  { simpl. by rewrite Nat.add_0_r, app_nil_r. }
  unfold file_step.
  destruct (path_given (args_output_file args)) as [path|] eqn:Hpath.
  - destruct (write_file path _) as [[]|e] eqn:Hwrite.
    + split.
      * left. by destruct (upload_wanted _ _).
      * intros [[e He]|Hcase].
        { by destruct (upload_wanted _ _). }
        rewrite (Hoff Hcase). exact Hsame.
    + split; [|intros _; exact Hsame]. right. by eexists path, _, e.
  - split.
    + left. by destruct (upload_wanted _ _).
    + intros [[e He]|Hcase].
      { by destruct (upload_wanted _ _). }
      rewrite (Hoff Hcase). exact Hsame.
Qed.

Lemma main_uploads_every_scraped_record_witness :
  ∃ w1 all_data new,
    scrape_requested
      (main_manager (λ _, cheap_page) sample_clock sample_float sample_sdk
         sample_args) sample_args initial_world
    = (w1, Ok all_data)
    ∧ main (λ _, cheap_page) sample_clock always_commit sample_float
        sample_sdk (λ _ _, Ok ()) sample_args initial_world
      = (after_commits w1 1 new, Ok ())
    ∧ batches_of_500 (record_write "gold_prices" <$> all_records all_data) new
    ∧ length (all_records all_data) = 1%nat
    ∧ validate_data (TanishqScraper (λ _, cheap_page) sample_clock sample_float)
        (all_records all_data) = [].
Proof.
  destruct (main_uploads_every_scraped_record (λ _, cheap_page) sample_clock
              always_commit sample_float sample_sdk (λ _ _, Ok ())
              sample_args "key.json" initial_world)
    as (w1 & all_data & new & E & _ & _ & Emain & Hnew).
  - repeat constructor.
  - reflexivity.
  - reflexivity.
  - discriminate.
  - repeat split.
  - reflexivity.
  - reflexivity.
  - exists w1, all_data, new.
    split; [exact E|]. split; [exact Emain|]. split; [exact Hnew|].
    vm_compute in E. injection E as _ <-. split; vm_compute; reflexivity.
Defined.

Lemma main_without_upload_witness :
  let run :=
    main sample_web sample_clock never_commit sample_float sample_sdk
      (λ _ _, Raise WebDriverException)
      {| args_firebase_key := Some "key.json"; args_jewellers := ["kalyan"];
         args_cities := None; args_days := 30;
         args_collection := "gold_prices"; args_no_firebase := true;
         args_output_file := Some "out.json" |} initial_world in
  commit_calls run.1 = commit_calls initial_world
  ∧ committed run.1 = committed initial_world.
Proof.
  refine (proj2 (main_without_upload sample_web sample_clock never_commit
                   sample_float sample_sdk (λ _ _, Raise WebDriverException)
                   {| args_firebase_key := Some "key.json";
                      args_jewellers := ["kalyan"];
                      args_cities := None; args_days := 30;
                      args_collection := "gold_prices";
                      args_no_firebase := true;
                      args_output_file := Some "out.json" |}
                   initial_world _) _).
  - unfold jeweller_choices. repeat constructor.
  - right. left. reflexivity.
Defined.
